(** * Conversation state machine, tools, store and dispatcher of the
    appointment-booking backend

    A shallow embedding of [agent/conversation.py], [agent/tools.py],
    [agent/router.py] and the in-memory branch of [database.py], followed by
    the properties of the dispatcher and of the store.

    Conventions of the embedding.
    - A Python [str] is a Rocq [string] whose characters are read as code
      points below 256.  In that range the regular-expression class [\d] is
      exactly ['0'..'9'] and [str.strip()] removes the characters listed in
      [is_space].
    - A Python value that comes from the classifier (an entity) is a [pyval]:
      [None], a [str] or an [int].
    - A naive [datetime] is the number of microseconds since
      0001-01-01T00:00:00, a [date] is its proleptic Gregorian ordinal
      (0001-01-01 is day 1).  One call of a tool or of the store reads the
      clock once.
    - Mutable objects are threaded explicitly: a tool takes the context and
      the store and returns both.  A reference to an appointment [dict] of the
      in-memory store is its position in the list, which never changes
      because the list only grows. *)

From Stdlib Require Import ZArith Lia Ascii String Sorted.
From stdpp Require Import base gmap strings list pretty.

Local Open Scope Z_scope.
Local Open Scope string_scope.

(** ** Python values *)

Inductive pyval :=
| VNone
| VStr (s : string)
| VInt (n : Z).

#[global] Instance pyval_eq_dec : EqDecision pyval.
Proof. solve_decision. Defined.

(** Truth value of an object: [None], [""] and [0] are false. *)
Definition truthy (v : pyval) : bool :=
  match v with
  | VNone => false
  | VStr s => negb (String.eqb s "")
  | VInt n => negb (n =? 0)%Z
  end.

(** [a or b] *)
Definition py_or (a b : pyval) : pyval := if truthy a then a else b.

(** [str(v)], as an f-string renders a value. *)
Definition pystr (v : pyval) : string :=
  match v with
  | VNone => "None"
  | VStr s => s
  | VInt n => pretty n
  end.

Definition of_optional (o : option string) : pyval :=
  match o with
  | None => VNone
  | Some s => VStr s
  end.

(** ** Strings *)

Definition is_digit (c : ascii) : bool :=
  let n := nat_of_ascii c in (48 <=? n)%nat && (n <=? 57)%nat.

(** Code points below 256 that [str.strip()] treats as white space. *)
Definition is_space (c : ascii) : bool :=
  let n := nat_of_ascii c in
  ((9 <=? n)%nat && (n <=? 13)%nat) || ((28 <=? n)%nat && (n <=? 32)%nat)
  || (n =? 133)%nat || (n =? 160)%nat.

Fixpoint lstrip (s : string) : string :=
  match s with
  | String c s' => if is_space c then lstrip s' else s
  | EmptyString => EmptyString
  end.

Fixpoint rstrip (s : string) : string :=
  match s with
  | String c s' =>
      match rstrip s' with
      | EmptyString => if is_space c then EmptyString else String c EmptyString
      | r => String c r
      end
  | EmptyString => EmptyString
  end.

(** [s.strip()] *)
Definition strip (s : string) : string := rstrip (lstrip s).

(** [s.replace(c, '')] for a one-character [c]. *)
Fixpoint remove_char (c : ascii) (s : string) : string :=
  match s with
  | String a s' =>
      if Ascii.eqb a c then remove_char c s' else String a (remove_char c s')
  | EmptyString => EmptyString
  end.

(** Every character is one of ['0'..'9']. *)
Fixpoint all_digits (s : string) : bool :=
  match s with
  | EmptyString => true
  | String c s' => is_digit c && all_digits s'
  end.

(** [f"{n:02d}"] for a non-negative [n]. *)
Definition fmt02d (n : Z) : string :=
  if (n <? 10)%Z then "0" +:+ pretty n else pretty n.

(** ** Regular expressions, as far as [re.match] is used *)

Module re.

Inductive regex :=
| Void
| Eps
| Chr (c : ascii)
| Digit
| Alt (r1 r2 : regex)
| Cat (r1 r2 : regex)
| Star (r : regex).

(** [r?] and [r{n}] *)
Definition Opt (r : regex) : regex := Alt r Eps.

Fixpoint Rep (n : nat) (r : regex) : regex :=
  match n with
  | O => Eps
  | S n' => Cat r (Rep n' r)
  end.

Fixpoint nullable (r : regex) : bool :=
  match r with
  | Void => false
  | Eps => true
  | Chr _ => false
  | Digit => false
  | Alt r1 r2 => nullable r1 || nullable r2
  | Cat r1 r2 => nullable r1 && nullable r2
  | Star _ => true
  end.

Fixpoint deriv (a : ascii) (r : regex) : regex :=
  match r with
  | Void => Void
  | Eps => Void
  | Chr c => if Ascii.eqb a c then Eps else Void
  | Digit => if is_digit a then Eps else Void
  | Alt r1 r2 => Alt (deriv a r1) (deriv a r2)
  | Cat r1 r2 =>
      if nullable r1 then Alt (Cat (deriv a r1) r2) (deriv a r2)
      else Cat (deriv a r1) r2
  | Star r1 => Cat (deriv a r1) (Star r1)
  end.

(** Whether the whole of [s] belongs to the language of [r]. *)
Fixpoint fullmatch (r : regex) (s : string) : bool :=
  match s with
  | EmptyString => nullable r
  | String a s' => fullmatch (deriv a r) s'
  end.

(** The language of a regular expression, for stating what [fullmatch]
    decides. *)
Inductive lang : regex -> string -> Prop :=
| lang_eps : lang Eps ""
| lang_chr c : lang (Chr c) (String c "")
| lang_digit c : is_digit c = true -> lang Digit (String c "")
| lang_alt_l r1 r2 s : lang r1 s -> lang (Alt r1 r2) s
| lang_alt_r r1 r2 s : lang r2 s -> lang (Alt r1 r2) s
| lang_cat r1 r2 s1 s2 : lang r1 s1 -> lang r2 s2 -> lang (Cat r1 r2) (s1 +:+ s2)
| lang_star_nil r : lang (Star r) ""
| lang_star_cons r s1 s2 :
    lang r s1 -> lang (Star r) s2 -> lang (Star r) (s1 +:+ s2).

(** [$] outside MULTILINE mode holds at the end of the string and just
    before a newline that ends the string. *)
Definition Dollar : regex := Opt (Chr "010").

(** [r'^\+?1?\d{10,}$'] *)
Definition PHONE : regex :=
  Cat (Opt (Chr "+"))
    (Cat (Opt (Chr "1"))
       (Cat (Cat (Rep 10 Digit) (Star Digit)) Dollar)).

(** [re.match(pattern, s)] for a pattern that ends in [$]: a match exists iff
    the pattern with [$] unfolded covers the whole string. *)
Definition match_ (r : regex) (s : string) : bool := fullmatch r s.

End re.

(** ** The pieces of [datetime] the tools call

    They belong to the Python library, so the tools are stated over any
    implementation of this interface; [calendar] below is the proleptic
    Gregorian one, used to run the tools on concrete dates. *)

Module datetime.

Class Library := {
  (** [datetime.fromisoformat(s).date()], [None] for [ValueError] *)
  fromisoformat : string -> option Z;
  (** [datetime.strptime(s, "%H:%M").time()] as (hour, minute), [None] for
      [ValueError] *)
  strptime_HM : string -> option (Z * Z);
  (** [d.isoformat()] *)
  isoformat : Z -> string;
  (** [d.strftime('%A')] *)
  strftime_A : Z -> string
}.

(** [dt.date()] *)
Definition date (dt : Z) : Z := dt / 86400000000 + 1.

(** [(a - b).seconds]: the seconds field of the normalised [timedelta]. *)
Definition delta_seconds (a b : Z) : Z := ((a - b) / 1000000) mod 86400.

Definition is_leap (y : Z) : bool :=
  (y mod 4 =? 0)%Z && (negb (y mod 100 =? 0)%Z || (y mod 400 =? 0)%Z).

Definition days_in_month (y m : Z) : Z :=
  if (m =? 2)%Z then (if is_leap y then 29 else 28)
  else if (m =? 4)%Z || (m =? 6)%Z || (m =? 9)%Z || (m =? 11)%Z then 30
  else 31.

(** Year, month and day of an ordinal. *)
Definition ord2ymd (n : Z) : Z * Z * Z :=
  let z := n + 305 in
  let era := z / 146097 in
  let doe := z - era * 146097 in
  let yoe := (doe - doe / 1460 + doe / 36524 - doe / 146096) / 365 in
  let doy := doe - (365 * yoe + yoe / 4 - yoe / 100) in
  let mp := (5 * doy + 2) / 153 in
  let d := doy - (153 * mp + 2) / 5 + 1 in
  let m := if (mp <? 10)%Z then mp + 3 else mp - 9 in
  let y := yoe + era * 400 + (if (m <=? 2)%Z then 1 else 0) in
  (y, m, d).

Definition ymd2ord (y m d : Z) : Z :=
  let y' := if (m <=? 2)%Z then y - 1 else y in
  let era := y' / 400 in
  let yoe := y' - era * 400 in
  let mp := if (m <=? 2)%Z then m + 9 else m - 3 in
  let doy := (153 * mp + 2) / 5 + d - 1 in
  let doe := yoe * 365 + yoe / 4 - yoe / 100 + doy in
  era * 146097 + doe - 305.

Fixpoint digits_value_aux (acc : Z) (s : string) : option Z :=
  match s with
  | EmptyString => Some acc
  | String c s' =>
      if is_digit c
      then digits_value_aux (10 * acc + (Z.of_nat (nat_of_ascii c) - 48)) s'
      else None
  end.

(** The number written by a non-empty string of decimal digits. *)
Definition digits_value (s : string) : option Z :=
  match s with
  | EmptyString => None
  | _ => digits_value_aux 0 s
  end.

Definition pad (width : nat) (n : Z) : string :=
  let s := pretty n in
  String.concat "" (replicate (width - String.length s) "0") +:+ s.

(** The date-only form YYYY-MM-DD. *)
Definition calendar_fromisoformat (s : string) : option Z :=
  if negb (String.length s =? 10)%nat then None
  else if negb (String.eqb (substring 4 1 s) "-" && String.eqb (substring 7 1 s) "-")
  then None
  else
    match digits_value (substring 0 4 s), digits_value (substring 5 2 s),
          digits_value (substring 8 2 s) with
    | Some y, Some m, Some d =>
        if (1 <=? y)%Z && (1 <=? m)%Z && (m <=? 12)%Z && (1 <=? d)%Z
           && (d <=? days_in_month y m)%Z
        then Some (ymd2ord y m d) else None
    | _, _, _ => None
    end.

Definition calendar_isoformat (n : Z) : string :=
  let '(y, m, d) := ord2ymd n in
  pad 4 y +:+ "-" +:+ pad 2 m +:+ "-" +:+ pad 2 d.

Fixpoint split_colon (s : string) : option (string * string) :=
  match s with
  | EmptyString => None
  | String c s' =>
      if Ascii.eqb c ":" then Some (EmptyString, s')
      else match split_colon s' with
           | Some (h, m) => Some (String c h, m)
           | None => None
           end
  end.

(** One or two digits for the hour (0..23), a colon, one or two digits for
    the minute (0..59). *)
Definition calendar_strptime_HM (s : string) : option (Z * Z) :=
  match split_colon s with
  | Some (hs, ms) =>
      match digits_value hs, digits_value ms with
      | Some h, Some m =>
          if (String.length hs <=? 2)%nat && (String.length ms <=? 2)%nat
             && (h <=? 23)%Z && (m <=? 59)%Z
          then Some (h, m) else None
      | _, _ => None
      end
  | None => None
  end.

(** Day names of the C locale; 0001-01-01 is a Monday. *)
Definition calendar_strftime_A (n : Z) : string :=
  let w := (n + 6) mod 7 in
  if (w =? 0)%Z then "Monday"
  else if (w =? 1)%Z then "Tuesday"
  else if (w =? 2)%Z then "Wednesday"
  else if (w =? 3)%Z then "Thursday"
  else if (w =? 4)%Z then "Friday"
  else if (w =? 5)%Z then "Saturday"
  else "Sunday".

Definition calendar : Library := {|
  fromisoformat := calendar_fromisoformat;
  strptime_HM := calendar_strptime_HM;
  isoformat := calendar_isoformat;
  strftime_A := calendar_strftime_A
|}.

End datetime.

(** ** agent/conversation.py *)

Module conversation.

Inductive ConversationState :=
| UNIDENTIFIED
| IDENTIFIED
| BROWSING_SLOTS
| BOOKING
| CONFIRMING
| RETRIEVING
| CANCELLING
| MODIFYING
| COMPLETED.

#[global] Instance ConversationState_eq_dec : EqDecision ConversationState.
Proof. solve_decision. Defined.

(** [state.value] *)
Definition value (s : ConversationState) : string :=
  match s with
  | UNIDENTIFIED => "unidentified"
  | IDENTIFIED => "identified"
  | BROWSING_SLOTS => "browsing_slots"
  | BOOKING => "booking"
  | CONFIRMING => "confirming"
  | RETRIEVING => "retrieving"
  | CANCELLING => "cancelling"
  | MODIFYING => "modifying"
  | COMPLETED => "completed"
  end.

Record HistoryEntry := {
  role : string;
  content : string;
  timestamp : Z;
  metadata : gmap string pyval
}.

Record ConversationContext := {
  state : ConversationState;
  user_phone : option string;
  user_name : pyval;
  (** the appointment [dict] of the store this context refers to *)
  pending_appointment : option nat;
  conversation_history : list HistoryEntry;
  identified_intents : list string;
  session_id : option string;
  started_at : Z
}.

(** [ConversationContext()] created at instant [t0]. *)
Definition fresh (t0 : Z) : ConversationContext := {|
  state := UNIDENTIFIED;
  user_phone := None;
  user_name := VNone;
  pending_appointment := None;
  conversation_history := [];
  identified_intents := [];
  session_id := None;
  started_at := t0
|}.

Definition set_state (s : ConversationState) (c : ConversationContext) :
  ConversationContext := {|
  state := s;
  user_phone := user_phone c;
  user_name := user_name c;
  pending_appointment := pending_appointment c;
  conversation_history := conversation_history c;
  identified_intents := identified_intents c;
  session_id := session_id c;
  started_at := started_at c
|}.

Definition set_user (phone : string) (name : pyval) (c : ConversationContext) :
  ConversationContext := {|
  state := state c;
  user_phone := Some phone;
  user_name := name;
  pending_appointment := pending_appointment c;
  conversation_history := conversation_history c;
  identified_intents := identified_intents c;
  session_id := session_id c;
  started_at := started_at c
|}.

Definition set_pending_appointment (a : option nat) (c : ConversationContext) :
  ConversationContext := {|
  state := state c;
  user_phone := user_phone c;
  user_name := user_name c;
  pending_appointment := a;
  conversation_history := conversation_history c;
  identified_intents := identified_intents c;
  session_id := session_id c;
  started_at := started_at c
|}.

Definition append_intent (intent : string) (c : ConversationContext) :
  ConversationContext := {|
  state := state c;
  user_phone := user_phone c;
  user_name := user_name c;
  pending_appointment := pending_appointment c;
  conversation_history := conversation_history c;
  identified_intents := identified_intents c ++ [intent];
  session_id := session_id c;
  started_at := started_at c
|}.

(** The table [valid_transitions] of [can_transition_to]. *)
Definition valid_transitions (s : ConversationState) : list ConversationState :=
  match s with
  | UNIDENTIFIED => [IDENTIFIED]
  | IDENTIFIED => [BROWSING_SLOTS; RETRIEVING; CANCELLING; MODIFYING; COMPLETED]
  | BROWSING_SLOTS => [BOOKING; IDENTIFIED]
  | BOOKING => [CONFIRMING; IDENTIFIED]
  | CONFIRMING => [COMPLETED; IDENTIFIED]
  | RETRIEVING => [IDENTIFIED]
  | CANCELLING => [IDENTIFIED]
  | MODIFYING => [IDENTIFIED]
  | COMPLETED => []
  end.

Definition can_transition_to (c : ConversationContext)
  (target_state : ConversationState) : bool :=
  bool_decide (target_state ∈ valid_transitions (state c)).

(** Returns the answer together with the context after the call. *)
Definition transition_to (c : ConversationContext)
  (target_state : ConversationState) : bool * ConversationContext :=
  if can_transition_to c target_state
  then (true, set_state target_state c)
  else (false, c).

Definition add_to_history (c : ConversationContext) (now : Z)
  (role content : string) (metadata : option (gmap string pyval)) :
  ConversationContext := {|
  state := state c;
  user_phone := user_phone c;
  user_name := user_name c;
  pending_appointment := pending_appointment c;
  conversation_history :=
    conversation_history c ++
      [{| role := role; content := content; timestamp := now;
          metadata := default ∅ metadata |}];
  identified_intents := identified_intents c;
  session_id := session_id c;
  started_at := started_at c
|}.

Definition is_identified (c : ConversationContext) : bool :=
  bool_decide (user_phone c ≠ None) && bool_decide (state c ≠ UNIDENTIFIED).

End conversation.

(** ** Results of tools, of the store and of the dispatcher *)

Record Slot := {
  slot_date : string;
  slot_time : string;
  slot_available : bool
}.

#[global] Instance Slot_eq_dec : EqDecision Slot.
Proof. solve_decision. Defined.

Record Summary := {
  summary_user_phone : option string;
  summary_user_name : pyval;
  conversation_turns : nat;
  session_duration_seconds : Z;
  (** the list object of the context, not a copy *)
  intents_identified : list string;
  final_state : string;
  summary_timestamp : Z;
  summary_pending_appointment : option nat
}.

(** The keys of a result [dict] besides success, message and error. *)
Inductive Payload :=
| NoPayload
| PhonePayload (phone : string) (name : option pyval)
| SlotsPayload (slots : list Slot) (total_available : nat)
| AppointmentPayload (appointment : nat) (confirmation_id : option string)
| AppointmentsPayload (appointments : list nat) (user_phone : option string)
| SummaryPayload (summary : Summary)
| StatePayload (current_state : string)
| SuggestionsPayload (suggestions : list string)
| ParamsPayload (required_params : list string).

Record Result := {
  success : bool;
  message : option string;
  error : option string;
  payload : Payload
}.

Definition failure (err : string) (p : Payload) : Result :=
  {| success := false; message := None; error := Some err; payload := p |}.

Definition ok (msg : option string) (p : Payload) : Result :=
  {| success := true; message := msg; error := None; payload := p |}.

(** ** database.py: [AppointmentDB] in mock mode

    The branch [if self.mock_mode:] of each method, which keeps the
    appointments in the list [_mock_appointments].  The other branch hands the
    same queries to the Supabase client, a service outside the repository. *)

Module database.

Record Appointment := {
  id : string;
  user_phone : pyval;
  user_name : pyval;
  appointment_date : pyval;
  appointment_time : pyval;
  status : string;
  notes : pyval;
  created_at : Z
}.

(** The list [self._mock_appointments]. *)
Abbreviation AppointmentDB := (list Appointment).

Definition set_status (s : string) (a : Appointment) : Appointment := {|
  id := id a;
  user_phone := user_phone a;
  user_name := user_name a;
  appointment_date := appointment_date a;
  appointment_time := appointment_time a;
  status := s;
  notes := notes a;
  created_at := created_at a
|}.

Definition set_date_time (d t : pyval) (a : Appointment) : Appointment := {|
  id := id a;
  user_phone := user_phone a;
  user_name := user_name a;
  appointment_date := d;
  appointment_time := t;
  status := status a;
  notes := notes a;
  created_at := created_at a
|}.

(** The test of the double-booking loops: same date, same time, booked. *)
Definition booked_at (d t : pyval) (appt : Appointment) : bool :=
  bool_decide (appointment_date appt = d)
  && bool_decide (appointment_time appt = t)
  && String.eqb (status appt) "booked".

Definition create_appointment (db : AppointmentDB) (now : Z)
  (user_phone : pyval) (user_name : pyval)
  (appointment_date appointment_time : pyval) (notes : pyval) :
  Result * AppointmentDB :=
  let appointment := {|
    id := "mock_" +:+ pretty (length db + 1)%nat;
    user_phone := user_phone;
    user_name := user_name;
    appointment_date := appointment_date;
    appointment_time := appointment_time;
    status := "booked";
    notes := notes;
    created_at := now
  |} in
  if existsb (booked_at appointment_date appointment_time) db
  then (failure "This time slot is already booked. Please choose another time."
          NoPayload, db)
  else (ok None (AppointmentPayload (length db) None), (db ++ [appointment])%list).

(** Positions of the appointments that pass [keep], in list order. *)
Fixpoint select_from (i : nat) (keep : Appointment -> bool)
  (db : AppointmentDB) : list nat :=
  match db with
  | [] => []
  | a :: db' =>
      if keep a then i :: select_from (S i) keep db'
      else select_from (S i) keep db'
  end.

Definition get_user_appointments (db : AppointmentDB) (phone : pyval)
  (status_filter : option string) : Result * AppointmentDB :=
  let by_phone a := bool_decide (user_phone a = phone) in
  let keep :=
    if truthy (of_optional status_filter)
    then fun a => by_phone a && bool_decide (Some (status a) = status_filter)
    else by_phone in
  (ok None (AppointmentsPayload (select_from 0 keep db) None), db).

(** The first appointment whose id equals [appointment_id], with its
    position: where the [for] loop of cancel and modify stops. *)
Definition find_id (appointment_id : pyval) (db : AppointmentDB) :
  option (nat * Appointment) :=
  list_find (fun appt => VStr (id appt) = appointment_id) db.

Definition cancel_appointment (db : AppointmentDB) (appointment_id : pyval)
  (phone : pyval) : Result * AppointmentDB :=
  match find_id appointment_id db with
  | Some (i, appt) =>
      if negb (bool_decide (user_phone appt = phone))
      then (failure "You don't have permission to cancel this appointment."
              NoPayload, db)
      else (ok None (AppointmentPayload i None),
            <[i := set_status "cancelled" appt]> db)
  | None => (failure "Appointment not found." NoPayload, db)
  end.

Definition modify_appointment (db : AppointmentDB) (appointment_id : pyval)
  (phone : pyval) (new_date new_time : pyval) : Result * AppointmentDB :=
  match find_id appointment_id db with
  | Some (i, appt) =>
      if negb (bool_decide (user_phone appt = phone))
      then (failure "You don't have permission to modify this appointment."
              NoPayload, db)
      else
        let check_date := py_or new_date (appointment_date appt) in
        let check_time := py_or new_time (appointment_time appt) in
        if existsb
             (fun other =>
                negb (bool_decide (VStr (id other) = appointment_id))
                && booked_at check_date check_time other) db
        then (failure "The new time slot is already booked." NoPayload, db)
        else
          let d := if truthy new_date then new_date else appointment_date appt in
          let t := if truthy new_time then new_time else appointment_time appt in
          (ok None (AppointmentPayload i None),
           <[i := set_date_time d t appt]> db)
  | None => (failure "Appointment not found." NoPayload, db)
  end.

(** The state of the global [db = AppointmentDB()] when the process starts. *)
Definition empty : AppointmentDB := [].

End database.

(** ** agent/tools.py *)

(** How a call ends: it returns a result [dict] or raises.  The dispatcher
    tells [TypeError] from every other exception. *)
Inductive Outcome :=
| Return (r : Result)
| RaiseTypeError (msg : string)
| RaiseError (msg : string).

Module tools.
Import conversation.

Section WithDatetime.
Context {lib : datetime.Library}.

(** [range(a, b)] *)
Definition range (a b : Z) : list Z := seqZ a (b - a).

Definition AVAILABLE_HOURS : list Z := range 9 17.

Definition AVAILABLE_DAYS : list string :=
  ["Monday"; "Tuesday"; "Wednesday"; "Thursday"; "Friday"].

Definition type_name (v : pyval) : string :=
  match v with
  | VNone => "NoneType"
  | VStr _ => "str"
  | VInt _ => "int"
  end.

(** [phone.strip().replace('-', '').replace(' ', '').replace('(', '').replace(')', '')] *)
Definition normalize_phone (phone : string) : string :=
  remove_char ")" (remove_char "(" (remove_char " " (remove_char "-" (strip phone)))).

Definition identify_user (context : ConversationContext) (db : database.AppointmentDB)
  (phone name : pyval) : Outcome * ConversationContext * database.AppointmentDB :=
  match phone with
  | VStr raw =>
      let phone := normalize_phone raw in
      if negb (re.match_ re.PHONE phone)
      then (Return (failure
              "Invalid phone number format. Please provide a valid 10-digit phone number."
              (PhonePayload phone None)), context, db)
      else
        let context := set_user phone name context in
        let context := snd (transition_to context IDENTIFIED) in
        (Return (ok
           (Some ("Thank you " +:+ pystr (py_or name (VStr "there"))
                  +:+ "! I've identified you with phone number " +:+ phone
                  +:+ ". How can I help you today?"))
           (PhonePayload phone (Some name))), context, db)
  | _ =>
      (RaiseError ("'" +:+ type_name phone +:+ "' object has no attribute 'strip'"),
       context, db)
  end.

(** The slots one day contributes to the list of [fetch_slots]. *)
Definition day_slots (today day_offset : Z) : list Slot :=
  let check_date := today + day_offset in
  let day_name := datetime.strftime_A check_date in
  if bool_decide (day_name ∈ AVAILABLE_DAYS)
  then
    flat_map
      (fun hour =>
         if negb ((hour =? 12)%Z
                  || ((day_offset =? 1)%Z && bool_decide (hour ∈ [9; 10])))
         then [{| slot_date := datetime.isoformat check_date;
                  slot_time := fmt02d hour +:+ ":00";
                  slot_available := true |}]
         else [])
      AVAILABLE_HOURS
  else [].

Definition generate_slots (today : Z) : list Slot :=
  flat_map (day_slots today) (range 1 8).

Definition fetch_slots (context : ConversationContext) (db : database.AppointmentDB)
  (now : Z) (date : pyval) :
  Outcome * ConversationContext * database.AppointmentDB :=
  if negb (is_identified context)
  then (Return (failure
          "Please provide your phone number first so I can check available slots for you."
          NoPayload), context, db)
  else
    let context := snd (transition_to context BROWSING_SLOTS) in
    let slots := generate_slots (datetime.date now) in
    (Return (ok
       (Some ("I found " +:+ pretty (length slots)
              +:+ " available slots in the next week."))
       (SlotsPayload (take 10 slots) (length slots))), context, db).

Definition book_appointment (context : ConversationContext)
  (db : database.AppointmentDB) (now : Z) (date time notes : pyval) :
  Outcome * ConversationContext * database.AppointmentDB :=
  if negb (is_identified context)
  then (Return (failure
          "Please identify yourself first before booking an appointment."
          NoPayload), context, db)
  else
    let invalid_format :=
      (Return (failure
         "Invalid date or time format. Please use YYYY-MM-DD for date and HH:MM for time."
         NoPayload), context, db) in
    match date with
    | VStr date_s =>
        match datetime.fromisoformat date_s with
        | None => invalid_format
        | Some appointment_date =>
            match time with
            | VStr time_s =>
                match datetime.strptime_HM time_s with
                | None => invalid_format
                | Some (hour, _) =>
                    if (appointment_date <? datetime.date now)%Z
                    then (Return (failure
                            "Cannot book appointments in the past. Please choose a future date."
                            NoPayload), context, db)
                    else if negb (bool_decide (hour ∈ AVAILABLE_HOURS))
                    then (Return (failure
                            ("Appointments are only available between 9 AM and 5 PM. You requested "
                             +:+ time_s +:+ ".")
                            NoPayload), context, db)
                    else
                      let '(result, db) :=
                        database.create_appointment db now
                          (of_optional (user_phone context)) (user_name context)
                          date time notes in
                      if negb (success result)
                      then (Return result, context, db)
                      else
                        match payload result with
                        | AppointmentPayload appointment _ =>
                            let context :=
                              set_pending_appointment (Some appointment) context in
                            let context := snd (transition_to context COMPLETED) in
                            let appt_id := database.id <$> db !! appointment in
                            (Return (ok
                               (Some ("Perfect! I've booked your appointment for "
                                      +:+ date_s +:+ " at " +:+ time_s
                                      +:+ ". Confirmation ID: "
                                      +:+ default "N/A" appt_id))
                               (AppointmentPayload appointment appt_id)),
                             context, db)
                        | _ => (RaiseError "'appointment'", context, db)
                        end
                end
            | _ =>
                (RaiseTypeError
                   ("strptime() argument 1 must be str, not " +:+ type_name time),
                 context, db)
            end
        end
    | _ =>
        (RaiseTypeError "fromisoformat: argument must be str", context, db)
    end.

Definition retrieve_appointments (context : ConversationContext)
  (db : database.AppointmentDB) :
  Outcome * ConversationContext * database.AppointmentDB :=
  if negb (is_identified context)
  then (Return (failure "Please provide your phone number first." NoPayload),
        context, db)
  else
    let context := snd (transition_to context RETRIEVING) in
    let '(result, db) :=
      database.get_user_appointments db (of_optional (user_phone context))
        (Some "booked") in
    if negb (success result) then (Return result, context, db)
    else
      match payload result with
      | AppointmentsPayload appointments _ =>
          (Return (ok
             (Some ("You have " +:+ pretty (length appointments)
                    +:+ " upcoming appointment(s)."))
             (AppointmentsPayload appointments (user_phone context))), context, db)
      | _ => (RaiseError "'appointments'", context, db)
      end.

Definition cancel_appointment (context : ConversationContext)
  (db : database.AppointmentDB) (appointment_id : pyval) :
  Outcome * ConversationContext * database.AppointmentDB :=
  if negb (is_identified context)
  then (Return (failure "Please identify yourself first." NoPayload), context, db)
  else
    let context := snd (transition_to context CANCELLING) in
    if negb (truthy appointment_id)
    then (Return (failure
            "Please provide the appointment ID you want to cancel."
            NoPayload), context, db)
    else
      let '(result, db) :=
        database.cancel_appointment db appointment_id
          (of_optional (user_phone context)) in
      if success result
      then
        match payload result with
        | AppointmentPayload appointment _ =>
            (Return (ok (Some "Your appointment has been cancelled successfully.")
                       (AppointmentPayload appointment None)), context, db)
        | _ => (RaiseError "'appointment'", context, db)
        end
      else (Return result, context, db).

Definition modify_appointment (context : ConversationContext)
  (db : database.AppointmentDB) (appointment_id new_date new_time : pyval) :
  Outcome * ConversationContext * database.AppointmentDB :=
  if negb (is_identified context)
  then (Return (failure "Please identify yourself first." NoPayload), context, db)
  else
    let context := snd (transition_to context MODIFYING) in
    if negb (truthy appointment_id)
    then (Return (failure
            "Please provide the appointment ID you want to modify."
            NoPayload), context, db)
    else if negb (truthy new_date) && negb (truthy new_time)
    then (Return (failure
            "Please specify what you'd like to change (date and/or time)."
            NoPayload), context, db)
    else
      let '(result, db) :=
        database.modify_appointment db appointment_id
          (of_optional (user_phone context)) new_date new_time in
      if success result
      then
        let changes :=
          ((if truthy new_date then ["date to " +:+ pystr new_date] else [])
           ++ (if truthy new_time then ["time to " +:+ pystr new_time] else []))%list in
        match payload result with
        | AppointmentPayload appointment _ =>
            (Return (ok
               (Some ("Your appointment has been modified: "
                      +:+ String.concat ", " changes +:+ "."))
               (AppointmentPayload appointment None)), context, db)
        | _ => (RaiseError "'appointment'", context, db)
        end
      else (Return result, context, db).

Definition end_conversation (context : ConversationContext)
  (db : database.AppointmentDB) (now : Z) :
  Outcome * ConversationContext * database.AppointmentDB :=
  let context := snd (transition_to context COMPLETED) in
  let summary := {|
    summary_user_phone := user_phone context;
    summary_user_name := user_name context;
    conversation_turns := length (conversation_history context);
    session_duration_seconds := datetime.delta_seconds now (started_at context);
    intents_identified := identified_intents context;
    final_state := value (state context);
    summary_timestamp := now;
    summary_pending_appointment := pending_appointment context
  |} in
  (Return (ok
     (Some "Thank you for using our appointment system. Here's a summary of our conversation.")
     (SummaryPayload summary)), context, db).

End WithDatetime.
End tools.

(** ** More of [str] and [re], for the keyword classifier *)

Module pystr.

(** [c.lower()] for a code point below 256: A..Z and the capital letters
    of Latin-1 (192..222 without the multiplication sign) move up by 32. *)
Definition lower_char (c : ascii) : ascii :=
  let n := nat_of_ascii c in
  if ((65 <=? n)%nat && (n <=? 90)%nat)
     || ((192 <=? n)%nat && (n <=? 222)%nat && negb (n =? 215)%nat)
  then ascii_of_nat (n + 32) else c.

(** [s.lower()] *)
Fixpoint lower (s : string) : string :=
  match s with
  | EmptyString => EmptyString
  | String c s' => String (lower_char c) (lower s')
  end.

(** [s.startswith(p)] *)
Fixpoint startswith (p s : string) : bool :=
  match p, s with
  | EmptyString, _ => true
  | String a p', String b s' => Ascii.eqb a b && startswith p' s'
  | String _ _, EmptyString => false
  end.

(** [sub in s] *)
Fixpoint contains (sub s : string) : bool :=
  startswith sub s
  || match s with
     | EmptyString => false
     | String _ s' => contains sub s'
     end.

(** [any(word in s for word in words)] *)
Definition any_in (words : list string) (s : string) : bool :=
  existsb (fun word => contains word s) words.

Definition of_rev (cur : list ascii) : string :=
  string_of_list_ascii (rev cur).

(** [s.split(sep)] for a non-empty [sep]: the scan goes left to right; [cur]
    holds the piece being read, last character first, and [skip] counts the
    characters of a separator still to pass over. *)
Fixpoint split_aux (sep : string) (skip : nat) (cur : list ascii) (s : string) :
  list string :=
  match s with
  | EmptyString => [of_rev cur]
  | String c s' =>
      match skip with
      | S k => split_aux sep k cur s'
      | O =>
          if startswith sep s
          then of_rev cur :: split_aux sep (String.length sep - 1) [] s'
          else split_aux sep 0 (c :: cur) s'
      end
  end.

Definition split (sep s : string) : list string := split_aux sep 0 [] s.

(** [s.split()]: the maximal runs of characters that are not white space. *)
Fixpoint split_ws_aux (cur : list ascii) (s : string) : list string :=
  match s with
  | EmptyString => match cur with [] => [] | _ => [of_rev cur] end
  | String c s' =>
      if is_space c
      then match cur with
           | [] => split_ws_aux [] s'
           | _ => of_rev cur :: split_ws_aux [] s'
           end
      else split_ws_aux (c :: cur) s'
  end.

Definition split_ws (s : string) : list string := split_ws_aux [] s.

(** The builtin [str.capitalize].  It is a parameter: for a first letter
    181 or 255 its result has a code point above 255, outside the strings
    modelled here. *)
Class Library := {
  capitalize : string -> string
}.

(** [capitalize] on the modelled strings: the first letter in upper case
    (sharp s becomes Ss), the rest in lower case.  For the first letters 181
    and 255, whose capitals lie above 255, it keeps the letter. *)
Definition upper_first (c : ascii) : string :=
  let n := nat_of_ascii c in
  if (n =? 223)%nat then "Ss"
  else if ((97 <=? n)%nat && (n <=? 122)%nat)
          || ((224 <=? n)%nat && (n <=? 254)%nat && negb (n =? 247)%nat)
  then String (ascii_of_nat (n - 32)) EmptyString
  else String c EmptyString.

Definition latin1_capitalize (s : string) : string :=
  match s with
  | EmptyString => EmptyString
  | String c s' => upper_first c +:+ lower s'
  end.

Definition latin1 : Library := {| capitalize := latin1_capitalize |}.

(** Code points below 256 in the class [\w]. *)
Definition is_word (c : ascii) : bool :=
  let n := nat_of_ascii c in
  is_digit c
  || ((65 <=? n)%nat && (n <=? 90)%nat) || (n =? 95)%nat
  || ((97 <=? n)%nat && (n <=? 122)%nat)
  || (n =? 170)%nat || (n =? 178)%nat || (n =? 179)%nat || (n =? 181)%nat
  || (n =? 185)%nat || (n =? 186)%nat
  || ((188 <=? n)%nat && (n <=? 190)%nat)
  || ((192 <=? n)%nat && negb (n =? 215)%nat && negb (n =? 247)%nat).

(** The class [[-.\s]]. *)
Definition is_sep (c : ascii) : bool :=
  Ascii.eqb c "-" || Ascii.eqb c "." || is_space c.

(** [\d{n}] at the start of [s]: the digits and what follows them. *)
Fixpoint take_digits (n : nat) (s : string) : option (string * string) :=
  match n with
  | O => Some (EmptyString, s)
  | S n' =>
      match s with
      | String c s' =>
          if is_digit c
          then match take_digits n' s' with
               | Some (ds, rest) => Some (String c ds, rest)
               | None => None
               end
          else None
      | EmptyString => None
      end
  end.

(** [[-.\s]?] at the start of [s].  A separator is never a digit, so when
    one is there the only way on is to consume it. *)
Definition take_sep (s : string) : string * string :=
  match s with
  | String c s' => if is_sep c then (String c EmptyString, s') else (EmptyString, s)
  | EmptyString => (EmptyString, EmptyString)
  end.

(** [\d{3}[-.\s]?\d{3}[-.\s]?\d{4}\b] at the start of [s]. *)
Definition phone_here (s : string) : option string :=
  match take_digits 3 s with
  | Some (d1, r1) =>
      let '(p1, r2) := take_sep r1 in
      match take_digits 3 r2 with
      | Some (d2, r3) =>
          let '(p2, r4) := take_sep r3 in
          match take_digits 4 r4 with
          | Some (d3, r5) =>
              match r5 with
              | String c _ =>
                  if is_word c then None
                  else Some (d1 +:+ p1 +:+ d2 +:+ p2 +:+ d3)
              | EmptyString => Some (d1 +:+ p1 +:+ d2 +:+ p2 +:+ d3)
              end
          | None => None
          end
      | None => None
      end
  | None => None
  end.

(** [re.search(r'\b\d{3}[-.\s]?\d{3}[-.\s]?\d{4}\b', s)]: the match at the
    leftmost position that has one; [after_word] tells whether the character
    before [s] is a word character, where the leading [\b] fails. *)
Fixpoint search_phone (after_word : bool) (s : string) : option string :=
  match (if after_word then None else phone_here s) with
  | Some m => Some m
  | None =>
      match s with
      | EmptyString => None
      | String c s' => search_phone (is_word c) s'
      end
  end.

End pystr.

(** A value, or the [IndexError] of [list[0]] on an empty list. *)
Inductive Try (A : Type) :=
| Value (a : A)
| IndexError.
Arguments Value {A} a.
Arguments IndexError {A}.

(** ** agent/router.py: the dispatcher of [IntentRouter] *)

Module router.
Import conversation.

Section WithDatetime.
Context {lib : datetime.Library}.

(** The functions of the registry [AVAILABLE_TOOLS]. *)
Inductive Tool :=
| identify_user
| fetch_slots
| book_appointment
| retrieve_appointments
| cancel_appointment
| modify_appointment
| end_conversation.

Definition AVAILABLE_TOOLS : list (string * Tool) :=
  [("identify_user", identify_user);
   ("fetch_slots", fetch_slots);
   ("book_appointment", book_appointment);
   ("retrieve_appointments", retrieve_appointments);
   ("cancel_appointment", cancel_appointment);
   ("modify_appointment", modify_appointment);
   ("end_conversation", end_conversation)].

Fixpoint assoc {A} (key : string) (table : list (string * A)) : option A :=
  match table with
  | [] => None
  | (k, v) :: table' => if String.eqb k key then Some v else assoc key table'
  end.

(** [self.tool_functions.get(intent)] *)
Definition tool_functions (intent : string) : option Tool :=
  assoc intent AVAILABLE_TOOLS.

(** Keyword parameters of a tool after [context]: the required ones and the
    ones with default [None]. *)
Definition required (t : Tool) : list string :=
  match t with
  | identify_user => ["phone"]
  | book_appointment => ["date"; "time"]
  | cancel_appointment => ["appointment_id"]
  | modify_appointment => ["appointment_id"]
  | fetch_slots | retrieve_appointments | end_conversation => []
  end.

Definition optional (t : Tool) : list string :=
  match t with
  | identify_user => ["name"]
  | fetch_slots => ["date"]
  | book_appointment => ["notes"]
  | modify_appointment => ["new_date"; "new_time"]
  | retrieve_appointments | cancel_appointment | end_conversation => []
  end.

(** Whether [f(context, **entities)] binds: every key names a parameter
    other than [context], and every required parameter has a key. *)
Definition binds (t : Tool) (entities : gmap string pyval) : bool :=
  forallb (fun k => bool_decide (k ∈ (required t ++ optional t)%list))
    (map fst (map_to_list entities))
  && forallb (fun k => bool_decide (is_Some (entities !! k))) (required t).

(** The value a parameter receives; an absent optional one is [None]. *)
Definition arg (entities : gmap string pyval) (k : string) : pyval :=
  default VNone (entities !! k).

(** [tool_function(context, **entities)] *)
Definition call (t : Tool) (context : ConversationContext)
  (db : database.AppointmentDB) (now : Z) (entities : gmap string pyval) :
  Outcome * ConversationContext * database.AppointmentDB :=
  if negb (binds t entities)
  then (RaiseTypeError "unexpected or missing keyword argument", context, db)
  else
    match t with
    | identify_user =>
        tools.identify_user context db (arg entities "phone") (arg entities "name")
    | fetch_slots => tools.fetch_slots context db now (arg entities "date")
    | book_appointment =>
        tools.book_appointment context db now (arg entities "date")
          (arg entities "time") (arg entities "notes")
    | retrieve_appointments => tools.retrieve_appointments context db
    | cancel_appointment =>
        tools.cancel_appointment context db (arg entities "appointment_id")
    | modify_appointment =>
        tools.modify_appointment context db (arg entities "appointment_id")
          (arg entities "new_date") (arg entities "new_time")
    | end_conversation => tools.end_conversation context db now
    end.

(** [_validate_state_for_intent]: the message when the state forbids the
    intent, [None] for [{"valid": True}]. *)
Definition _validate_state_for_intent (intent : string)
  (context : ConversationContext) : option string :=
  if String.eqb intent "identify_user"
  then
    if bool_decide (state context ≠ UNIDENTIFIED)
    then Some ("You're already identified as "
               +:+ pystr (py_or (user_name context) (of_optional (user_phone context)))
               +:+ ".")
    else None
  else if bool_decide
            (intent ∈ ["fetch_slots"; "book_appointment"; "retrieve_appointments";
                       "cancel_appointment"; "modify_appointment"])
  then
    if negb (is_identified context)
    then Some "Please provide your phone number first so I can help you."
    else None
  else None.

Definition _get_suggestions (context : ConversationContext) : list string :=
  if bool_decide (state context = UNIDENTIFIED)
  then ["Please provide your phone number to get started"]
  else if bool_decide (state context = IDENTIFIED)
  then ["Check available appointment slots";
        "View your existing appointments";
        "Book a new appointment"]
  else ["Continue with your current request or say 'help'"].

Definition _get_required_params (intent : string) : list string :=
  default []
    (assoc intent
       [("identify_user", ["phone"]);
        ("book_appointment", ["date"; "time"]);
        ("cancel_appointment", ["appointment_id"]);
        ("modify_appointment", ["appointment_id"])]).

(** The summary of [end_conversation] holds the list object
    [context.identified_intents] itself, so the intent appended after the
    tool returned shows in the result the caller receives. *)
Definition see_intents (context : ConversationContext) (r : Result) : Result :=
  match payload r with
  | SummaryPayload s =>
      {| success := success r; message := message r; error := error r;
         payload := SummaryPayload {|
           summary_user_phone := summary_user_phone s;
           summary_user_name := summary_user_name s;
           conversation_turns := conversation_turns s;
           session_duration_seconds := session_duration_seconds s;
           intents_identified := identified_intents context;
           final_state := final_state s;
           summary_timestamp := summary_timestamp s;
           summary_pending_appointment := summary_pending_appointment s |} |}
  | _ => r
  end.

Definition validate_and_dispatch (intent : string) (entities : gmap string pyval)
  (context : ConversationContext) (db : database.AppointmentDB) (now : Z) :
  Result * ConversationContext * database.AppointmentDB :=
  match tool_functions intent with
  | None =>
      if String.eqb intent "unknown"
      then (failure "I didn't understand that. Could you please rephrase?"
              (SuggestionsPayload (_get_suggestions context)), context, db)
      else (failure ("Unknown intent: " +:+ intent) NoPayload, context, db)
  | Some tool_function =>
      match _validate_state_for_intent intent context with
      | Some msg =>
          (failure msg (StatePayload (value (state context))), context, db)
      | None =>
          match call tool_function context db now entities with
          | (Return result, context, db) =>
              let context := append_intent intent context in
              (see_intents context result, context, db)
          | (RaiseTypeError e, context, db) =>
              (failure ("Invalid parameters for " +:+ intent +:+ ": " +:+ e)
                 (ParamsPayload (_get_required_params intent)), context, db)
          | (RaiseError e, context, db) =>
              (failure ("Error executing " +:+ intent +:+ ": " +:+ e) NoPayload,
               context, db)
          end
      end
  end.

Context {str : pystr.Library}.

(** [.split(sep)[-1].strip().split()[0].capitalize()] on the lowered
    message. *)
Definition name_after (sep message : string) : Try pyval :=
  match pystr.split_ws (strip (List.last (pystr.split sep (pystr.lower message))
                                 EmptyString)) with
  | word :: _ => Value (VStr (pystr.capitalize word))
  | [] => IndexError
  end.

Definition _extract_phone_and_name (message : string) : Try (gmap string pyval) :=
  let phone_match := pystr.search_phone false message in
  let name :=
    if pystr.contains "my name is" (pystr.lower message)
    then name_after "my name is" message
    else if pystr.contains "i'm" (pystr.lower message)
    then name_after "i'm" message
    else Value VNone in
  match name with
  | Value name =>
      Value (<["phone" := of_optional phone_match]> (<["name" := name]> ∅))
  | IndexError => IndexError
  end.

Definition _extract_booking_details (message : string) : gmap string pyval :=
  <["date" := VStr "2026-01-28"]>
    (<["time" := VStr "14:00"]> (<["notes" := VNone]> ∅)).

(** The intent and the entities of a message, by keyword. *)
Definition classify_intent (user_message : string) (context : ConversationContext) :
  Try (string * gmap string pyval) :=
  let user_message_lower := pystr.lower user_message in
  if pystr.any_in ["phone"; "number"; "identify"; "my name is"] user_message_lower
  then
    match _extract_phone_and_name user_message with
    | Value e => Value ("identify_user", e)
    | IndexError => IndexError
    end
  else if pystr.any_in ["available"; "slots"; "when"; "times"] user_message_lower
  then Value ("fetch_slots", ∅)
  else if pystr.any_in ["book"; "schedule"; "appointment"] user_message_lower
  then Value ("book_appointment", _extract_booking_details user_message)
  else if pystr.any_in ["my appointments"; "show"; "list"; "retrieve"]
            user_message_lower
  then Value ("retrieve_appointments", ∅)
  else if pystr.any_in ["cancel"; "delete"] user_message_lower
  then Value ("cancel_appointment", <["appointment_id" := VStr "mock_id"]> ∅)
  else if pystr.any_in ["modify"; "change"; "reschedule"] user_message_lower
  then Value ("modify_appointment", <["appointment_id" := VStr "mock_id"]> ∅)
  else if pystr.any_in ["bye"; "end"; "goodbye"; "finish"] user_message_lower
  then Value ("end_conversation", ∅)
  else Value ("unknown", ∅).

(** [dispatch_tool]: the result of the dispatch with the keys [intent] and
    [entities] added.  An [IndexError] of the classifier is not caught here
    and leaves the context and the store as they were. *)
Definition dispatch_tool (user_message : string) (context : ConversationContext)
  (db : database.AppointmentDB) (now : Z) :
  Try (Result * string * gmap string pyval)
  * ConversationContext * database.AppointmentDB :=
  match classify_intent user_message context with
  | Value (intent, entities) =>
      let '(result, context, db) :=
        validate_and_dispatch intent entities context db now in
      (Value (result, intent, entities), context, db)
  | IndexError => (IndexError, context, db)
  end.

(** One dispatch of a session: the classified intent, its entities and the
    instant of the call. *)
Record Dispatch := {
  intent : string;
  entities : gmap string pyval;
  at_time : Z
}.

(** The context and the store after a sequence of dispatches. *)
Fixpoint dispatch_all (calls : list Dispatch) (context : ConversationContext)
  (db : database.AppointmentDB) : ConversationContext * database.AppointmentDB :=
  match calls with
  | [] => (context, db)
  | c :: calls' =>
      let '(_, context, db) :=
        validate_and_dispatch (intent c) (entities c) context db (at_time c) in
      dispatch_all calls' context db
  end.

End WithDatetime.
End router.

(** ** Sequences of store calls *)

Module store.

Inductive Call :=
| Create (now : Z) (phone name date time notes : pyval)
| Cancel (appointment_id phone : pyval)
| Modify (appointment_id phone new_date new_time : pyval).

Definition run (c : Call) (db : database.AppointmentDB) : database.AppointmentDB :=
  match c with
  | Create now phone name date time notes =>
      snd (database.create_appointment db now phone name date time notes)
  | Cancel appointment_id phone =>
      snd (database.cancel_appointment db appointment_id phone)
  | Modify appointment_id phone new_date new_time =>
      snd (database.modify_appointment db appointment_id phone new_date new_time)
  end.

(** The store after the calls, made one after the other. *)
Definition run_all (calls : list Call) (db : database.AppointmentDB) :
  database.AppointmentDB :=
  fold_left (fun db c => run c db) calls db.

(** No two booked appointments share a date and a time. *)
Definition no_double_booking (db : database.AppointmentDB) : Prop :=
  forall i j a b,
    db !! i = Some a -> db !! j = Some b ->
    database.status a = "booked" -> database.status b = "booked" ->
    database.appointment_date a = database.appointment_date b ->
    database.appointment_time a = database.appointment_time b ->
    i = j.

(** Ids are the ones [create_appointment] hands out, by position. *)
Definition ids_by_position (db : database.AppointmentDB) : Prop :=
  forall i a, db !! i = Some a -> database.id a = "mock_" +:+ pretty (i + 1)%nat.

(** How many booked appointments sit on a date and time. *)
Definition booked_count (d t : pyval) (db : database.AppointmentDB) : nat :=
  length (List.filter (database.booked_at d t) db).

End store.

(** ** The specification's wording, for comparison with the code *)

Module spec.
Import conversation.

(** The transition table of the specification, source to allowed target. *)
Inductive table : ConversationState -> ConversationState -> Prop :=
| t_unidentified : table UNIDENTIFIED IDENTIFIED
| t_identified_browsing : table IDENTIFIED BROWSING_SLOTS
| t_identified_retrieving : table IDENTIFIED RETRIEVING
| t_identified_cancelling : table IDENTIFIED CANCELLING
| t_identified_modifying : table IDENTIFIED MODIFYING
| t_identified_completed : table IDENTIFIED COMPLETED
| t_browsing_booking : table BROWSING_SLOTS BOOKING
| t_browsing_identified : table BROWSING_SLOTS IDENTIFIED
| t_booking_confirming : table BOOKING CONFIRMING
| t_booking_identified : table BOOKING IDENTIFIED
| t_confirming_completed : table CONFIRMING COMPLETED
| t_confirming_identified : table CONFIRMING IDENTIFIED
| t_retrieving_identified : table RETRIEVING IDENTIFIED
| t_cancelling_identified : table CANCELLING IDENTIFIED
| t_modifying_identified : table MODIFYING IDENTIFIED.

Section WithDatetime.
Context {lib : datetime.Library}.

Definition slot_at (d hour : Z) : Slot :=
  {| slot_date := datetime.isoformat d;
     slot_time := fmt02d hour +:+ ":00";
     slot_available := true |}.

(** Every weekday of the next seven days at every start hour 09..16. *)
Definition candidate_slots (today : Z) : list Slot :=
  flat_map
    (fun day_offset =>
       if bool_decide (datetime.strftime_A (today + day_offset) ∈ tools.AVAILABLE_DAYS)
       then map (slot_at (today + day_offset)) tools.AVAILABLE_HOURS
       else [])
    (tools.range 1 8).

(** The store reports a slot as booked. *)
Definition reported_booked (db : database.AppointmentDB) (s : Slot) : bool :=
  existsb (database.booked_at (VStr (slot_date s)) (VStr (slot_time s))) db.

(** The candidates minus exactly the slots the store reports as booked. *)
Definition available_slots (today : Z) (db : database.AppointmentDB) : list Slot :=
  List.filter (fun s => negb (reported_booked db s)) (candidate_slots today).

(** Phone normalisation as the specification words it: the separators
    hyphen, dot, parentheses and space are stripped. *)
Definition normalize_phone (phone : string) : string :=
  remove_char "." (remove_char ")" (remove_char "(" (remove_char " "
    (remove_char "-" phone)))).

End WithDatetime.
End spec.

(** ** Sample sessions on the Gregorian calendar *)

Module sample.
Import conversation.

(** Noon of Tuesday 2026-01-27. *)
Definition now : Z := (739643 - 1) * 86400000000 + 43200000000.

Definition entities (l : list (string * pyval)) : gmap string pyval :=
  list_to_map l.

Definition john : list router.Dispatch :=
  [{| router.intent := "identify_user";
      router.entities := entities [("phone", VStr "555-123-4567"); ("name", VStr "John")];
      router.at_time := now |}].

Definition browse : router.Dispatch :=
  {| router.intent := "fetch_slots"; router.entities := entities [];
     router.at_time := now |}.

Definition retrieve : router.Dispatch :=
  {| router.intent := "retrieve_appointments"; router.entities := entities [];
     router.at_time := now |}.

(** John after identification. *)
Definition identified : ConversationContext :=
  fst (router.dispatch_all (lib := datetime.calendar) john (fresh now) database.empty).

(** John after identification and [fetch_slots]. *)
Definition browsing : ConversationContext :=
  fst (router.dispatch_all (lib := datetime.calendar) (john ++ [browse])
         (fresh now) database.empty).

(** John after identification and [retrieve_appointments]. *)
Definition retrieving : ConversationContext :=
  fst (router.dispatch_all (lib := datetime.calendar) (john ++ [retrieve])
         (fresh now) database.empty).

(** Mary, another caller, after identification. *)
Definition mary : ConversationContext :=
  fst (router.dispatch_all (lib := datetime.calendar)
         [{| router.intent := "identify_user";
             router.entities := entities [("phone", VStr "+1 (555) 987-6543")];
             router.at_time := now |}]
         (fresh now) database.empty).

(** The store after John booked 2026-01-29 at 10:00. *)
Definition johns_booking : database.AppointmentDB :=
  snd (database.create_appointment database.empty now (VStr "5551234567")
         (VStr "John")
         (VStr "2026-01-29") (VStr "10:00") VNone).

(** A store with one appointment booked by someone else on 2026-01-28 at 11:00. *)
Definition one_booking : database.AppointmentDB :=
  snd (database.create_appointment database.empty now (VStr "5550000000") VNone
         (VStr "2026-01-28") (VStr "11:00") VNone).

End sample.

(** * Properties *)

Import conversation.

(** Identification and state in lock-step. *)
Definition lockstep (c : ConversationContext) : Prop :=
  state c <> UNIDENTIFIED <-> user_phone c <> None.

(** What one call may do to the pair of phone and state: keep the phone and
    stay on the same side of [UNIDENTIFIED], or end identified. *)
Definition steady (c c' : ConversationContext) : Prop :=
  (user_phone c' = user_phone c /\ (state c' = UNIDENTIFIED <-> state c = UNIDENTIFIED))
  \/ (user_phone c' <> None /\ state c' <> UNIDENTIFIED).

(** The five intents that work on appointments. *)
Definition appointment_intents : list string :=
  ["fetch_slots"; "book_appointment"; "retrieve_appointments";
   "cancel_appointment"; "modify_appointment"].

(** The key under which [AVAILABLE_TOOLS] holds a tool. *)
Definition tool_name (t : router.Tool) : string :=
  match t with
  | router.identify_user => "identify_user"
  | router.fetch_slots => "fetch_slots"
  | router.book_appointment => "book_appointment"
  | router.retrieve_appointments => "retrieve_appointments"
  | router.cancel_appointment => "cancel_appointment"
  | router.modify_appointment => "modify_appointment"
  | router.end_conversation => "end_conversation"
  end.

(** The states the table lets no tool of the dispatcher leave. *)
Definition settled : list ConversationState :=
  [BROWSING_SLOTS; BOOKING; RETRIEVING; CANCELLING; MODIFYING; COMPLETED].

(** The fields of a context no tool writes. *)
Definition same_log (c c' : ConversationContext) : Prop :=
  conversation_history c' = conversation_history c
  /\ identified_intents c' = identified_intents c
  /\ session_id c' = session_id c
  /\ started_at c' = started_at c.

(** The store holds nothing, or the one appointment the keyword classifier
    can ask for. *)
Definition at_most_the_mock_booking (db : database.AppointmentDB) : Prop :=
  db = []
  \/ exists a, db = [a]
       /\ database.id a = "mock_1"
       /\ database.appointment_date a = VStr "2026-01-28"
       /\ database.appointment_time a = VStr "14:00"
       /\ database.status a = "booked".

(** Every character is a decimal digit, a hyphen or a space. *)
Fixpoint plainly_written (s : string) : bool :=
  match s with
  | EmptyString => true
  | String c s' =>
      (is_digit c || Ascii.eqb c "-" || Ascii.eqb c " ") && plainly_written s'
  end.

(** Splits a tool along every branch it takes and closes each branch with
    [finish]. *)
Ltac by_branches finish := intros; repeat case_match; simplify_eq/=; finish.

(** ** The state machine *)

Lemma can_transition_to_table c t :
  can_transition_to c t = true <-> spec.table (state c) t.
Proof.
  unfold can_transition_to. rewrite bool_decide_eq_true. split.
  - destruct (state c); simpl; intros H;
      repeat (apply elem_of_cons in H as [-> | H]; [constructor |]);
      by apply elem_of_nil in H.
  - intros H. destruct H; simpl; set_solver.
Qed.

Lemma transition_to_state c t :
  state (snd (transition_to c t)) = if can_transition_to c t then t else state c.
Proof. unfold transition_to. by destruct (can_transition_to c t). Qed.

Lemma transition_to_user_phone c t :
  user_phone (snd (transition_to c t)) = user_phone c.
Proof. unfold transition_to. by destruct (can_transition_to c t). Qed.

Lemma transition_to_unidentified c t :
  t <> IDENTIFIED ->
  (state (snd (transition_to c t)) = UNIDENTIFIED <-> state c = UNIDENTIFIED).
Proof.
  intros Ht. rewrite transition_to_state.
  destruct (can_transition_to c t) eqn:E; [| done].
  apply can_transition_to_table in E. split.
  - intros ->. inversion E.
  - intros H. rewrite H in E. inversion E; subst. done.
Qed.

(** C2: [transition_to] answers true exactly on the edges of the
    specification's table and then moves the state to the target, leaving every
    other field alone; on any other pair it answers false and returns the
    context as it was.  It is a total function, so it never raises, and from
    [COMPLETED] it never succeeds. *)
Theorem transition_to_follows_table :
  forall (c : ConversationContext) (t : ConversationState),
    (fst (transition_to c t) = true <-> spec.table (state c) t)
    /\ (t ∈ valid_transitions (state c) <-> spec.table (state c) t)
    /\ (spec.table (state c) t ->
        transition_to c t = (true, set_state t c) /\ state (snd (transition_to c t)) = t)
    /\ (~ spec.table (state c) t -> transition_to c t = (false, c))
    /\ (state c = COMPLETED -> transition_to c t = (false, c)).
Proof.
  intros c t.
  assert (Hc := can_transition_to_table c t).
  unfold transition_to.
  destruct (can_transition_to c t) eqn:E; simpl.
  - assert (Ht : spec.table (state c) t) by (by apply Hc).
    repeat split; try done.
    + unfold can_transition_to in E. by apply bool_decide_eq_true in E.
    + intros Hs. rewrite Hs in Ht. inversion Ht.
  - assert (Ht : ~ spec.table (state c) t).
    { intros H. apply Hc in H. done. }
    unfold can_transition_to in E. apply bool_decide_eq_false in E.
    repeat split; intros; done.
Qed.

(** ** The identification invariant *)

Lemma steady_refl c : steady c c.
Proof. by left. Qed.

Lemma steady_transition c c0 t :
  t <> IDENTIFIED ->
  user_phone c0 = user_phone c -> state c0 = state c ->
  steady c (snd (transition_to c0 t)).
Proof.
  intros Ht Hp Hs. left. rewrite transition_to_user_phone.
  rewrite (transition_to_unidentified _ _ Ht), Hs. done.
Qed.

Lemma steady_lockstep c c' : lockstep c -> steady c c' -> lockstep c'.
Proof.
  unfold lockstep. intros [H1 H2] [[Hp Hs] | [Hp Hs]].
  - rewrite Hp. split; intros H.
    + apply H1. intros E. apply H. by apply Hs.
    + intros E. apply Hs in E. by apply H2 in H.
  - done.
Qed.

Lemma steady_append_intent c c' i : steady c c' -> steady c (append_intent i c').
Proof. done. Qed.

Section WithDatetime.
Context {lib : datetime.Library}.

Lemma identify_user_steady c db phone name o c' db' :
  tools.identify_user c db phone name = (o, c', db') -> steady c c'.
Proof.
  unfold tools.identify_user. intros H.
  repeat case_match; simplify_eq/=; try apply steady_refl.
  right. rewrite transition_to_user_phone, transition_to_state. simpl. split; [done |].
  case_match; [done |].
  unfold can_transition_to in *. simpl in *.
  intros E. rewrite E in *. done.
Qed.

Lemma fetch_slots_steady c db now date o c' db' :
  tools.fetch_slots c db now date = (o, c', db') -> steady c c'.
Proof.
  unfold tools.fetch_slots.
  by_branches ltac:(first [apply steady_refl | by apply steady_transition]).
Qed.

Lemma book_appointment_steady c db now date time notes o c' db' :
  tools.book_appointment c db now date time notes = (o, c', db') -> steady c c'.
Proof.
  unfold tools.book_appointment.
  by_branches ltac:(first [apply steady_refl | by apply steady_transition]).
Qed.

Lemma retrieve_appointments_steady c db o c' db' :
  tools.retrieve_appointments c db = (o, c', db') -> steady c c'.
Proof.
  unfold tools.retrieve_appointments.
  by_branches ltac:(first [apply steady_refl | by apply steady_transition]).
Qed.

Lemma cancel_appointment_steady c db aid o c' db' :
  tools.cancel_appointment c db aid = (o, c', db') -> steady c c'.
Proof.
  unfold tools.cancel_appointment.
  by_branches ltac:(first [apply steady_refl | by apply steady_transition]).
Qed.

Lemma modify_appointment_steady c db aid d t o c' db' :
  tools.modify_appointment c db aid d t = (o, c', db') -> steady c c'.
Proof.
  unfold tools.modify_appointment.
  by_branches ltac:(first [apply steady_refl | by apply steady_transition]).
Qed.

Lemma end_conversation_steady c db now o c' db' :
  tools.end_conversation c db now = (o, c', db') -> steady c c'.
Proof.
  unfold tools.end_conversation.
  by_branches ltac:(first [apply steady_refl | by apply steady_transition]).
Qed.

Lemma call_steady t c db now e o c' db' :
  router.call t c db now e = (o, c', db') -> steady c c'.
Proof.
  unfold router.call. intros H.
  destruct (negb (router.binds t e)); [simplify_eq; apply steady_refl |].
  destruct t;
    eauto using identify_user_steady, fetch_slots_steady, book_appointment_steady,
      retrieve_appointments_steady, cancel_appointment_steady,
      modify_appointment_steady, end_conversation_steady.
Qed.

Lemma validate_and_dispatch_steady intent e c db now r c' db' :
  router.validate_and_dispatch intent e c db now = (r, c', db') -> steady c c'.
Proof.
  unfold router.validate_and_dispatch. intros H.
  destruct (router.tool_functions intent) as [t |].
  - destruct (router._validate_state_for_intent intent c);
      [simplify_eq; apply steady_refl |].
    destruct (router.call t c db now e) as [[o c1] db1] eqn:E.
    apply call_steady in E.
    destruct o; simplify_eq; done.
  - case_match; simplify_eq; apply steady_refl.
Qed.

Lemma dispatch_all_lockstep calls : forall c db,
  lockstep c -> lockstep (fst (router.dispatch_all calls c db)).
Proof.
  induction calls as [| call calls IH]; intros c db Hc; [done |].
  simpl.
  destruct (router.validate_and_dispatch _ _ c db _) as [[r c1] db1] eqn:E.
  apply IH. eapply steady_lockstep; [done |].
  by eapply validate_and_dispatch_steady.
Qed.

(** C1: starting from a fresh context and any store, after every sequence
    of dispatches (whatever the intents, the entities and the instants), the
    state differs from [UNIDENTIFIED] if and only if [user_phone] is set. *)
Theorem identification_invariant :
  forall (calls : list router.Dispatch) (t0 : Z) (db : database.AppointmentDB),
    let c := fst (router.dispatch_all calls (fresh t0) db) in
    state c <> UNIDENTIFIED <-> user_phone c <> None.
Proof.
  intros calls t0 db. apply dispatch_all_lockstep.
  unfold lockstep. simpl. done.
Qed.

Lemma assoc_cons {A} key k (v : A) table :
  router.assoc key ((k, v) :: table)
  = if String.eqb k key then Some v else router.assoc key table.
Proof. reflexivity. Qed.

Lemma tool_functions_other intent :
  intent <> "identify_user" -> intent <> "end_conversation" ->
  intent ∉ appointment_intents -> router.tool_functions intent = None.
Proof.
  intros H1 H2 H3. unfold router.tool_functions, router.AVAILABLE_TOOLS.
  repeat (rewrite assoc_cons;
          match goal with
          | |- context [String.eqb ?k intent] =>
              destruct (String.eqb_spec k intent) as [<- | _]
          end;
          [first [congruence
                 | exfalso; apply H3; unfold appointment_intents;
                   repeat first [apply list_elem_of_here
                                | apply list_elem_of_further]] |]).
  done.
Qed.

(** C6: in state [UNIDENTIFIED], dispatching any intent other than
    [identify_user] and [end_conversation] returns a failure and gives back
    the context (so [user_phone] and [state]) and the store untouched.  For the
    five appointment intents the failure is the one of the state validation,
    which carries the current state and is returned before the tool is
    called; any other name is not a tool at all. *)
Theorem unidentified_dispatch_is_rejected :
  forall (intent : string) (entities : gmap string pyval)
    (c : ConversationContext) (db : database.AppointmentDB) (now : Z),
    state c = UNIDENTIFIED ->
    intent <> "identify_user" -> intent <> "end_conversation" ->
    exists r,
      router.validate_and_dispatch intent entities c db now = (r, c, db)
      /\ success r = false
      /\ (intent ∈ appointment_intents ->
          r = failure "Please provide your phone number first so I can help you."
                (StatePayload "unidentified"))
      /\ (intent ∉ appointment_intents -> router.tool_functions intent = None).
Proof.
  intros intent entities c db now Hs Hn1 Hn2.
  assert (Hid : is_identified c = false).
  { unfold is_identified. rewrite Hs. apply andb_false_intro2. reflexivity. }
  destruct (decide (intent ∈ appointment_intents)) as [Hi | Hi].
  - exists (failure "Please provide your phone number first so I can help you."
              (StatePayload "unidentified")).
    split_and!; [| done | done | done].
    unfold appointment_intents in Hi.
    repeat (apply elem_of_cons in Hi as [-> | Hi];
            [unfold router.validate_and_dispatch, router._validate_state_for_intent;
             simpl; rewrite Hid, Hs; reflexivity |]).
    by apply elem_of_nil in Hi.
  - assert (Hnone := tool_functions_other intent Hn1 Hn2 Hi).
    unfold router.validate_and_dispatch. rewrite Hnone.
    destruct (String.eqb intent "unknown"); eexists; split_and!; done.
Qed.

End WithDatetime.

Lemma unidentified_dispatch_is_rejected_witness :
  exists r,
    router.validate_and_dispatch (lib := datetime.calendar) "book_appointment"
      (sample.entities [("date", VStr "2026-01-28"); ("time", VStr "14:00")])
      (fresh sample.now) database.empty sample.now
    = (r, fresh sample.now, database.empty)
    /\ success r = false
    /\ ("book_appointment" ∈ appointment_intents ->
        r = failure "Please provide your phone number first so I can help you."
              (StatePayload "unidentified"))
    /\ ("book_appointment" ∉ appointment_intents ->
        router.tool_functions "book_appointment" = None).
Proof.
  apply (unidentified_dispatch_is_rejected (lib := datetime.calendar)
           "book_appointment").
  - reflexivity.
  - discriminate.
  - discriminate.
Defined.

(** ** The store: no double booking *)

Lemma booked_at_true d t a :
  database.booked_at d t a = true <->
  database.appointment_date a = d /\ database.appointment_time a = t
  /\ database.status a = "booked".
Proof.
  unfold database.booked_at.
  rewrite !andb_true_iff, !bool_decide_eq_true, String.eqb_eq. tauto.
Qed.

Lemma existsb_false_lookup {A} (f : A -> bool) (l : list A) i a :
  existsb f l = false -> l !! i = Some a -> f a = false.
Proof.
  revert i. induction l as [| x l IH]; intros i; [done |].
  simpl. intros [Hx Hl]%orb_false_iff. destruct i as [| i]; simpl.
  - by intros [= ->].
  - by apply IH.
Qed.

Lemma existsb_true_lookup {A} (f : A -> bool) (l : list A) :
  existsb f l = true -> exists i a, l !! i = Some a /\ f a = true.
Proof.
  induction l as [| x l IH]; [done |].
  simpl. intros [Hx | Hl]%orb_true_iff.
  - by exists 0%nat, x.
  - destruct (IH Hl) as (i & a & ? & ?). by exists (S i), a.
Qed.

Lemma mock_id_inj (i j : nat) :
  "mock_" +:+ pretty (i + 1)%nat = "mock_" +:+ pretty (j + 1)%nat -> i = j.
Proof.
  simpl. intros [= H]. simpl in H. apply pretty_nat_inj in H. lia.
Qed.

Lemma find_id_Some aid db i a :
  database.find_id aid db = Some (i, a) ->
  db !! i = Some a /\ VStr (database.id a) = aid.
Proof. unfold database.find_id. rewrite list_find_Some. tauto. Qed.

Lemma create_keeps db now p n d t notes :
  store.ids_by_position db -> store.no_double_booking db ->
  store.ids_by_position (snd (database.create_appointment db now p n d t notes))
  /\ store.no_double_booking (snd (database.create_appointment db now p n d t notes)).
Proof.
  intros Hid Hnd. unfold database.create_appointment.
  destruct (existsb (database.booked_at d t) db) eqn:E; simpl; [done |].
  split.
  - intros i a [[_ Hi] | [-> <-]]%lookup_snoc_Some; [by apply Hid | done].
  - intros i j a b
      [[_ Hi] | [-> <-]]%lookup_snoc_Some [[_ Hj] | [-> <-]]%lookup_snoc_Some
      Ha Hb Hd Ht; simpl in *.
    + by eapply Hnd.
    + apply (existsb_false_lookup _ _ _ _ E) in Hi.
      assert (database.booked_at d t a = true) by (by apply booked_at_true).
      congruence.
    + apply (existsb_false_lookup _ _ _ _ E) in Hj.
      assert (database.booked_at d t b = true) by (by apply booked_at_true).
      congruence.
    + done.
Qed.

Lemma cancel_keeps db aid p :
  store.ids_by_position db -> store.no_double_booking db ->
  store.ids_by_position (snd (database.cancel_appointment db aid p))
  /\ store.no_double_booking (snd (database.cancel_appointment db aid p)).
Proof.
  intros Hid Hnd. unfold database.cancel_appointment.
  destruct (database.find_id aid db) as [[k x] |] eqn:F; [| done].
  apply find_id_Some in F as [Hk _].
  destruct (negb (bool_decide (database.user_phone x = p))); simpl; [done |].
  split.
  - intros i a [(-> & <- & _) | [_ Hi]]%list_lookup_insert_Some; simpl; by apply Hid.
  - intros i j a b
      [(-> & <- & _) | [Hik Hi]]%list_lookup_insert_Some
      [(-> & <- & _) | [Hjk Hj]]%list_lookup_insert_Some
      Ha Hb Hd Ht; simpl in *; try done.
    by eapply Hnd.
Qed.

Lemma modify_keeps db aid p nd nt :
  store.ids_by_position db -> store.no_double_booking db ->
  store.ids_by_position (snd (database.modify_appointment db aid p nd nt))
  /\ store.no_double_booking (snd (database.modify_appointment db aid p nd nt)).
Proof.
  intros Hid Hnd. unfold database.modify_appointment.
  destruct (database.find_id aid db) as [[k x] |] eqn:F; [| done].
  apply find_id_Some in F as [Hk Hx].
  destruct (negb (bool_decide (database.user_phone x = p))); simpl; [done |].
  destruct (existsb _ db) eqn:E; simpl; [done |].
  assert (Hother : forall j b, k <> j -> db !! j = Some b ->
            database.booked_at (py_or nd (database.appointment_date x))
              (py_or nt (database.appointment_time x)) b = false).
  { intros j b Hjk Hj.
    apply (existsb_false_lookup _ _ _ _ E) in Hj as Hf.
    apply andb_false_iff in Hf as [Hf | Hf]; [| done].
    apply negb_false_iff, bool_decide_eq_true in Hf.
    rewrite <- Hx in Hf. injection Hf as Hf.
    rewrite (Hid _ _ Hj), (Hid _ _ Hk) in Hf. apply mock_id_inj in Hf.
    by destruct Hjk. }
  split.
  - intros i a [(-> & <- & _) | [_ Hi]]%list_lookup_insert_Some; simpl; by apply Hid.
  - unfold py_or in Hother.
    intros i j a b
      [(-> & <- & _) | [Hik Hi]]%list_lookup_insert_Some
      [(-> & <- & _) | [Hjk Hj]]%list_lookup_insert_Some
      Ha Hb Hd Ht; simpl in *; try done.
    + specialize (Hother j b Hjk Hj).
      assert (database.booked_at
                (if truthy nd then nd else database.appointment_date x)
                (if truthy nt then nt else database.appointment_time x) b = true)
        by (by apply booked_at_true).
      congruence.
    + specialize (Hother i a Hik Hi).
      assert (database.booked_at
                (if truthy nd then nd else database.appointment_date x)
                (if truthy nt then nt else database.appointment_time x) a = true)
        by (by apply booked_at_true).
      congruence.
    + by eapply Hnd.
Qed.

Lemma run_keeps c db :
  store.ids_by_position db -> store.no_double_booking db ->
  store.ids_by_position (store.run c db) /\ store.no_double_booking (store.run c db).
Proof.
  destruct c; simpl; auto using create_keeps, cancel_keeps, modify_keeps.
Qed.

Lemma run_all_keeps calls : forall db,
  store.ids_by_position db -> store.no_double_booking db ->
  store.ids_by_position (store.run_all calls db)
  /\ store.no_double_booking (store.run_all calls db).
Proof.
  induction calls as [| c calls IH]; intros db Hid Hnd; [done |].
  simpl. destruct (run_keeps c db Hid Hnd). by apply IH.
Qed.

Lemma reachable_store calls :
  store.ids_by_position (store.run_all calls database.empty)
  /\ store.no_double_booking (store.run_all calls database.empty).
Proof. apply run_all_keeps; by intros i a. Qed.

Lemma booked_count_zero d t db :
  store.booked_count d t db = 0%nat <-> existsb (database.booked_at d t) db = false.
Proof.
  unfold store.booked_count. induction db as [| a db IH]; simpl; [done |].
  destruct (database.booked_at d t a); simpl; [split; done |]. done.
Qed.

Lemma booked_count_app d t db1 db2 :
  store.booked_count d t (db1 ++ db2)%list =
  (store.booked_count d t db1 + store.booked_count d t db2)%nat.
Proof. unfold store.booked_count. by rewrite List.filter_app, length_app. Qed.

Lemma no_double_booking_tail a db :
  store.no_double_booking (a :: db) -> store.no_double_booking db.
Proof.
  intros H i j x y Hi Hj ????.
  assert (S i = S j) by (by eapply H). lia.
Qed.

Lemma booked_count_le_1 d t db :
  store.no_double_booking db -> (store.booked_count d t db <= 1)%nat.
Proof.
  induction db as [| a db IH]; intros Hnd; [unfold store.booked_count; simpl; lia |].
  specialize (IH (no_double_booking_tail _ _ Hnd)).
  change (a :: db) with ([a] ++ db)%list.
  rewrite booked_count_app. unfold store.booked_count at 1. simpl.
  destruct (database.booked_at d t a) eqn:Ea; simpl; [| done].
  enough (store.booked_count d t db = 0%nat) as -> by lia.
  apply booked_count_zero.
  destruct (existsb (database.booked_at d t) db) eqn:E; [| done].
  apply existsb_true_lookup in E as (i & b & Hi & Hb).
  apply booked_at_true in Ea as (? & ? & ?). apply booked_at_true in Hb as (? & ? & ?).
  assert (0%nat = S i) by (eapply Hnd; [done | done | ..]; congruence).
  done.
Qed.

Section WithDatetime.
Context {lib : datetime.Library}.

Lemma hour_available h : 9 <= h <= 16 -> h ∈ tools.AVAILABLE_HOURS.
Proof.
  intros H. unfold tools.AVAILABLE_HOURS, tools.range. apply elem_of_seqZ. lia.
Qed.

Lemma book_appointment_taken c db now date time notes d h m :
  is_identified c = true ->
  datetime.fromisoformat date = Some d -> datetime.strptime_HM time = Some (h, m) ->
  datetime.date now <= d -> 9 <= h <= 16 ->
  existsb (database.booked_at (VStr date) (VStr time)) db = true ->
  tools.book_appointment c db now (VStr date) (VStr time) notes =
    (Return (failure "This time slot is already booked. Please choose another time."
               NoPayload), c, db).
Proof.
  intros Hi Hd Ht Hfut Hh E. unfold tools.book_appointment.
  rewrite Hi, Hd, Ht. simpl.
  destruct (Z.ltb_spec d (datetime.date now)); [lia |].
  rewrite (bool_decide_eq_true_2 _ (hour_available h Hh)). simpl.
  unfold database.create_appointment. rewrite E. done.
Qed.

Lemma book_appointment_free c db now date time notes d h m :
  is_identified c = true ->
  datetime.fromisoformat date = Some d -> datetime.strptime_HM time = Some (h, m) ->
  datetime.date now <= d -> 9 <= h <= 16 ->
  existsb (database.booked_at (VStr date) (VStr time)) db = false ->
  tools.book_appointment c db now (VStr date) (VStr time) notes =
    (Return (ok
       (Some ("Perfect! I've booked your appointment for " +:+ date +:+ " at "
              +:+ time +:+ ". Confirmation ID: "
              +:+ ("mock_" +:+ pretty (length db + 1)%nat)))
       (AppointmentPayload (length db) (Some ("mock_" +:+ pretty (length db + 1)%nat)))),
     snd (transition_to (set_pending_appointment (Some (length db)) c) COMPLETED),
     (db ++ [{| database.id := "mock_" +:+ pretty (length db + 1)%nat;
                database.user_phone := of_optional (user_phone c);
                database.user_name := user_name c;
                database.appointment_date := VStr date;
                database.appointment_time := VStr time;
                database.status := "booked";
                database.notes := notes;
                database.created_at := now |}])%list).
Proof.
  intros Hi Hd Ht Hfut Hh E. unfold tools.book_appointment.
  rewrite Hi, Hd, Ht. simpl.
  destruct (Z.ltb_spec d (datetime.date now)); [lia |].
  rewrite (bool_decide_eq_true_2 _ (hour_available h Hh)). simpl.
  unfold database.create_appointment. rewrite E. simpl.
  rewrite lookup_app_r, Nat.sub_diag by lia. done.
Qed.

(** Two [book_appointment] calls that write the date and the time the same
    way, counted with the test of the store. *)
Lemma two_bookings_written_alike :
  forall calls : list store.Call,
    let db := store.run_all calls database.empty in
    store.no_double_booking db
    /\ forall (c1 c2 : ConversationContext) (now1 now2 : Z) (date time : string)
         (notes1 notes2 : pyval) (d h m : Z),
         is_identified c1 = true -> is_identified c2 = true ->
         datetime.fromisoformat date = Some d ->
         datetime.strptime_HM time = Some (h, m) ->
         datetime.date now1 <= d -> datetime.date now2 <= d -> 9 <= h <= 16 ->
         exists r1 c1' db1 c2',
           tools.book_appointment c1 db now1 (VStr date) (VStr time) notes1
             = (Return r1, c1', db1)
           /\ tools.book_appointment c2 db1 now2 (VStr date) (VStr time) notes2
             = (Return (failure
                  "This time slot is already booked. Please choose another time."
                  NoPayload), c2', db1)
           /\ (success r1 = true <->
               store.booked_count (VStr date) (VStr time) db = 0%nat)
           /\ store.booked_count (VStr date) (VStr time) db1 = 1%nat
           /\ store.no_double_booking db1.
Proof.
  intros calls db.
  destruct (reachable_store calls) as [Hid Hnd]. fold db in Hid, Hnd.
  split; [done |].
  intros c1 c2 now1 now2 date time notes1 notes2 d h m Hi1 Hi2 Hd Ht Hf1 Hf2 Hh.
  destruct (existsb (database.booked_at (VStr date) (VStr time)) db) eqn:E.
  - eexists _, _, _, _.
    split; [by eapply book_appointment_taken |].
    split; [by eapply book_appointment_taken |].
    assert (Hc := booked_count_le_1 (VStr date) (VStr time) db Hnd).
    assert (store.booked_count (VStr date) (VStr time) db <> 0%nat).
    { rewrite booked_count_zero. congruence. }
    simpl. split_and!; [split; [done | lia] | lia | done].
  - eexists _, _, _, _.
    split; [by eapply book_appointment_free |].
    assert (Hb : database.booked_at (VStr date) (VStr time)
              {| database.id := "mock_" +:+ pretty (length db + 1)%nat;
                 database.user_phone := of_optional (user_phone c1);
                 database.user_name := user_name c1;
                 database.appointment_date := VStr date;
                 database.appointment_time := VStr time;
                 database.status := "booked";
                 database.notes := notes1;
                 database.created_at := now1 |} = true)
      by (by apply booked_at_true).
    split.
    { eapply book_appointment_taken; try done.
      rewrite existsb_app, E. simpl. by rewrite Hb. }
    apply booked_count_zero in E as E0.
    split_and!.
    + done.
    + rewrite booked_count_app, E0. unfold store.booked_count. simpl. by rewrite Hb.
    + pose proof (create_keeps db now1 (of_optional (user_phone c1)) (user_name c1)
                    (VStr date) (VStr time) notes1 Hid Hnd) as [_ H].
      unfold database.create_appointment in H. rewrite E in H. done.
Qed.

Lemma booked_count_zero_records d t db :
  store.booked_count d t db = 0%nat <->
  forall i a, db !! i = Some a -> database.status a = "booked" ->
    ~ (database.appointment_date a = d /\ database.appointment_time a = t).
Proof.
  rewrite booked_count_zero. split.
  - intros E i a Hi Hs [Hd Ht].
    pose proof (existsb_false_lookup _ _ _ _ E Hi) as Hf.
    assert (database.booked_at d t a = true) by (by apply booked_at_true).
    congruence.
  - intros H. destruct (existsb _ db) eqn:E; [| done].
    apply existsb_true_lookup in E as (i & a & Hi & (Hd & Ht & Hs)%booked_at_true).
    by destruct (H i a Hi Hs).
Qed.

Lemma booked_count_pos_record d t db :
  store.booked_count d t db <> 0%nat ->
  exists i a, db !! i = Some a /\ database.status a = "booked"
    /\ database.appointment_date a = d /\ database.appointment_time a = t.
Proof.
  rewrite booked_count_zero. intros H.
  destruct (existsb _ db) eqn:E; [| done].
  apply existsb_true_lookup in E as (i & a & Hi & (Hd & Ht & Hs)%booked_at_true).
  by exists i, a.
Qed.

(** X24: what the check of the store does guarantee, on the date and the
    time as they are written.  The store reached from the empty one by any
    sequence of create, modify and cancel calls never holds two booked
    appointments whose date strings are equal and whose time strings are
    equal.  On such a store, of two [book_appointment] calls by identified
    callers that write the date and the time the same way (not in the past,
    hour within 09..16) the second always returns the conflict failure and
    leaves the store alone, the first succeeds exactly when no booked record
    holds these two strings, and afterwards a booked record holds them, the
    only one. *)
Theorem store_never_double_books :
  forall calls : list store.Call,
    let db := store.run_all calls database.empty in
    store.no_double_booking db
    /\ forall (c1 c2 : ConversationContext) (now1 now2 : Z) (date time : string)
         (notes1 notes2 : pyval) (d h m : Z),
         is_identified c1 = true -> is_identified c2 = true ->
         datetime.fromisoformat date = Some d ->
         datetime.strptime_HM time = Some (h, m) ->
         datetime.date now1 <= d -> datetime.date now2 <= d -> 9 <= h <= 16 ->
         exists r1 c1' db1 c2',
           tools.book_appointment c1 db now1 (VStr date) (VStr time) notes1
             = (Return r1, c1', db1)
           /\ tools.book_appointment c2 db1 now2 (VStr date) (VStr time) notes2
             = (Return (failure
                  "This time slot is already booked. Please choose another time."
                  NoPayload), c2', db1)
           /\ (success r1 = true <->
               forall i a, db !! i = Some a -> database.status a = "booked" ->
                 ~ (database.appointment_date a = VStr date
                    /\ database.appointment_time a = VStr time))
           /\ (exists i a, db1 !! i = Some a /\ database.status a = "booked"
                 /\ database.appointment_date a = VStr date
                 /\ database.appointment_time a = VStr time)
           /\ store.no_double_booking db1.
Proof.
  intros calls db.
  destruct (two_bookings_written_alike calls) as [Hnd H]. fold db in Hnd, H.
  split; [done |].
  intros c1 c2 now1 now2 date time notes1 notes2 d h m Hi1 Hi2 Hd Ht Hf1 Hf2 Hh.
  destruct (H c1 c2 now1 now2 date time notes1 notes2 d h m)
    as (r1 & c1' & db1 & c2' & E1 & E2 & Hfree & Hone & Hnd1); try done.
  exists r1, c1', db1, c2'. split_and!; try done.
  - by rewrite Hfree, booked_count_zero_records.
  - apply booked_count_pos_record. lia.
Qed.

End WithDatetime.

Lemma store_never_double_books_witness :
  exists r1 c1' db1 c2',
    tools.book_appointment (lib := datetime.calendar) sample.identified
      database.empty sample.now (VStr "2026-01-28") (VStr "14:00") VNone
      = (Return r1, c1', db1)
    /\ tools.book_appointment (lib := datetime.calendar) sample.mary db1 sample.now
         (VStr "2026-01-28") (VStr "14:00") VNone
      = (Return (failure
           "This time slot is already booked. Please choose another time."
           NoPayload), c2', db1)
    /\ (success r1 = true <->
        forall i a, database.empty !! i = Some a -> database.status a = "booked" ->
          ~ (database.appointment_date a = VStr "2026-01-28"
             /\ database.appointment_time a = VStr "14:00"))
    /\ (exists i a, db1 !! i = Some a /\ database.status a = "booked"
          /\ database.appointment_date a = VStr "2026-01-28"
          /\ database.appointment_time a = VStr "14:00")
    /\ store.no_double_booking db1.
Proof.
  apply (proj2 (store_never_double_books (lib := datetime.calendar) [])
           sample.identified sample.mary sample.now sample.now
           "2026-01-28" "14:00" VNone VNone 739644 14 0);
    try (vm_compute; reflexivity); vm_compute; try split; congruence.
Defined.

(** C3, at the input where the code departs from it: [book_appointment]
    parses the date and the time only to validate them and hands the strings
    as written to the store, which compares strings.  John books 2026-01-29
    at [09:00] and Mary the same day at [9:00]; both times parse to nine
    o'clock, both calls succeed, and the store holds two booked appointments
    on the one slot. *)
Theorem one_slot_written_two_ways_is_booked_twice :
  exists r1 c1 db1 r2 c2 a1 a2,
    tools.book_appointment (lib := datetime.calendar) sample.identified
      database.empty sample.now (VStr "2026-01-29") (VStr "09:00") VNone
    = (Return r1, c1, db1)
    /\ tools.book_appointment (lib := datetime.calendar) sample.mary db1 sample.now
         (VStr "2026-01-29") (VStr "9:00") VNone
       = (Return r2, c2, [a1; a2])
    /\ success r1 = true /\ success r2 = true
    /\ database.status a1 = "booked" /\ database.status a2 = "booked"
    /\ database.appointment_date a1 = VStr "2026-01-29"
    /\ database.appointment_date a2 = VStr "2026-01-29"
    /\ database.appointment_time a1 = VStr "09:00"
    /\ database.appointment_time a2 = VStr "9:00"
    /\ datetime.strptime_HM (Library := datetime.calendar) "09:00" = Some (9, 0)
    /\ datetime.strptime_HM (Library := datetime.calendar) "9:00" = Some (9, 0).
Proof.
  eexists _, _, _, _, _, _, _.
  split; [vm_compute; reflexivity |].
  split; [vm_compute; reflexivity |].
  vm_compute. by split_and!.
Qed.

(** ** Booking and ending a conversation from [BROWSING_SLOTS] *)

(** C4, at the input where the code departs from it: John identifies
    himself, fetches the slots (state [BROWSING_SLOTS]) and books a free slot
    tomorrow at 14:00.  The call succeeds and the store holds the booking, but
    the transition to [COMPLETED] is refused by the table and the state stays
    [BROWSING_SLOTS]. *)
Theorem book_from_browsing_stays_browsing :
  exists r c' db',
    tools.book_appointment (lib := datetime.calendar) sample.browsing
      database.empty sample.now (VStr "2026-01-28") (VStr "14:00") VNone
      = (Return r, c', db')
    /\ is_identified sample.browsing = true
    /\ state sample.browsing = BROWSING_SLOTS
    /\ success r = true
    /\ store.booked_count (VStr "2026-01-28") (VStr "14:00") db' = 1%nat
    /\ state c' = BROWSING_SLOTS
    /\ state c' <> COMPLETED.
Proof.
  eexists _, _, _. split; [vm_compute; reflexivity |].
  vm_compute. repeat split; congruence.
Qed.

(** C5, at the input where the code departs from it: after identification
    and [fetch_slots], [end_conversation] returns success with a summary, but
    the transition to [COMPLETED] is refused and the state, also the one the
    summary reports, stays [BROWSING_SLOTS]. *)
Theorem end_from_browsing_stays_browsing :
  exists msg s c',
    tools.end_conversation sample.browsing
      database.empty sample.now
      = (Return (ok (Some msg) (SummaryPayload s)), c', database.empty)
    /\ state sample.browsing = BROWSING_SLOTS
    /\ final_state s = "browsing_slots"
    /\ state c' = BROWSING_SLOTS
    /\ state c' <> COMPLETED.
Proof.
  eexists _, _, _. split; [vm_compute; reflexivity |].
  vm_compute. repeat split; congruence.
Qed.

(** C9, at the input where the code departs from it: the dot is not among
    the characters [identify_user] removes, so a number written with dots is
    rejected and the context is left unidentified, although the same number
    with the dots stripped matches the pattern. *)
Theorem identify_user_keeps_dots :
  tools.normalize_phone "555.123.4567" = "555.123.4567"
  /\ spec.normalize_phone "555.123.4567" = "5551234567"
  /\ re.match_ re.PHONE "5551234567" = true
  /\ tools.identify_user (fresh sample.now) database.empty (VStr "555.123.4567")
       (VStr "John")
     = (Return (failure
          "Invalid phone number format. Please provide a valid 10-digit phone number."
          (PhonePayload "555.123.4567" None)), fresh sample.now, database.empty).
Proof. vm_compute. repeat split; reflexivity. Qed.

(** ** Cancelling and modifying *)

Lemma set_status_twice s a :
  database.set_status s (database.set_status s a) = database.set_status s a.
Proof. done. Qed.

Lemma find_id_after_cancel aid db i a :
  database.find_id aid db = Some (i, a) ->
  database.find_id aid (<[i := database.set_status "cancelled" a]> db)
  = Some (i, database.set_status "cancelled" a).
Proof.
  unfold database.find_id. rewrite !list_find_Some. intros (Hi & Ha & Hleast).
  split_and!.
  - apply list_lookup_insert_eq. by eapply lookup_lt_Some.
  - done.
  - intros j y Hj Hlt. rewrite list_lookup_insert_ne in Hj by lia. by eapply Hleast.
Qed.

(** C8, as amended: a successful [cancel_appointment] keeps the record in
    the store, at the same position and with the same id, owner, date and
    time, with status [cancelled]; the other records and the length of the
    store are as before.  A second [cancel_appointment] on the same id by a
    caller identified with the same phone succeeds again, and the record is
    still there with status [cancelled]. *)
Theorem cancel_keeps_record_and_repeats :
  forall (c : ConversationContext) (db : database.AppointmentDB) (aid : pyval)
    (r : Result) (c' : ConversationContext) (db' : database.AppointmentDB),
    tools.cancel_appointment c db aid = (Return r, c', db') ->
    success r = true ->
    exists (i : nat) (a : database.Appointment),
      db !! i = Some a /\ VStr (database.id a) = aid
      /\ database.user_phone a = of_optional (user_phone c)
      /\ length db' = length db
      /\ db' !! i = Some (database.set_status "cancelled" a)
      /\ (forall j, j <> i -> db' !! j = db !! j)
      /\ forall c2 : ConversationContext,
           user_phone c2 = user_phone c -> is_identified c2 = true ->
           exists (r2 : Result) (c2' : ConversationContext)
             (db2 : database.AppointmentDB) (a2 : database.Appointment),
             tools.cancel_appointment c2 db' aid = (Return r2, c2', db2)
             /\ success r2 = true /\ error r2 = None
             /\ db2 !! i = Some a2
             /\ database.id a2 = database.id a
             /\ database.status a2 = "cancelled".
Proof.
  intros c db aid r c' db' H Hs. unfold tools.cancel_appointment in H.
  destruct (negb (is_identified c)); [by simplify_eq/= |].
  destruct (negb (truthy aid)) eqn:Haid; [by simplify_eq/= |].
  rewrite transition_to_user_phone in H.
  unfold database.cancel_appointment in H.
  destruct (database.find_id aid db) as [[i a] |] eqn:F; [| by simplify_eq/=].
  destruct (bool_decide (database.user_phone a = of_optional (user_phone c))) eqn:Eo;
    simpl in H; [| by simplify_eq/=].
  simplify_eq. apply bool_decide_eq_true in Eo.
  destruct (find_id_Some _ _ _ _ F) as [Hi Ha].
  assert (Hlt : (i < length db)%nat) by (by eapply lookup_lt_Some).
  exists i, a. split_and!; try done.
  - apply length_insert.
  - by apply list_lookup_insert_eq.
  - intros j Hj. by apply list_lookup_insert_ne.
  - intros c2 Hp2 Hi2. unfold tools.cancel_appointment.
    rewrite Hi2, Haid. simpl. rewrite transition_to_user_phone, Hp2.
    unfold database.cancel_appointment.
    rewrite (find_id_after_cancel _ _ _ _ F). simpl.
    rewrite (bool_decide_eq_true_2 _ Eo). simpl.
    eexists _, _, _, (database.set_status "cancelled" a).
    split; [done |]. split_and!; try done.
    rewrite set_status_twice. apply list_lookup_insert_eq.
    by rewrite length_insert.
Qed.

Lemma cancel_keeps_record_and_repeats_witness :
  exists (i : nat) (a : database.Appointment),
    sample.johns_booking !! i = Some a /\ VStr (database.id a) = VStr "mock_1"
    /\ database.user_phone a = of_optional (user_phone sample.identified)
    /\ length (snd (tools.cancel_appointment sample.identified sample.johns_booking
                      (VStr "mock_1")))
       = length sample.johns_booking
    /\ snd (tools.cancel_appointment sample.identified sample.johns_booking
              (VStr "mock_1")) !! i
       = Some (database.set_status "cancelled" a)
    /\ (forall j, j <> i ->
        snd (tools.cancel_appointment sample.identified sample.johns_booking
               (VStr "mock_1")) !! j
        = sample.johns_booking !! j)
    /\ forall c2 : ConversationContext,
         user_phone c2 = user_phone sample.identified -> is_identified c2 = true ->
         exists (r2 : Result) (c2' : ConversationContext)
           (db2 : database.AppointmentDB) (a2 : database.Appointment),
           tools.cancel_appointment c2
             (snd (tools.cancel_appointment sample.identified sample.johns_booking
                     (VStr "mock_1"))) (VStr "mock_1")
           = (Return r2, c2', db2)
           /\ success r2 = true /\ error r2 = None
           /\ db2 !! i = Some a2
           /\ database.id a2 = database.id a
           /\ database.status a2 = "cancelled".
Proof.
  apply (cancel_keeps_record_and_repeats sample.identified sample.johns_booking
           (VStr "mock_1")
           (ok (Some "Your appointment has been cancelled successfully.")
              (AppointmentPayload 0 None))
           (snd (fst (tools.cancel_appointment sample.identified
                        sample.johns_booking (VStr "mock_1"))))).
  - vm_compute. reflexivity.
  - reflexivity.
Defined.

(** C8 as stated fails: John cancels his appointment [mock_1] twice, and
    the second call succeeds like the first instead of returning a failure. *)
Lemma second_cancel_succeeds :
  exists r1 c1 db1 r2 c2 db2,
    tools.cancel_appointment sample.identified sample.johns_booking (VStr "mock_1")
      = (Return r1, c1, db1)
    /\ success r1 = true
    /\ tools.cancel_appointment c1 db1 (VStr "mock_1") = (Return r2, c2, db2)
    /\ success r2 = true /\ error r2 = None.
Proof.
  eexists _, _, _, _, _, _.
  split; [vm_compute; reflexivity |].
  split; [reflexivity |].
  split; [vm_compute; reflexivity |].
  split; reflexivity.
Qed.

Lemma transition_from_identified c t :
  state c = IDENTIFIED -> t ∈ [CANCELLING; MODIFYING] ->
  state (snd (transition_to c t)) = t.
Proof.
  intros Hs Ht. rewrite transition_to_state. unfold can_transition_to. rewrite Hs.
  apply elem_of_cons in Ht as [-> | Ht]; [done |].
  apply elem_of_cons in Ht as [-> | Ht]; [done |].
  by apply elem_of_nil in Ht.
Qed.

Lemma transition_refused c t :
  state c <> IDENTIFIED -> t ∈ [CANCELLING; MODIFYING] ->
  snd (transition_to c t) = c.
Proof.
  intros Hs Ht. unfold transition_to.
  destruct (can_transition_to c t) eqn:E; [| done].
  apply can_transition_to_table in E.
  apply elem_of_cons in Ht as [-> | Ht]; [inversion E; congruence |].
  apply elem_of_cons in Ht as [-> | Ht]; [inversion E; congruence |].
  by apply elem_of_nil in Ht.
Qed.

(** C10, as amended: for every identified context, [cancel_appointment] and
    [modify_appointment] attempt the transition (to [CANCELLING], to
    [MODIFYING]) before they look at their arguments.  With an empty
    [appointment_id], and for modify also with neither [new_date] nor
    [new_time], they return a failure, the store is returned untouched, and
    the context is the one after the attempted transition: in state
    [IDENTIFIED] the state has changed to [CANCELLING] or [MODIFYING]; in
    every other state the table refuses the transition and the context is
    unchanged. *)
Theorem cancel_modify_move_before_validating :
  forall (c : ConversationContext) (db : database.AppointmentDB)
    (aid new_date new_time : pyval),
    is_identified c = true ->
    (truthy aid = false ->
       tools.cancel_appointment c db aid
       = (Return (failure "Please provide the appointment ID you want to cancel."
                    NoPayload), snd (transition_to c CANCELLING), db)
       /\ tools.modify_appointment c db aid new_date new_time
          = (Return (failure "Please provide the appointment ID you want to modify."
                       NoPayload), snd (transition_to c MODIFYING), db))
    /\ (truthy aid = true -> truthy new_date = false -> truthy new_time = false ->
        tools.modify_appointment c db aid new_date new_time
        = (Return (failure
             "Please specify what you'd like to change (date and/or time)."
             NoPayload), snd (transition_to c MODIFYING), db))
    /\ (state c = IDENTIFIED ->
        state (snd (transition_to c CANCELLING)) = CANCELLING
        /\ state (snd (transition_to c MODIFYING)) = MODIFYING)
    /\ (state c <> IDENTIFIED ->
        snd (transition_to c CANCELLING) = c /\ snd (transition_to c MODIFYING) = c).
Proof.
  intros c db aid nd nt Hi.
  unfold tools.cancel_appointment, tools.modify_appointment.
  rewrite Hi. simpl. split_and!.
  - intros ->. done.
  - intros -> -> ->. done.
  - intros Hs. split; apply transition_from_identified; set_solver.
  - intros Hs. split; apply transition_refused; set_solver.
Qed.

Lemma cancel_modify_move_before_validating_witness :
  tools.cancel_appointment sample.identified database.empty (VStr "")
  = (Return (failure "Please provide the appointment ID you want to cancel."
               NoPayload), snd (transition_to sample.identified CANCELLING),
     database.empty)
  /\ state (snd (transition_to sample.identified CANCELLING)) = CANCELLING.
Proof.
  split.
  - apply (cancel_modify_move_before_validating sample.identified database.empty
             (VStr "") VNone VNone); reflexivity.
  - apply (cancel_modify_move_before_validating sample.identified database.empty
             (VStr "") VNone VNone); reflexivity.
Defined.

(** C10 as stated fails: John is identified and in state [RETRIEVING]; a
    cancel and a modify with an empty id return a failure and leave the
    conversation state as it was. *)
Lemma empty_id_leaves_retrieving :
  is_identified sample.retrieving = true
  /\ (exists r c',
        tools.cancel_appointment sample.retrieving database.empty (VStr "")
          = (Return r, c', database.empty)
        /\ success r = false /\ state c' = state sample.retrieving)
  /\ (exists r c',
        tools.modify_appointment sample.retrieving database.empty (VStr "") VNone VNone
          = (Return r, c', database.empty)
        /\ success r = false /\ state c' = state sample.retrieving).
Proof.
  split; [reflexivity |].
  split; eexists _, _; (split; [vm_compute; reflexivity |]); split; reflexivity.
Qed.

(** ** Slots *)

Section WithDatetime.
Context {lib : datetime.Library}.

Lemma range_elem a b x : x ∈ tools.range a b <-> a <= x < b.
Proof. unfold tools.range. rewrite elem_of_seqZ. lia. Qed.

Lemma elem_of_flat_map {A B} (f : A -> list B) (l : list A) (y : B) :
  y ∈ flat_map f l <-> exists x, x ∈ l /\ y ∈ f x.
Proof.
  rewrite list_elem_of_In, in_flat_map.
  split; intros (x & Hx & Hy); exists x; by rewrite ?list_elem_of_In in *.
Qed.

Lemma day_slots_elem today day_offset s :
  s ∈ tools.day_slots today day_offset <->
  exists hour,
    9 <= hour <= 16
    /\ datetime.strftime_A (today + day_offset) ∈ tools.AVAILABLE_DAYS
    /\ hour <> 12
    /\ ~ (day_offset = 1 /\ (hour = 9 \/ hour = 10))
    /\ s = spec.slot_at (today + day_offset) hour.
Proof.
  unfold tools.day_slots. case_bool_decide as Hday.
  - rewrite elem_of_flat_map. split.
    + intros (hour & Hh & Hs). exists hour.
      apply range_elem in Hh.
      destruct (negb _) eqn:E; [| by apply elem_of_nil in Hs].
      apply list_elem_of_singleton in Hs.
      apply negb_true_iff, orb_false_iff in E as [E1 E2].
      apply Z.eqb_neq in E1.
      split_and!; [lia | lia | done | done | | done].
      intros [-> Hh']. simpl in E2. apply bool_decide_eq_false in E2.
      apply E2. destruct Hh' as [-> | ->];
        [apply list_elem_of_here | apply list_elem_of_further, list_elem_of_here].
    + intros (hour & Hh & _ & H12 & Hmock & ->). exists hour.
      split; [apply range_elem; lia |].
      assert ((hour =? 12)%Z = false) as -> by (by apply Z.eqb_neq).
      destruct (Z.eqb_spec day_offset 1) as [-> | Hd]; simpl.
      * rewrite bool_decide_eq_false_2; [simpl; by apply list_elem_of_singleton |].
        intros Hin. apply Hmock. split; [done |].
        apply elem_of_cons in Hin as [-> | Hin]; [by left |].
        apply list_elem_of_singleton in Hin. by right.
      * by apply list_elem_of_singleton.
  - split; [by intros H%elem_of_nil |]. intros (hour & _ & Hd & _). done.
Qed.

(** C7, as amended: for every identified context, [fetch_slots] succeeds,
    attempts the transition to [BROWSING_SLOTS] and returns the first ten of
    the generated slots with the count of all of them.  The generated slots
    are those of the next seven days (offsets 1 to 7 from today) that fall on
    a weekday with a start hour 09..16, minus a fixed mock exclusion: hour 12
    on every day, and hours 9 and 10 on the first day.  The appointment store
    is not consulted: the result is the same for every store, and the store is
    returned as it was. *)
Theorem fetch_slots_lists_mock_slots :
  forall (c : ConversationContext) (db : database.AppointmentDB) (now : Z)
    (date : pyval),
    is_identified c = true ->
    let today := datetime.date now in
    let slots := tools.generate_slots today in
    tools.fetch_slots c db now date
    = (Return (ok (Some ("I found " +:+ pretty (length slots)
                         +:+ " available slots in the next week."))
                 (SlotsPayload (take 10 slots) (length slots))),
       snd (transition_to c BROWSING_SLOTS), db)
    /\ (length (take 10 slots) <= 10)%nat
    /\ (forall db2 : database.AppointmentDB,
          fst (fst (tools.fetch_slots c db2 now date))
          = fst (fst (tools.fetch_slots c db now date)))
    /\ forall s : Slot,
         s ∈ slots <->
         exists day_offset hour,
           1 <= day_offset <= 7 /\ 9 <= hour <= 16
           /\ datetime.strftime_A (today + day_offset) ∈ tools.AVAILABLE_DAYS
           /\ hour <> 12
           /\ ~ (day_offset = 1 /\ (hour = 9 \/ hour = 10))
           /\ s = spec.slot_at (today + day_offset) hour.
Proof.
  intros c db now date Hi today slots.
  split_and!.
  - unfold tools.fetch_slots. by rewrite Hi.
  - rewrite length_take. lia.
  - intros db2. unfold tools.fetch_slots. by rewrite Hi.
  - intros s. unfold slots, tools.generate_slots. rewrite elem_of_flat_map. split.
    + intros (off & Ho & Hs). apply range_elem in Ho.
      apply day_slots_elem in Hs as (hour & ? & ? & ? & ? & ?).
      exists off, hour. split_and!; try done; lia.
    + intros (off & hour & Ho & Hh & Hd & H12 & Hm & Hs).
      exists off. split; [apply range_elem; lia |].
      apply day_slots_elem. by exists hour.
Qed.

End WithDatetime.

Lemma fetch_slots_lists_mock_slots_witness :
  tools.fetch_slots (lib := datetime.calendar) sample.identified sample.one_booking
    sample.now VNone
  = (Return (ok (Some "I found 33 available slots in the next week.")
               (SlotsPayload
                  (take 10 (tools.generate_slots (lib := datetime.calendar) 739643))
                  33)),
     snd (transition_to sample.identified BROWSING_SLOTS), sample.one_booking).
Proof.
  apply (fetch_slots_lists_mock_slots (lib := datetime.calendar) sample.identified
           sample.one_booking sample.now VNone).
  reflexivity.
Defined.

(** C7 as stated fails: on Tuesday 2026-01-27 the store reports one booked
    slot, 2026-01-28 at 11:00.  [fetch_slots] still lists that slot, first, and
    leaves out 2026-01-28 at 09:00, which is a candidate the store does not
    report as booked; it counts 33 slots where the candidates minus the booked
    one are 39. *)
Lemma fetch_slots_ignores_the_store :
  exists msg slots total c',
    tools.fetch_slots (lib := datetime.calendar) sample.identified
      sample.one_booking sample.now VNone
    = (Return (ok msg (SlotsPayload slots total)), c', sample.one_booking)
    /\ is_identified sample.identified = true
    /\ spec.reported_booked sample.one_booking
         (spec.slot_at (lib := datetime.calendar) 739644 11) = true
    /\ (spec.slot_at (lib := datetime.calendar) 739644 11) ∈ slots
    /\ spec.reported_booked sample.one_booking
         (spec.slot_at (lib := datetime.calendar) 739644 9) = false
    /\ ((spec.slot_at (lib := datetime.calendar) 739644 9)
         ∈ spec.candidate_slots (lib := datetime.calendar) 739643)
    /\ ((spec.slot_at (lib := datetime.calendar) 739644 9)
         ∉ tools.generate_slots (lib := datetime.calendar) 739643)
    /\ slots <> take 10 (spec.available_slots (lib := datetime.calendar) 739643
                           sample.one_booking)
    /\ total = 33%nat
    /\ length (spec.available_slots (lib := datetime.calendar) 739643
                 sample.one_booking) = 39%nat.
Proof.
  eexists _, _, _, _. split; [vm_compute; reflexivity |].
  split_and!; try (vm_compute; reflexivity).
  - vm_compute. apply list_elem_of_here.
  - apply (bool_decide_unpack _). vm_compute. exact I.
  - apply (bool_decide_unpack _). vm_compute. exact I.
  - vm_compute. discriminate.
Qed.

(** ** What the phone pattern accepts *)

Lemma append_nil_l (s : string) : "" +:+ s = s.
Proof. reflexivity. Qed.

Lemma append_cons c (s1 s2 : string) : String c s1 +:+ s2 = String c (s1 +:+ s2).
Proof. reflexivity. Qed.

Lemma append_nil_r (s : string) : s +:+ "" = s.
Proof. induction s as [| c s IH]; [done |]. by rewrite append_cons, IH. Qed.

Lemma append_assoc (s1 s2 s3 : string) : (s1 +:+ s2) +:+ s3 = s1 +:+ (s2 +:+ s3).
Proof. induction s1 as [| c s1 IH]; [done |]. by rewrite !append_cons, IH. Qed.

Lemma append_eq_nil (s1 s2 : string) : s1 +:+ s2 = "" -> s1 = "" /\ s2 = "".
Proof. destruct s1; [done |]. rewrite append_cons. discriminate. Qed.

Lemma append_eq_cons (s1 s2 : string) a s :
  s1 +:+ s2 = String a s ->
  (s1 = "" /\ s2 = String a s) \/ (exists s1', s1 = String a s1' /\ s = s1' +:+ s2).
Proof.
  destruct s1 as [| c s1]; [by left |].
  rewrite append_cons. intros [= -> <-]. right. by exists s1.
Qed.

Lemma lang_void_inv s : re.lang re.Void s -> False.
Proof. inversion 1. Qed.

Lemma lang_eps_inv s : re.lang re.Eps s -> s = "".
Proof. by inversion 1. Qed.

Lemma lang_chr_inv c s : re.lang (re.Chr c) s -> s = String c "".
Proof. by inversion 1. Qed.

Lemma lang_digit_inv s :
  re.lang re.Digit s -> exists c, is_digit c = true /\ s = String c "".
Proof. inversion 1; subst. eauto. Qed.

Lemma lang_alt_inv r1 r2 s : re.lang (re.Alt r1 r2) s -> re.lang r1 s \/ re.lang r2 s.
Proof. inversion 1; subst; auto. Qed.

Lemma lang_cat_inv r1 r2 s :
  re.lang (re.Cat r1 r2) s ->
  exists s1 s2, s = s1 +:+ s2 /\ re.lang r1 s1 /\ re.lang r2 s2.
Proof. inversion 1; subst. eauto. Qed.

Lemma lang_cat_cons a s1 s2 r1 r2 :
  re.lang r1 (String a s1) -> re.lang r2 s2 ->
  re.lang (re.Cat r1 r2) (String a (s1 +:+ s2)).
Proof. intros H1 H2. rewrite <- append_cons. by constructor. Qed.

Lemma nullable_lang r : re.nullable r = true <-> re.lang r "".
Proof.
  induction r as [| | c | | r1 IH1 r2 IH2 | r1 IH1 r2 IH2 | r IH]; simpl.
  - split; [done | by intros ?%lang_void_inv].
  - split; [constructor | done].
  - split; [done | by intros ?%lang_chr_inv].
  - split; [done | by intros (? & _ & ?)%lang_digit_inv].
  - rewrite orb_true_iff, IH1, IH2. split.
    + intros [H | H]; [by apply re.lang_alt_l | by apply re.lang_alt_r].
    + apply lang_alt_inv.
  - rewrite andb_true_iff, IH1, IH2. split.
    + intros [H1 H2]. by apply (re.lang_cat r1 r2 "" "").
    + intros (s1 & s2 & Hs & H1 & H2)%lang_cat_inv.
      symmetry in Hs. apply append_eq_nil in Hs as [-> ->]. done.
  - split; [constructor | done].
Qed.

Lemma lang_star_cons_inv r a s :
  re.lang (re.Star r) (String a s) ->
  exists s1 s2, s = s1 +:+ s2 /\ re.lang r (String a s1) /\ re.lang (re.Star r) s2.
Proof.
  intros H. remember (re.Star r) as r' eqn:Hr. remember (String a s) as w eqn:Hw.
  revert s Hw.
  induction H as [| | | | | | | r0 s1 s2 H1 _ H2 IH2]; intros w' Hw;
    try discriminate.
  injection Hr as ->.
  apply append_eq_cons in Hw as [[-> ->] | (s1' & -> & ->)].
  - by apply IH2.
  - by exists s1', s2.
Qed.

Lemma deriv_lang r : forall a s, re.lang (re.deriv a r) s <-> re.lang r (String a s).
Proof.
  induction r as [| | c | | r1 IH1 r2 IH2 | r1 IH1 r2 IH2 | r IH]; intros a s; simpl.
  - split; by intros ?%lang_void_inv.
  - split; [by intros ?%lang_void_inv | by intros ?%lang_eps_inv].
  - destruct (Ascii.eqb_spec a c) as [-> | Hne].
    + split; [intros ->%lang_eps_inv; constructor |].
      intros [= ->]%lang_chr_inv. constructor.
    + split; [by intros ?%lang_void_inv |].
      intros [= ? ?]%lang_chr_inv. done.
  - destruct (is_digit a) eqn:E.
    + split; [intros ->%lang_eps_inv; by constructor |].
      intros (c & _ & [= -> ->])%lang_digit_inv. constructor.
    + split; [by intros ?%lang_void_inv |].
      intros (c & Hc & [= -> ->])%lang_digit_inv. congruence.
  - split.
    + intros [H | H]%lang_alt_inv;
        [apply re.lang_alt_l, IH1 | apply re.lang_alt_r, IH2]; done.
    + intros [H | H]%lang_alt_inv;
        [apply re.lang_alt_l, IH1 | apply re.lang_alt_r, IH2]; done.
  - destruct (re.nullable r1) eqn:N.
    + split.
      * intros [H | H]%lang_alt_inv.
        -- apply lang_cat_inv in H as (s1 & s2 & -> & H1 & H2).
           apply lang_cat_cons; [by apply IH1 | done].
        -- apply nullable_lang in N.
           apply (re.lang_cat r1 r2 "" (String a s)); [done | by apply IH2].
      * intros (s1 & s2 & Hs & H1 & H2)%lang_cat_inv. symmetry in Hs.
        apply append_eq_cons in Hs as [[-> ->] | (s1' & -> & ->)].
        -- apply re.lang_alt_r. by apply IH2.
        -- apply re.lang_alt_l. constructor; [by apply IH1 | done].
    + split.
      * intros (s1 & s2 & -> & H1 & H2)%lang_cat_inv.
        apply lang_cat_cons; [by apply IH1 | done].
      * intros (s1 & s2 & Hs & H1 & H2)%lang_cat_inv. symmetry in Hs.
        apply append_eq_cons in Hs as [[-> ->] | (s1' & -> & ->)].
        -- apply nullable_lang in H1. congruence.
        -- constructor; [by apply IH1 | done].
  - split.
    + intros (s1 & s2 & -> & H1 & H2)%lang_cat_inv.
      rewrite <- append_cons. constructor; [by apply IH | done].
    + intros (s1 & s2 & -> & H1 & H2)%lang_star_cons_inv.
      constructor; [by apply IH | done].
Qed.

(** The derivative matcher decides membership in the language. *)
Lemma fullmatch_lang s : forall r, re.fullmatch r s = true <-> re.lang r s.
Proof.
  induction s as [| a s IH]; intros r; simpl.
  - apply nullable_lang.
  - rewrite IH. apply deriv_lang.
Qed.

Lemma all_digits_app s1 s2 :
  all_digits (s1 +:+ s2) = all_digits s1 && all_digits s2.
Proof.
  induction s1 as [| c s1 IH]; [done |].
  rewrite append_cons. simpl. by rewrite IH, andb_assoc.
Qed.

Lemma length_append s1 s2 :
  String.length (s1 +:+ s2) = (String.length s1 + String.length s2)%nat.
Proof.
  induction s1 as [| c s1 IH]; [done |]. rewrite append_cons. simpl. by rewrite IH.
Qed.

Lemma lang_rep_digit n : forall s,
  re.lang (re.Rep n re.Digit) s <-> all_digits s = true /\ String.length s = n.
Proof.
  induction n as [| n IH]; intros s; simpl.
  - split.
    + by intros ->%lang_eps_inv.
    + intros [_ Hl]. destruct s; [constructor | done].
  - split.
    + intros (s1 & s2 & -> & (c & Hc & ->)%lang_digit_inv & H2)%lang_cat_inv.
      apply IH in H2 as [H2 <-]. rewrite append_cons, append_nil_l. simpl.
      by rewrite Hc, H2.
    + intros [Hd Hl]. destruct s as [| c s]; [done |].
      simpl in Hd. apply andb_true_iff in Hd as [Hc Hd].
      change (String c s) with (String c "" +:+ s).
      constructor; [by constructor |]. apply IH. split; [done |]. simpl in Hl. lia.
Qed.

Lemma lang_star_digit s : re.lang (re.Star re.Digit) s <-> all_digits s = true.
Proof.
  split.
  - intros H. remember (re.Star re.Digit) as r eqn:Hr.
    induction H as [| | | | | | | r0 s1 s2 H1 _ H2 IH2]; try discriminate; [done |].
    injection Hr as ->. apply lang_digit_inv in H1 as (c & Hc & ->).
    rewrite append_cons, append_nil_l. simpl. by rewrite Hc, IH2.
  - induction s as [| c s IH]; [constructor |].
    simpl. intros [Hc Hd]%andb_true_iff.
    change (String c s) with (String c "" +:+ s).
    constructor; [by constructor | by apply IH].
Qed.

Lemma split_at (n : nat) : forall s,
  (n <= String.length s)%nat ->
  exists s1 s2, s = s1 +:+ s2 /\ String.length s1 = n.
Proof.
  induction n as [| n IH]; intros s Hl; [by exists "", s |].
  destruct s as [| c s]; simpl in Hl; [lia |].
  destruct (IH s) as (s1 & s2 & -> & <-); [lia |].
  by exists (String c s1), s2.
Qed.

Lemma lang_ten_digits s :
  re.lang (re.Cat (re.Rep 10 re.Digit) (re.Star re.Digit)) s <->
  all_digits s = true /\ (10 <= String.length s)%nat.
Proof.
  split.
  - intros (s1 & s2 & -> & [H1 Hl]%lang_rep_digit & H2%lang_star_digit)%lang_cat_inv.
    rewrite all_digits_app, length_append, H1, H2, Hl. split; [done | lia].
  - intros [Hd Hl]. destruct (split_at 10 s Hl) as (s1 & s2 & -> & Hl1).
    rewrite all_digits_app in Hd. apply andb_true_iff in Hd as [Hd1 Hd2].
    constructor; [by apply lang_rep_digit | by apply lang_star_digit].
Qed.

Lemma lang_opt_chr c s :
  re.lang (re.Opt (re.Chr c)) s <-> s = "" \/ s = String c "".
Proof.
  split.
  - intros [->%lang_chr_inv | ->%lang_eps_inv]%lang_alt_inv; auto.
  - intros [-> | ->]; [apply re.lang_alt_r | apply re.lang_alt_l]; constructor.
Qed.

(** The strings [re.match(r'^\+?1?\d{10,}$', s)] accepts: an optional plus
    sign, at least ten decimal digits (the optional 1 is one of them), and
    possibly one final newline. *)
Lemma phone_pattern_language s :
  re.match_ re.PHONE s = true <->
  exists sign body nl,
    s = sign +:+ body +:+ nl
    /\ (sign = "" \/ sign = "+")
    /\ all_digits body = true /\ (10 <= String.length body)%nat
    /\ (nl = "" \/ nl = String "010" "").
Proof.
  unfold re.match_. rewrite fullmatch_lang. unfold re.PHONE, re.Dollar. split.
  - intros (sign & s1 & -> & Hsign%lang_opt_chr
            & (one & s2 & -> & Hone%lang_opt_chr
               & (ds & nl & -> & [Hd Hl]%lang_ten_digits & Hnl%lang_opt_chr)
                   %lang_cat_inv)%lang_cat_inv)%lang_cat_inv.
    exists sign, (one +:+ ds), nl. rewrite append_assoc.
    split_and!; try done.
    + rewrite all_digits_app, Hd. by destruct Hone as [-> | ->].
    + rewrite length_append. lia.
  - intros (sign & body & nl & -> & Hsign & Hd & Hl & Hnl).
    apply re.lang_cat; [by apply lang_opt_chr |].
    apply (re.lang_cat _ _ "" (body +:+ nl)); [apply lang_opt_chr; by left |].
    apply re.lang_cat; [by apply lang_ten_digits | by apply lang_opt_chr].
Qed.

(** ** Further properties of the tools and of the dispatcher *)

(** X1: [identify_user] on a string normalises it with [strip()] and by
    removing hyphens, spaces and parentheses, and succeeds exactly when the
    result is an optional plus sign followed by at least ten decimal digits
    (and possibly one final newline).  On success it stores the normalised
    phone and the name and, from [UNIDENTIFIED], moves to [IDENTIFIED]; on
    failure it returns the context and the store as they were. *)
Theorem identify_user_validates_normalized_phone :
  forall (c : ConversationContext) (db : database.AppointmentDB) (raw : string)
    (name : pyval),
    let phone := tools.normalize_phone raw in
    let accepted :=
      exists sign body nl,
        phone = sign +:+ body +:+ nl
        /\ (sign = "" \/ sign = "+")
        /\ all_digits body = true /\ (10 <= String.length body)%nat
        /\ (nl = "" \/ nl = String "010" "") in
    exists r c',
      tools.identify_user c db (VStr raw) name = (Return r, c', db)
      /\ (success r = true <-> accepted)
      /\ (accepted ->
          user_phone c' = Some phone /\ user_name c' = name
          /\ (state c = UNIDENTIFIED -> state c' = IDENTIFIED)
          /\ state c' <> UNIDENTIFIED)
      /\ (~ accepted ->
          c' = c
          /\ r = failure
                 "Invalid phone number format. Please provide a valid 10-digit phone number."
                 (PhonePayload phone None)).
Proof.
  intros c db raw name phone accepted.
  assert (Hacc : re.match_ re.PHONE phone = true <-> accepted)
    by apply phone_pattern_language.
  unfold tools.identify_user. fold phone.
  destruct (re.match_ re.PHONE phone) eqn:E; simpl.
  - eexists _, _. split; [done |]. simpl.
    assert (Ha : accepted) by (by apply Hacc).
    split_and!; [done | | done].
    intros _. rewrite transition_to_user_phone, transition_to_state.
    unfold transition_to, can_transition_to. simpl.
    split_and!; [done | by destruct (bool_decide _) | |].
    + intros ->. done.
    + case_bool_decide as Ht; [done |].
      intros Hs. rewrite Hs in Ht. apply Ht. apply list_elem_of_here.
  - eexists _, _. split; [done |]. simpl.
    assert (Ha : ~ accepted) by (intros Ha; apply Hacc in Ha; done).
    split_and!; [split; [done | by intros ?] | done | done].
Qed.

Section WithDatetime.
Context {lib : datetime.Library}.

(** X2: for an identified context, [book_appointment] with a date that
    parses and is not in the past, a time whose hour is within 09..16 and a
    free slot succeeds, records the new appointment as pending and leaves
    exactly one booked record on the slot.  The state afterwards is
    [COMPLETED] exactly when the state before was [IDENTIFIED], [CONFIRMING] or
    [COMPLETED]; from every other state it is unchanged. *)
Theorem book_completes_where_allowed :
  forall (c : ConversationContext) (db : database.AppointmentDB) (now : Z)
    (date time : string) (notes : pyval) (d h m : Z),
    is_identified c = true ->
    datetime.fromisoformat date = Some d ->
    datetime.strptime_HM time = Some (h, m) ->
    datetime.date now <= d -> 9 <= h <= 16 ->
    store.booked_count (VStr date) (VStr time) db = 0%nat ->
    exists r c' db',
      tools.book_appointment c db now (VStr date) (VStr time) notes
        = (Return r, c', db')
      /\ success r = true
      /\ pending_appointment c' = Some (length db)
      /\ store.booked_count (VStr date) (VStr time) db' = 1%nat
      /\ (state c' = COMPLETED <-> state c ∈ [IDENTIFIED; CONFIRMING; COMPLETED])
      /\ (state c' <> COMPLETED -> state c' = state c).
Proof.
  intros c db now date time notes d h m Hi Hd Ht Hf Hh Hfree.
  apply booked_count_zero in Hfree as E.
  eexists _, _, _. split; [by eapply book_appointment_free |].
  split_and!.
  - done.
  - unfold transition_to. by destruct (can_transition_to _ _).
  - rewrite booked_count_app, Hfree. unfold store.booked_count. simpl.
    unfold database.booked_at. simpl. by rewrite !bool_decide_eq_true_2.
  - rewrite transition_to_state. unfold can_transition_to. simpl.
    destruct (state c) eqn:Hs; simpl;
      (split; [try done; intros _; repeat constructor
              | try done; intros H; exfalso;
                repeat (apply elem_of_cons in H as [H | H]; [done |]);
                by apply elem_of_nil in H]).
  - rewrite transition_to_state. unfold can_transition_to. simpl.
    by case_bool_decide.
Qed.

(** X3: whenever [book_appointment] returns a failure, whatever its cause,
    the context (so the state) and the store are the ones it was given.  A
    date before today is refused as past, and a date that passes with an hour
    outside 09..16 is refused for business hours. *)
Theorem book_failure_changes_nothing :
  forall (c : ConversationContext) (db : database.AppointmentDB) (now : Z)
    (date time notes : pyval),
    (forall r c' db',
       tools.book_appointment c db now date time notes = (Return r, c', db') ->
       success r = false -> c' = c /\ db' = db)
    /\ (forall ds ts d h m,
          date = VStr ds -> time = VStr ts -> is_identified c = true ->
          datetime.fromisoformat ds = Some d ->
          datetime.strptime_HM ts = Some (h, m) ->
          (d < datetime.date now ->
           tools.book_appointment c db now date time notes
           = (Return (failure
                "Cannot book appointments in the past. Please choose a future date."
                NoPayload), c, db))
          /\ (datetime.date now <= d -> ~ 9 <= h <= 16 ->
              tools.book_appointment c db now date time notes
              = (Return (failure
                   ("Appointments are only available between 9 AM and 5 PM. You requested "
                    +:+ ts +:+ ".") NoPayload), c, db))).
Proof.
  intros c db now date time notes. split.
  - intros r c' db' H Hs. unfold tools.book_appointment in H.
    unfold database.create_appointment in H.
    repeat case_match; simplify_eq/=; done.
  - intros ds ts d h m -> -> Hi Hd Ht.
    unfold tools.book_appointment. rewrite Hi, Hd, Ht. simpl. split.
    + intros Hlt. by destruct (Z.ltb_spec d (datetime.date now)); [| lia].
    + intros Hle Hh. destruct (Z.ltb_spec d (datetime.date now)); [lia |].
      rewrite bool_decide_eq_false_2; [done |].
      unfold tools.AVAILABLE_HOURS. rewrite range_elem. lia.
Qed.

(** X5: the unrecognised intent is answered with a failure that carries a
    non-empty list of suggestions; the context and the store are untouched. *)
Theorem unknown_intent_gets_suggestions :
  forall (entities : gmap string pyval) (c : ConversationContext)
    (db : database.AppointmentDB) (now : Z),
    router.validate_and_dispatch "unknown" entities c db now
    = (failure "I didn't understand that. Could you please rephrase?"
         (SuggestionsPayload (router._get_suggestions c)), c, db)
    /\ router._get_suggestions c <> [].
Proof.
  intros entities c db now. split; [done |].
  unfold router._get_suggestions. by repeat case_bool_decide.
Qed.

End WithDatetime.

(** X4: a cancel or a modify on an existing id by a caller whose phone is
    not the owner's fails with the permission error and returns the store as
    it was. *)
Theorem other_callers_cannot_touch :
  forall (db : database.AppointmentDB) (aid : pyval) (i : nat)
    (a : database.Appointment) (phone new_date new_time : pyval),
    database.find_id aid db = Some (i, a) ->
    database.user_phone a <> phone ->
    database.cancel_appointment db aid phone
    = (failure "You don't have permission to cancel this appointment." NoPayload, db)
    /\ database.modify_appointment db aid phone new_date new_time
       = (failure "You don't have permission to modify this appointment." NoPayload,
          db).
Proof.
  intros db aid i a phone nd nt F Hne.
  unfold database.cancel_appointment, database.modify_appointment. rewrite F.
  by rewrite (bool_decide_eq_false_2 _ Hne).
Qed.

(** X6: [end_conversation] always returns success with a summary and leaves
    the store alone; the state afterwards is [COMPLETED] exactly when the
    state before was [IDENTIFIED], [CONFIRMING] or already [COMPLETED], and is
    unchanged otherwise. *)
Theorem end_conversation_completes_where_allowed :
  forall (c : ConversationContext) (db : database.AppointmentDB) (now : Z),
    exists s c',
      tools.end_conversation c db now
      = (Return (ok
           (Some "Thank you for using our appointment system. Here's a summary of our conversation.")
           (SummaryPayload s)), c', db)
      /\ final_state s = value (state c')
      /\ (state c' = COMPLETED <-> state c ∈ [IDENTIFIED; CONFIRMING; COMPLETED])
      /\ (state c' <> COMPLETED -> c' = c).
Proof.
  intros c db now. eexists _, _. split; [done |]. simpl.
  unfold transition_to, can_transition_to.
  destruct (state c) eqn:Hs; simpl; rewrite ?Hs;
    (split_and!;
     [done
     | split; [try done; intros _; repeat constructor
              | try done; intros H; exfalso;
                repeat (apply elem_of_cons in H as [H | H]; [done |]);
                by apply elem_of_nil in H]
     | done]).
Qed.

Lemma book_completes_where_allowed_witness :
  exists r c' db',
    tools.book_appointment (lib := datetime.calendar) sample.identified
      sample.one_booking sample.now (VStr "2026-01-28") (VStr "14:00") VNone
      = (Return r, c', db')
    /\ success r = true
    /\ pending_appointment c' = Some (length sample.one_booking)
    /\ store.booked_count (VStr "2026-01-28") (VStr "14:00") db' = 1%nat
    /\ (state c' = COMPLETED <->
        state sample.identified ∈ [IDENTIFIED; CONFIRMING; COMPLETED])
    /\ (state c' <> COMPLETED -> state c' = state sample.identified).
Proof.
  apply (book_completes_where_allowed (lib := datetime.calendar)
           sample.identified sample.one_booking sample.now "2026-01-28" "14:00"
           VNone 739644 14 0);
    try (vm_compute; reflexivity); vm_compute; try split; congruence.
Defined.

Lemma other_callers_cannot_touch_witness :
  database.cancel_appointment sample.johns_booking (VStr "mock_1")
    (VStr "5559876543")
  = (failure "You don't have permission to cancel this appointment." NoPayload,
     sample.johns_booking)
  /\ database.modify_appointment sample.johns_booking (VStr "mock_1")
       (VStr "5559876543") (VStr "2026-01-30") VNone
     = (failure "You don't have permission to modify this appointment." NoPayload,
        sample.johns_booking).
Proof.
  apply (other_callers_cannot_touch sample.johns_booking (VStr "mock_1") 0
           {| database.id := "mock_1";
              database.user_phone := VStr "5551234567";
              database.user_name := VStr "John";
              database.appointment_date := VStr "2026-01-29";
              database.appointment_time := VStr "10:00";
              database.status := "booked";
              database.notes := VNone;
              database.created_at := sample.now |}).
  - vm_compute. reflexivity.
  - vm_compute. discriminate.
Defined.

(** ** Sessions through the dispatcher *)

Lemma tool_functions_name intent t :
  router.tool_functions intent = Some t -> intent = tool_name t.
Proof.
  unfold router.tool_functions, router.AVAILABLE_TOOLS.
  repeat (rewrite assoc_cons;
          match goal with
          | |- context [String.eqb ?k intent] =>
              destruct (String.eqb_spec k intent) as [<- | _]
          end; [by intros [= <-] |]).
  done.
Qed.

Lemma tool_functions_tool_name t : router.tool_functions (tool_name t) = Some t.
Proof. by destruct t. Qed.

Lemma transition_settled c t :
  state c ∈ settled -> t <> IDENTIFIED -> t <> CONFIRMING -> t <> BOOKING ->
  snd (transition_to c t) = c.
Proof.
  intros Hs Ht1 Ht2 Ht3. unfold transition_to.
  destruct (can_transition_to c t) eqn:E; [| done].
  apply can_transition_to_table in E. unfold settled in Hs.
  repeat (apply elem_of_cons in Hs as [Hs | Hs];
          [rewrite Hs in E; inversion E; congruence |]).
  by apply elem_of_nil in Hs.
Qed.

Lemma same_log_refl c : same_log c c.
Proof. done. Qed.

Lemma same_log_transition c c0 t :
  same_log c c0 -> same_log c (snd (transition_to c0 t)).
Proof. unfold transition_to. by destruct (can_transition_to c0 t). Qed.

Lemma dispatch_all_app {lib : datetime.Library} l1 l2 c db :
  router.dispatch_all (l1 ++ l2) c db
  = router.dispatch_all l2 (fst (router.dispatch_all l1 c db))
      (snd (router.dispatch_all l1 c db)).
Proof.
  revert c db. induction l1 as [| x l1 IH]; intros c db; [done |].
  simpl. destruct (router.validate_and_dispatch _ _ c db _) as [[r c1] db1].
  apply IH.
Qed.

Section WithDatetime.
Context {lib : datetime.Library}.

Lemma call_same_log t c db now e o c' db' :
  router.call t c db now e = (o, c', db') -> same_log c c'.
Proof.
  unfold router.call. intros H.
  destruct (negb (router.binds t e)); [by simplify_eq |].
  destruct t; revert H;
    [unfold tools.identify_user | unfold tools.fetch_slots
    | unfold tools.book_appointment | unfold tools.retrieve_appointments
    | unfold tools.cancel_appointment | unfold tools.modify_appointment
    | unfold tools.end_conversation];
    by_branches ltac:(first [apply same_log_refl
                            | by apply same_log_transition]).
Qed.

Lemma call_settled t c db now e o c' db' :
  t <> router.identify_user -> state c ∈ settled ->
  router.call t c db now e = (o, c', db') -> state c' = state c.
Proof.
  unfold router.call. intros Ht Hs H.
  destruct (negb (router.binds t e)); [by simplify_eq |].
  destruct t; [done | ..]; revert H;
    [unfold tools.fetch_slots
    | unfold tools.book_appointment | unfold tools.retrieve_appointments
    | unfold tools.cancel_appointment | unfold tools.modify_appointment
    | unfold tools.end_conversation];
    by_branches ltac:(rewrite ?transition_settled by done; done).
Qed.

Lemma call_keeps_identity t c db now e o c' db' :
  t <> router.identify_user ->
  router.call t c db now e = (o, c', db') ->
  user_phone c' = user_phone c /\ user_name c' = user_name c.
Proof.
  unfold router.call. intros Ht H.
  destruct (negb (router.binds t e)); [by simplify_eq |].
  destruct t; [done | ..]; revert H;
    [unfold tools.fetch_slots
    | unfold tools.book_appointment | unfold tools.retrieve_appointments
    | unfold tools.cancel_appointment | unfold tools.modify_appointment
    | unfold tools.end_conversation];
    by_branches ltac:(unfold transition_to; repeat case_match; done).
Qed.

(** What one dispatch does to the context, in one place: the log fields
    other than the intents are kept, the intents grow by the intent exactly
    when a tool returned, and outside state [UNIDENTIFIED] the identity is
    kept. *)
Lemma validate_and_dispatch_step intent e c db now r c' db' :
  router.validate_and_dispatch intent e c db now = (r, c', db') ->
  conversation_history c' = conversation_history c
  /\ session_id c' = session_id c /\ started_at c' = started_at c
  /\ (identified_intents c' = identified_intents c
      \/ (identified_intents c' = (identified_intents c ++ [intent])%list
          /\ is_Some (router.tool_functions intent)))
  /\ (state c <> UNIDENTIFIED ->
      user_phone c' = user_phone c /\ user_name c' = user_name c)
  /\ (state c ∈ settled -> state c' = state c).
Proof.
  unfold router.validate_and_dispatch. intros H.
  destruct (router.tool_functions intent) as [t |] eqn:Ht.
  - apply tool_functions_name in Ht as Hn.
    destruct (router._validate_state_for_intent intent c) eqn:V;
      [simplify_eq; split_and!; auto |].
    assert (Hid : state c <> UNIDENTIFIED -> t <> router.identify_user).
    { intros Hs ->. simpl in Hn. subst intent.
      unfold router._validate_state_for_intent in V. simpl in V.
      by rewrite bool_decide_eq_true_2 in V. }
    destruct (router.call t c db now e) as [[o c1] db1] eqn:E.
    destruct (call_same_log _ _ _ _ _ _ _ _ E) as (Hh & Hi & Hsid & Hst).
    assert (Hk : state c <> UNIDENTIFIED ->
                 user_phone c1 = user_phone c /\ user_name c1 = user_name c).
    { intros Hs. eapply call_keeps_identity; [by apply Hid | done]. }
    assert (Hf : state c ∈ settled -> state c1 = state c).
    { intros Hs. eapply call_settled; [| done | done].
      apply Hid. intros Hu. rewrite Hu in Hs. unfold settled in Hs.
      repeat (apply elem_of_cons in Hs as [Hs | Hs]; [done |]).
      by apply elem_of_nil in Hs. }
    destruct o; simplify_eq; simpl; split_and!; auto.
    right. by rewrite Hi.
  - case_match; simplify_eq; split_and!; auto.
Qed.

(** X7: the identity is set once.  In a session that starts from a fresh
    context, once [user_phone] is set no later dispatch changes it, nor
    [user_name]. *)
Theorem identity_is_set_once :
  forall (before after : list router.Dispatch) (t0 : Z)
    (db : database.AppointmentDB) (p : string),
    let c1 := fst (router.dispatch_all before (fresh t0) db) in
    let c2 := fst (router.dispatch_all (before ++ after) (fresh t0) db) in
    user_phone c1 = Some p ->
    user_phone c2 = Some p /\ user_name c2 = user_name c1.
Proof.
  intros before after t0 db p c1 c2 Hp. unfold c2. rewrite dispatch_all_app.
  fold c1. generalize (snd (router.dispatch_all before (fresh t0) db)).
  assert (Hl : lockstep c1) by (apply dispatch_all_lockstep; by unfold lockstep).
  clearbody c1. clear c2.
  revert c1 Hp Hl. induction after as [| x after IH]; intros c1 Hp Hl db1; [done |].
  simpl.
  destruct (router.validate_and_dispatch _ _ c1 db1 _) as [[r c'] db'] eqn:E.
  assert (Hs : state c1 <> UNIDENTIFIED) by (apply Hl; congruence).
  pose proof (validate_and_dispatch_step _ _ _ _ _ _ _ _ E)
    as (_ & _ & _ & _ & Hk & _).
  destruct (Hk Hs) as [Hp' Hn'].
  rewrite <- Hn'. apply IH; [congruence |].
  eapply steady_lockstep; [done |]. by eapply validate_and_dispatch_steady.
Qed.

(** X8: once the state is one of [BROWSING_SLOTS], [BOOKING],
    [RETRIEVING], [CANCELLING], [MODIFYING] and [COMPLETED], no sequence of
    dispatches changes it: every tool still runs, but each transition it
    attempts is refused. *)
Theorem settled_state_never_changes :
  forall (calls : list router.Dispatch) (c : ConversationContext)
    (db : database.AppointmentDB),
    state c ∈ settled ->
    state (fst (router.dispatch_all calls c db)) = state c.
Proof.
  induction calls as [| x calls IH]; intros c db Hs; [done |].
  simpl.
  destruct (router.validate_and_dispatch _ _ c db _) as [[r c'] db'] eqn:E.
  pose proof (validate_and_dispatch_step _ _ _ _ _ _ _ _ E)
    as (_ & _ & _ & _ & _ & Hf).
  rewrite <- (Hf Hs). apply IH. by rewrite (Hf Hs).
Qed.

(** X9: a session that starts from a fresh context never reaches [BOOKING]
    or [CONFIRMING]. *)
Theorem booking_and_confirming_are_unreachable :
  forall (calls : list router.Dispatch) (t0 : Z) (db : database.AppointmentDB),
    state (fst (router.dispatch_all calls (fresh t0) db))
      ∈ [UNIDENTIFIED; IDENTIFIED; BROWSING_SLOTS; RETRIEVING; CANCELLING;
         MODIFYING; COMPLETED].
Proof.
  intros calls t0 db.
  assert (H : forall c, state c ∈ [UNIDENTIFIED; IDENTIFIED; BROWSING_SLOTS;
                          RETRIEVING; CANCELLING; MODIFYING; COMPLETED] ->
            forall db, state (fst (router.dispatch_all calls c db))
              ∈ [UNIDENTIFIED; IDENTIFIED; BROWSING_SLOTS; RETRIEVING; CANCELLING;
                 MODIFYING; COMPLETED]).
  { induction calls as [| x calls IH]; intros c Hc db1; [done |].
    simpl.
    destruct (router.validate_and_dispatch _ _ c db1 _) as [[r c'] db'] eqn:E.
    apply IH. clear IH.
    unfold router.validate_and_dispatch in E.
    destruct (router.tool_functions _) as [t |];
      [| case_match; by simplify_eq].
    destruct (router._validate_state_for_intent _ c); [by simplify_eq |].
    assert (Hcall : forall o c1 db2,
              router.call t c db1 (router.at_time x) (router.entities x)
              = (o, c1, db2) ->
              state c1 ∈ [UNIDENTIFIED; IDENTIFIED; BROWSING_SLOTS; RETRIEVING;
                          CANCELLING; MODIFYING; COMPLETED]).
    { clear E. intros o c1 db2. unfold router.call.
      destruct (negb (router.binds t _)); [by intros; simplify_eq |].
      destruct t;
        [unfold tools.identify_user | unfold tools.fetch_slots
        | unfold tools.book_appointment | unfold tools.retrieve_appointments
        | unfold tools.cancel_appointment | unfold tools.modify_appointment
        | unfold tools.end_conversation];
        by_branches ltac:(try done; rewrite transition_to_state;
                          case_match; simpl; try done;
                          repeat first [apply list_elem_of_here
                                       | apply list_elem_of_further]). }
    destruct (router.call t c db1 _ _) as [[o c1] db2] eqn:Ec.
    specialize (Hcall _ _ _ eq_refl).
    destruct o; by simplify_eq. }
  apply H. apply list_elem_of_here.
Qed.

End WithDatetime.

Lemma identity_is_set_once_witness :
  user_phone (fst (router.dispatch_all (lib := datetime.calendar)
                     (sample.john ++ [sample.browse; sample.retrieve])
                     (fresh sample.now) database.empty))
  = Some "5551234567"
  /\ user_name (fst (router.dispatch_all (lib := datetime.calendar)
                       (sample.john ++ [sample.browse; sample.retrieve])
                       (fresh sample.now) database.empty))
     = user_name (fst (router.dispatch_all (lib := datetime.calendar)
                         sample.john (fresh sample.now) database.empty)).
Proof.
  apply (identity_is_set_once (lib := datetime.calendar) sample.john
           [sample.browse; sample.retrieve] sample.now database.empty
           "5551234567").
  vm_compute. reflexivity.
Defined.

Lemma settled_state_never_changes_witness :
  state (fst (router.dispatch_all (lib := datetime.calendar)
                [sample.retrieve; sample.browse] sample.browsing database.empty))
  = state sample.browsing.
Proof.
  apply (settled_state_never_changes (lib := datetime.calendar)).
  apply (bool_decide_unpack _). vm_compute. exact I.
Defined.

Section WithDatetime.
Context {lib : datetime.Library}.

(** X10: [identified_intents] is an append-only trail.  After any sequence
    of dispatches it is the list before followed by intents taken, in order,
    from the dispatched ones, each the name of a tool; the history, the session
    id and the start instant are never written by a dispatch. *)
Theorem intents_are_an_append_only_trail :
  forall (calls : list router.Dispatch) (c : ConversationContext)
    (db : database.AppointmentDB),
    let c' := fst (router.dispatch_all calls c db) in
    exists l : list string,
      identified_intents c' = (identified_intents c ++ l)%list
      /\ sublist l (router.intent <$> calls)
      /\ Forall (fun i => is_Some (router.tool_functions i)) l
      /\ conversation_history c' = conversation_history c
      /\ session_id c' = session_id c
      /\ started_at c' = started_at c.
Proof.
  induction calls as [| x calls IH]; intros c db.
  - exists []. simpl. rewrite app_nil_r. split_and!; first [done | constructor].
  - simpl.
    destruct (router.validate_and_dispatch _ _ c db _) as [[r c1] db1] eqn:E.
    pose proof (validate_and_dispatch_step _ _ _ _ _ _ _ _ E)
      as (Hh & Hsid & Hst & Hi & _).
    destruct (IH c1 db1) as (l & Hl & Hsub & Hall & Hh' & Hsid' & Hst').
    destruct Hi as [Hi | [Hi Hk]].
    + exists l. rewrite Hl, Hi. split_and!; try congruence; try done.
      by apply sublist_cons.
    + exists (router.intent x :: l). rewrite Hl, Hi, <- app_assoc.
      split_and!; try congruence; try done.
      * by apply sublist_skip.
      * by constructor.
Qed.

Lemma call_failure_keeps_store t c db now e o c' db' :
  router.call t c db now e = (o, c', db') ->
  let keep :=
    db' = db /\ user_phone c' = user_phone c /\ user_name c' = user_name c
    /\ pending_appointment c' = pending_appointment c in
  match o with
  | Return r => success r = true \/ keep
  | _ => keep
  end.
Proof.
  unfold router.call. intros H.
  destruct (negb (router.binds t e)); [by simplify_eq |].
  destruct t; revert H;
    [unfold tools.identify_user | unfold tools.fetch_slots
    | unfold tools.book_appointment, database.create_appointment
    | unfold tools.retrieve_appointments, database.get_user_appointments
    | unfold tools.cancel_appointment, database.cancel_appointment
    | unfold tools.modify_appointment, database.modify_appointment
    | unfold tools.end_conversation];
    by_branches ltac:(first
      [ by left
      | by right; unfold transition_to; repeat case_match
      | by unfold transition_to; repeat case_match ]).
Qed.

(** X11: a dispatch that returns a failure has not touched the store, the
    identity or the pending appointment: no operation is applied in part. *)
Theorem failed_dispatch_leaves_the_store :
  forall (intent : string) (entities : gmap string pyval)
    (c : ConversationContext) (db : database.AppointmentDB) (now : Z)
    (r : Result) (c' : ConversationContext) (db' : database.AppointmentDB),
    router.validate_and_dispatch intent entities c db now = (r, c', db') ->
    success r = false ->
    db' = db /\ user_phone c' = user_phone c /\ user_name c' = user_name c
    /\ pending_appointment c' = pending_appointment c.
Proof.
  unfold router.validate_and_dispatch. intros intent e c db now r c' db' H Hs.
  destruct (router.tool_functions intent) as [t |];
    [| case_match; by simplify_eq].
  destruct (router._validate_state_for_intent intent c); [by simplify_eq |].
  destruct (router.call t c db now e) as [[o c1] db1] eqn:E.
  apply call_failure_keeps_store in E. simpl in E.
  destruct o; simplify_eq; [| done | done].
  destruct E as [Hok | Hkeep]; [| done].
  unfold router.see_intents in Hs. destruct (payload r0); simpl in Hs; congruence.
Qed.

End WithDatetime.

Lemma failed_dispatch_leaves_the_store_witness :
  let out :=
    router.validate_and_dispatch (lib := datetime.calendar) "book_appointment"
      (sample.entities [("date", VStr "2026-01-28"); ("time", VStr "11:00")])
      sample.identified sample.one_booking sample.now in
  snd out = sample.one_booking
  /\ user_phone (snd (fst out)) = user_phone sample.identified
  /\ user_name (snd (fst out)) = user_name sample.identified
  /\ pending_appointment (snd (fst out)) = pending_appointment sample.identified.
Proof.
  intros out.
  apply (failed_dispatch_leaves_the_store (lib := datetime.calendar)
           "book_appointment"
           (sample.entities [("date", VStr "2026-01-28"); ("time", VStr "11:00")])
           sample.identified sample.one_booking sample.now (fst (fst out))).
  - vm_compute. reflexivity.
  - vm_compute. reflexivity.
Defined.

(** ** The store: what calls do to the records *)

Lemma existsb_false_all {A} (f : A -> bool) (l : list A) :
  (forall i a, l !! i = Some a -> f a = false) -> existsb f l = false.
Proof.
  intros H. destruct (existsb f l) eqn:E; [| done].
  apply existsb_true_lookup in E as (i & a & Hi & Ha).
  rewrite (H _ _ Hi) in Ha. done.
Qed.

Lemma other_ids_differ db i j a b :
  store.ids_by_position db -> db !! i = Some a -> db !! j = Some b ->
  database.id a = database.id b -> i = j.
Proof.
  intros Hid Hi Hj E. rewrite (Hid _ _ Hi), (Hid _ _ Hj) in E.
  by apply mock_id_inj.
Qed.

(** X12: cancelling frees the slot.  On a store reached from the empty one,
    after the owner cancels a booked appointment a new appointment on the same
    date and time is accepted, and it is then the only booked one there. *)
Theorem cancel_frees_the_slot :
  forall (calls : list store.Call) (aid phone : pyval) (i : nat)
    (a : database.Appointment) (now : Z) (phone2 name2 notes2 : pyval),
    let db := store.run_all calls database.empty in
    database.find_id aid db = Some (i, a) ->
    database.user_phone a = phone ->
    database.status a = "booked" ->
    let db1 := snd (database.cancel_appointment db aid phone) in
    let slot_date := database.appointment_date a in
    let slot_time := database.appointment_time a in
    exists db2,
      database.create_appointment db1 now phone2 name2 slot_date slot_time notes2
      = (ok None (AppointmentPayload (length db) None), db2)
      /\ store.booked_count slot_date slot_time db = 1%nat
      /\ store.booked_count slot_date slot_time db1 = 0%nat
      /\ store.booked_count slot_date slot_time db2 = 1%nat.
Proof.
  intros calls aid phone i a now p2 n2 notes2 db F Ho Hb db1 d t.
  destruct (reachable_store calls) as [Hid Hnd]. fold db in Hid, Hnd.
  destruct (find_id_Some _ _ _ _ F) as [Hi _].
  assert (Hdb1 : db1 = <[i := database.set_status "cancelled" a]> db).
  { unfold db1, database.cancel_appointment. rewrite F.
    by rewrite (bool_decide_eq_true_2 _ Ho). }
  assert (Hfree : existsb (database.booked_at d t) db1 = false).
  { apply existsb_false_all. intros j b Hj. rewrite Hdb1 in Hj.
    apply list_lookup_insert_Some in Hj as [(-> & <- & _) | [Hne Hj]];
      [unfold database.booked_at; simpl; by rewrite andb_false_r |].
    destruct (database.booked_at d t b) eqn:Eb; [| done].
    apply booked_at_true in Eb as (? & ? & ?).
    destruct Hne. eapply Hnd; eauto. }
  assert (Hone : store.booked_count d t db = 1%nat).
  { assert (Hle := booked_count_le_1 d t db Hnd).
    assert (store.booked_count d t db <> 0%nat); [| lia].
    rewrite booked_count_zero. intros E.
    apply (existsb_false_lookup _ _ _ _ E) in Hi.
    assert (database.booked_at d t a = true) by (by apply booked_at_true).
    congruence. }
  eexists. unfold database.create_appointment. rewrite Hfree.
  assert (Hlen : length db1 = length db) by (rewrite Hdb1; apply length_insert).
  rewrite Hlen. split_and!; [done | done | by apply booked_count_zero |].
  rewrite booked_count_app. apply booked_count_zero in Hfree as ->.
  unfold store.booked_count. simpl. unfold database.booked_at. simpl.
  by rewrite !bool_decide_eq_true_2.
Qed.

Lemma cancel_frees_the_slot_witness :
  exists db2,
    database.create_appointment
      (snd (database.cancel_appointment sample.johns_booking (VStr "mock_1")
              (VStr "5551234567")))
      sample.now (VStr "5559876543") VNone (VStr "2026-01-29") (VStr "10:00") VNone
    = (ok None (AppointmentPayload 1 None), db2)
    /\ store.booked_count (VStr "2026-01-29") (VStr "10:00") sample.johns_booking
       = 1%nat
    /\ store.booked_count (VStr "2026-01-29") (VStr "10:00")
         (snd (database.cancel_appointment sample.johns_booking (VStr "mock_1")
                 (VStr "5551234567"))) = 0%nat
    /\ store.booked_count (VStr "2026-01-29") (VStr "10:00") db2 = 1%nat.
Proof.
  apply (cancel_frees_the_slot
           [store.Create sample.now (VStr "5551234567") (VStr "John")
              (VStr "2026-01-29") (VStr "10:00") VNone]
           (VStr "mock_1") (VStr "5551234567") 0
           {| database.id := "mock_1";
              database.user_phone := VStr "5551234567";
              database.user_name := VStr "John";
              database.appointment_date := VStr "2026-01-29";
              database.appointment_time := VStr "10:00";
              database.status := "booked";
              database.notes := VNone;
              database.created_at := sample.now |}
           sample.now (VStr "5559876543") VNone VNone);
    vm_compute; reflexivity.
Defined.

(** X13: what a modify by the owner does, on a store reached from the empty
    one.  The target slot is the given date and time, each falling back to the
    appointment's own when not given.  If another appointment is booked on the
    target slot the call fails and the store is unchanged; otherwise it
    succeeds and only the date and the time of that one record change (id,
    owner, name, status, notes and creation instant stay, also for a cancelled
    record).  The appointment never conflicts with itself. *)
Theorem modify_changes_only_what_is_given :
  forall (calls : list store.Call) (aid phone new_date new_time : pyval) (i : nat)
    (a : database.Appointment),
    let db := store.run_all calls database.empty in
    database.find_id aid db = Some (i, a) ->
    database.user_phone a = phone ->
    let d := if truthy new_date then new_date else database.appointment_date a in
    let t := if truthy new_time then new_time else database.appointment_time a in
    let taken :=
      exists j b, j <> i /\ db !! j = Some b /\ database.appointment_date b = d
                  /\ database.appointment_time b = t
                  /\ database.status b = "booked" in
    (taken ->
     database.modify_appointment db aid phone new_date new_time
     = (failure "The new time slot is already booked." NoPayload, db))
    /\ (~ taken ->
        database.modify_appointment db aid phone new_date new_time
        = (ok None (AppointmentPayload i None),
           <[i := {| database.id := database.id a;
                     database.user_phone := database.user_phone a;
                     database.user_name := database.user_name a;
                     database.appointment_date := d;
                     database.appointment_time := t;
                     database.status := database.status a;
                     database.notes := database.notes a;
                     database.created_at := database.created_at a |}]> db)).
Proof.
  intros calls aid phone nd nt i a db F Ho d t taken.
  destruct (reachable_store calls) as [Hid _]. fold db in Hid.
  destruct (find_id_Some _ _ _ _ F) as [Hi Ha].
  unfold database.modify_appointment. rewrite F.
  rewrite (bool_decide_eq_true_2 _ Ho). simpl. unfold py_or. fold d t.
  split.
  - intros (j & b & Hne & Hj & Hd & Ht & Hs).
    destruct (existsb _ db) eqn:E; [done |].
    apply (existsb_false_lookup _ _ _ _ E) in Hj as Hf.
    assert (database.booked_at d t b = true) as Hb by (by apply booked_at_true).
    rewrite Hb, andb_true_r in Hf.
    apply negb_false_iff, bool_decide_eq_true in Hf. rewrite <- Ha in Hf.
    injection Hf as Hf. destruct Hne. by eapply other_ids_differ.
  - intros Hfree.
    rewrite existsb_false_all; [done |].
    intros j b Hj.
    destruct (decide (j = i)) as [-> | Hne].
    + assert (b = a) as -> by congruence.
      by rewrite (bool_decide_eq_true_2 _ Ha).
    + destruct (database.booked_at d t b) eqn:Eb; [| by rewrite andb_false_r].
      apply booked_at_true in Eb as (? & ? & ?).
      destruct Hfree. by exists j, b.
Qed.

Lemma modify_changes_only_what_is_given_witness :
  database.modify_appointment sample.johns_booking (VStr "mock_1")
    (VStr "5551234567") VNone (VStr "11:30")
  = (ok None (AppointmentPayload 0 None),
     [{| database.id := "mock_1";
         database.user_phone := VStr "5551234567";
         database.user_name := VStr "John";
         database.appointment_date := VStr "2026-01-29";
         database.appointment_time := VStr "11:30";
         database.status := "booked";
         database.notes := VNone;
         database.created_at := sample.now |}]).
Proof.
  apply (modify_changes_only_what_is_given
           [store.Create sample.now (VStr "5551234567") (VStr "John")
              (VStr "2026-01-29") (VStr "10:00") VNone]
           (VStr "mock_1") (VStr "5551234567") VNone (VStr "11:30") 0
           {| database.id := "mock_1";
              database.user_phone := VStr "5551234567";
              database.user_name := VStr "John";
              database.appointment_date := VStr "2026-01-29";
              database.appointment_time := VStr "10:00";
              database.status := "booked";
              database.notes := VNone;
              database.created_at := sample.now |}).
  - vm_compute. reflexivity.
  - reflexivity.
  - intros (j & b & Hne & Hj & _). destruct j as [| j]; [done |]. discriminate.
Defined.

(** What one store call leaves of a record. *)
Lemma run_keeps_record c db i a :
  db !! i = Some a ->
  exists a',
    store.run c db !! i = Some a'
    /\ database.id a' = database.id a
    /\ database.user_phone a' = database.user_phone a
    /\ database.user_name a' = database.user_name a
    /\ database.notes a' = database.notes a
    /\ database.created_at a' = database.created_at a
    /\ (database.status a' = database.status a
        \/ database.status a' = "cancelled").
Proof.
  intros Hi. destruct c as [now p n d t notes | aid p | aid p nd nt]; simpl.
  - unfold database.create_appointment.
    destruct (existsb _ db); simpl; exists a;
      (split; [first [done | by apply lookup_app_l_Some] | by auto 10]).
  - unfold database.cancel_appointment.
    destruct (database.find_id aid db) as [[k x] |] eqn:F;
      [| exists a; by auto 10].
    destruct (negb _); simpl; [exists a; by auto 10 |].
    apply find_id_Some in F as [Hk _].
    destruct (decide (k = i)) as [-> | Hne].
    + assert (x = a) as -> by congruence.
      exists (database.set_status "cancelled" a).
      split; [apply list_lookup_insert_eq; by eapply lookup_lt_Some |].
      by auto 10.
    + exists a. rewrite list_lookup_insert_ne by done. by auto 10.
  - unfold database.modify_appointment.
    destruct (database.find_id aid db) as [[k x] |] eqn:F;
      [| exists a; by auto 10].
    destruct (negb _); simpl; [exists a; by auto 10 |].
    destruct (existsb _ db); simpl; [exists a; by auto 10 |].
    apply find_id_Some in F as [Hk _].
    destruct (decide (k = i)) as [-> | Hne].
    + assert (x = a) as -> by congruence.
      eexists.
      split; [apply list_lookup_insert_eq; by eapply lookup_lt_Some |].
      by auto 10.
    + exists a. rewrite list_lookup_insert_ne by done. by auto 10.
Qed.

(** X14: the store never deletes and never revives.  Whatever calls follow,
    a record stays at its position with its id, owner, name, notes and
    creation instant; its status is the one it had or [cancelled], so a
    cancelled appointment is never booked again. *)
Theorem records_are_never_deleted :
  forall (calls : list store.Call) (db : database.AppointmentDB) (i : nat)
    (a : database.Appointment),
    db !! i = Some a ->
    exists a',
      store.run_all calls db !! i = Some a'
      /\ database.id a' = database.id a
      /\ database.user_phone a' = database.user_phone a
      /\ database.user_name a' = database.user_name a
      /\ database.notes a' = database.notes a
      /\ database.created_at a' = database.created_at a
      /\ (database.status a' = database.status a
          \/ database.status a' = "cancelled")
      /\ (length db <= length (store.run_all calls db))%nat.
Proof.
  induction calls as [| c calls IH]; intros db i a Hi.
  - exists a. by auto 10.
  - simpl.
    destruct (run_keeps_record c db i a Hi)
      as (a1 & H1 & Hid1 & Hp1 & Hn1 & Hno1 & Hc1 & Hs1).
    destruct (IH _ _ _ H1) as (a2 & H2 & Hid2 & Hp2 & Hn2 & Hno2 & Hc2 & Hs2 & Hlen).
    exists a2. split_and!; try congruence.
    + destruct Hs2 as [Hs2 | Hs2]; [| by right].
      destruct Hs1 as [Hs1 | Hs1]; [left | right]; congruence.
    + etrans; [| done].
      destruct c; simpl;
        [unfold database.create_appointment
        | unfold database.cancel_appointment
        | unfold database.modify_appointment];
        repeat case_match; simpl; rewrite ?length_app, ?length_insert; simpl; lia.
Qed.

Lemma records_are_never_deleted_witness :
  exists a',
    store.run_all
      [store.Cancel (VStr "mock_1") (VStr "5551234567");
       store.Modify (VStr "mock_1") (VStr "5551234567") (VStr "2026-02-02") VNone;
       store.Create sample.now (VStr "5559876543") VNone (VStr "2026-01-29")
         (VStr "10:00") VNone]
      sample.johns_booking !! 0%nat = Some a'
    /\ database.id a' = "mock_1"
    /\ database.user_phone a' = VStr "5551234567"
    /\ database.user_name a' = VStr "John"
    /\ database.notes a' = VNone
    /\ database.created_at a' = sample.now
    /\ (database.status a' = "booked" \/ database.status a' = "cancelled")
    /\ (1 <= length (store.run_all
                       [store.Cancel (VStr "mock_1") (VStr "5551234567");
                        store.Modify (VStr "mock_1") (VStr "5551234567")
                          (VStr "2026-02-02") VNone;
                        store.Create sample.now (VStr "5559876543") VNone
                          (VStr "2026-01-29") (VStr "10:00") VNone]
                       sample.johns_booking))%nat.
Proof.
  apply (records_are_never_deleted _ sample.johns_booking 0
           {| database.id := "mock_1";
              database.user_phone := VStr "5551234567";
              database.user_name := VStr "John";
              database.appointment_date := VStr "2026-01-29";
              database.appointment_time := VStr "10:00";
              database.status := "booked";
              database.notes := VNone;
              database.created_at := sample.now |}).
  reflexivity.
Defined.

(** ** Listing a caller's appointments *)

Lemma select_from_elem keep db : forall k i,
  i ∈ database.select_from k keep db <->
  (k <= i)%nat /\ exists a, db !! (i - k)%nat = Some a /\ keep a = true.
Proof.
  induction db as [| x db IH]; intros k i; simpl.
  - split; [by intros ?%elem_of_nil | by intros (_ & a & ? & _)].
  - assert (Hrest : i ∈ database.select_from (S k) keep db <->
              (k < i)%nat /\ exists a, (x :: db) !! (i - k)%nat = Some a
                                       /\ keep a = true).
    { rewrite IH. split.
      - intros (Hle & a & Ha & Hk). split; [lia |]. exists a.
        replace (i - k)%nat with (S (i - S k)) by lia. done.
      - intros (Hlt & a & Ha & Hk). split; [lia |]. exists a.
        replace (i - k)%nat with (S (i - S k)) in Ha by lia. done. }
    destruct (keep x) eqn:Ex.
    + rewrite elem_of_cons, Hrest. split.
      * intros [-> | (Hlt & a & Ha & Hk)].
        -- split; [lia |]. exists x. by rewrite Nat.sub_diag.
        -- split; [lia |]. by exists a.
      * intros (Hle & a & Ha & Hk).
        destruct (decide (i = k)) as [-> | Hne]; [by left | right].
        split; [lia |]. by exists a.
    + rewrite Hrest. split.
      * intros (Hlt & a & Ha & Hk). split; [lia |]. by exists a.
      * intros (Hle & a & Ha & Hk).
        destruct (decide (i = k)) as [-> | Hne].
        -- rewrite Nat.sub_diag in Ha. simpl in Ha. congruence.
        -- split; [lia |]. by exists a.
Qed.

Lemma select_from_sorted keep db : forall k,
  StronglySorted lt (database.select_from k keep db).
Proof.
  induction db as [| x db IH]; intros k; simpl; [constructor |].
  destruct (keep x); [| apply IH].
  constructor; [apply IH |].
  apply Forall_forall. intros i Hi. apply select_from_elem in Hi. lia.
Qed.

(** X15: [get_user_appointments] returns, in store order and each once, the
    positions of exactly the appointments whose phone is the caller's and,
    when a non-empty status is asked for, whose status is that one; it leaves
    the store as it is. *)
Theorem get_user_appointments_lists_the_callers :
  forall (db : database.AppointmentDB) (phone : pyval) (status_filter : option string),
    exists l : list nat,
      database.get_user_appointments db phone status_filter
      = (ok None (AppointmentsPayload l None), db)
      /\ StronglySorted lt l
      /\ forall i,
           i ∈ l <->
           exists a, db !! i = Some a /\ database.user_phone a = phone
                     /\ (truthy (of_optional status_filter) = true ->
                         Some (database.status a) = status_filter).
Proof.
  intros db phone sf. eexists. split; [reflexivity |].
  split; [apply select_from_sorted |].
  intros i. rewrite select_from_elem, Nat.sub_0_r.
  destruct (truthy (of_optional sf)); split.
  - intros (_ & a & Ha & [Hp Hs]%andb_true_iff). exists a.
    apply bool_decide_eq_true in Hp, Hs. done.
  - intros (a & Ha & Hp & Hs). split; [lia |]. exists a. split; [done |].
    apply andb_true_iff. split; apply bool_decide_eq_true; auto.
  - intros (_ & a & Ha & Hp). exists a. apply bool_decide_eq_true in Hp.
    split_and!; [done | done | discriminate].
  - intros (a & Ha & Hp & _). split; [lia |]. exists a. split; [done |].
    by apply bool_decide_eq_true.
Qed.

Section WithDatetime.
Context {lib : datetime.Library}.

Lemma retrieve_appointments_lists c db :
  is_identified c = true ->
  exists msg l,
    tools.retrieve_appointments c db
    = (Return (ok (Some msg) (AppointmentsPayload l (user_phone c))),
       snd (transition_to c RETRIEVING), db)
    /\ forall i,
         i ∈ l <->
         exists a, db !! i = Some a
                   /\ database.user_phone a = of_optional (user_phone c)
                   /\ database.status a = "booked".
Proof.
  intros Hi. unfold tools.retrieve_appointments. rewrite Hi. simpl.
  rewrite transition_to_user_phone.
  eexists _, _. split; [reflexivity |].
  intros i. rewrite select_from_elem, Nat.sub_0_r. split.
  - intros (_ & a & Ha & [Hp Hs]%andb_true_iff). exists a.
    apply bool_decide_eq_true in Hp, Hs. split_and!; [done | done | congruence].
  - intros (a & Ha & Hp & Hs). split; [lia |]. exists a. split; [done |].
    apply andb_true_iff. split; apply bool_decide_eq_true; congruence.
Qed.

Lemma cancel_appointment_success c db aid r c' db' :
  tools.cancel_appointment c db aid = (Return r, c', db') ->
  success r = true ->
  exists i a,
    payload r = AppointmentPayload i None
    /\ db' !! i = Some (database.set_status "cancelled" a).
Proof.
  intros H Hs. unfold tools.cancel_appointment, database.cancel_appointment in H.
  repeat case_match; simplify_eq/=.
  match goal with
  | F : database.find_id _ _ = Some (?i, ?a) |- _ =>
      exists i, a; split; [done |];
      apply find_id_Some in F as [Hi _];
      apply list_lookup_insert_eq; by eapply lookup_lt_Some
  end.
Qed.

(** X16: booking and cancelling show in the listing.  After a successful
    [book_appointment], [retrieve_appointments] by any identified context with
    the same phone (a new session of that caller, say) lists the new record;
    after a successful [cancel_appointment] it no longer lists the cancelled
    one. *)
Theorem listing_follows_booking_and_cancelling :
  forall (c c2 : ConversationContext) (db db' : database.AppointmentDB)
    (r : Result) (c' : ConversationContext),
    is_identified c2 = true -> user_phone c2 = user_phone c ->
    (forall now date time notes,
       tools.book_appointment c db now date time notes = (Return r, c', db') ->
       success r = true ->
       exists msg l,
         tools.retrieve_appointments c2 db'
         = (Return (ok (Some msg) (AppointmentsPayload l (user_phone c2))),
            snd (transition_to c2 RETRIEVING), db')
         /\ length db ∈ l
         /\ exists confirmation,
              payload r = AppointmentPayload (length db) confirmation)
    /\ (forall aid,
          tools.cancel_appointment c db aid = (Return r, c', db') ->
          success r = true ->
          exists msg l i,
            tools.retrieve_appointments c2 db'
            = (Return (ok (Some msg) (AppointmentsPayload l (user_phone c2))),
               snd (transition_to c2 RETRIEVING), db')
            /\ payload r = AppointmentPayload i None
            /\ i ∉ l).
Proof.
  intros c c2 db db' r c' Hi2 Hp2.
  destruct (retrieve_appointments_lists c2 db' Hi2) as (msg & l & Hr & Hl).
  split.
  - intros now date time notes H Hs. exists msg, l. split; [done |].
    unfold tools.book_appointment, database.create_appointment in H.
    repeat case_match; simplify_eq/=.
    split; [| by eexists].
    apply Hl. eexists. split; [by rewrite lookup_app_r, Nat.sub_diag by lia |].
    simpl. by rewrite Hp2.
  - intros aid H Hs.
    destruct (cancel_appointment_success c db aid r c' db' H Hs)
      as (i & a & Hr' & Hi').
    exists msg, l, i. split_and!; [done | done |].
    intros (b & Hb & _ & Hst)%Hl. rewrite Hi' in Hb. by simplify_eq.
Qed.

End WithDatetime.

Lemma listing_follows_booking_and_cancelling_witness :
  exists msg l,
    tools.retrieve_appointments sample.browsing sample.johns_booking
    = (Return (ok (Some msg) (AppointmentsPayload l (user_phone sample.browsing))),
       snd (transition_to sample.browsing RETRIEVING), sample.johns_booking)
    /\ 0%nat ∈ l.
Proof.
  pose (out := tools.book_appointment (lib := datetime.calendar) sample.identified
                 database.empty sample.now (VStr "2026-01-29") (VStr "10:00") VNone).
  destruct (listing_follows_booking_and_cancelling (lib := datetime.calendar)
              sample.identified sample.browsing database.empty
              sample.johns_booking
              (match fst (fst out) with
               | Return r => r
               | _ => failure "no result" NoPayload
               end)
              (snd (fst out))) as [Hbook _].
  - vm_compute. reflexivity.
  - vm_compute. reflexivity.
  - destruct (Hbook sample.now (VStr "2026-01-29") (VStr "10:00") VNone)
      as (msg & l & H1 & H2 & _).
    + vm_compute. reflexivity.
    + vm_compute. reflexivity.
    + exists msg, l. split; [exact H1 | exact H2].
Defined.

(** ** How many slots [fetch_slots] finds *)

Lemma english_weekday n :
  bool_decide (datetime.calendar_strftime_A n ∈ tools.AVAILABLE_DAYS)
  = ((n + 6) mod 7 <? 5)%Z.
Proof.
  unfold datetime.calendar_strftime_A.
  assert (H : 0 <= (n + 6) mod 7 < 7) by (apply Z.mod_pos_bound; lia).
  set (w := (n + 6) mod 7) in *.
  assert (Hw : w = 0 \/ w = 1 \/ w = 2 \/ w = 3 \/ w = 4 \/ w = 5 \/ w = 6) by lia.
  destruct Hw as [-> | [-> | [-> | [-> | [-> | [-> | ->]]]]]]; by vm_compute.
Qed.

Section WithDatetime.
Context {lib : datetime.Library}.

Lemma day_slots_length today day_offset :
  length (tools.day_slots today day_offset)
  = if bool_decide (datetime.strftime_A (today + day_offset) ∈ tools.AVAILABLE_DAYS)
    then (if (day_offset =? 1)%Z then 5%nat else 7%nat)
    else 0%nat.
Proof.
  unfold tools.day_slots. case_bool_decide; [| done].
  replace tools.AVAILABLE_HOURS with [9; 10; 11; 12; 13; 14; 15; 16] by reflexivity.
  destruct (day_offset =? 1)%Z; reflexivity.
Qed.

(** X17: with the day names of the C locale, [fetch_slots] for an identified
    context always returns exactly ten slots and reports 33 slots in total
    when tomorrow is a weekday and 35 when tomorrow is a Saturday or a Sunday,
    whatever the store holds. *)
Theorem fetch_slots_finds_33_or_35 :
  forall (c : ConversationContext) (db : database.AppointmentDB) (now : Z)
    (date : pyval),
    (forall n, datetime.strftime_A n = datetime.calendar_strftime_A n) ->
    is_identified c = true ->
    exists msg slots total c',
      tools.fetch_slots c db now date
      = (Return (ok msg (SlotsPayload slots total)), c', db)
      /\ length slots = 10%nat
      /\ total = (if ((datetime.date now + 1 + 6) mod 7 <? 5)%Z
                  then 33%nat else 35%nat).
Proof.
  intros c db now date Heng Hi. unfold tools.fetch_slots. rewrite Hi. simpl.
  eexists _, _, _, _. split; [reflexivity |].
  set (today := datetime.date now).
  assert (Hlen : length (tools.generate_slots today)
                 = if ((today + 1 + 6) mod 7 <? 5)%Z then 33%nat else 35%nat).
  { unfold tools.generate_slots.
    replace (tools.range 1 8) with [1; 2; 3; 4; 5; 6; 7] by reflexivity.
    simpl. rewrite app_nil_r, !length_app, !day_slots_length, !Heng.
    rewrite !english_weekday. simpl.
    assert (Hk : forall k, (today + k + 6) mod 7 = (today mod 7 + (k + 6)) mod 7).
    { intros k. rewrite Zplus_mod_idemp_l. f_equal. lia. }
    rewrite !Hk.
    assert (H : 0 <= today mod 7 < 7) by (apply Z.mod_pos_bound; lia).
    set (r := today mod 7) in *.
    assert (Hr : r = 0 \/ r = 1 \/ r = 2 \/ r = 3 \/ r = 4 \/ r = 5 \/ r = 6) by lia.
    destruct Hr as [-> | [-> | [-> | [-> | [-> | [-> | ->]]]]]]; reflexivity. }
  split; [| done].
  rewrite length_take, Hlen. by destruct (_ <? 5)%Z.
Qed.

End WithDatetime.

Lemma fetch_slots_finds_33_or_35_witness :
  exists msg slots total c',
    tools.fetch_slots (lib := datetime.calendar) sample.identified
      sample.one_booking sample.now VNone
    = (Return (ok msg (SlotsPayload slots total)), c', sample.one_booking)
    /\ length slots = 10%nat
    /\ total = (if ((datetime.date sample.now + 1 + 6) mod 7 <? 5)%Z
                then 33%nat else 35%nat).
Proof.
  apply (fetch_slots_finds_33_or_35 (lib := datetime.calendar) sample.identified
           sample.one_booking sample.now VNone).
  - intros n. reflexivity.
  - reflexivity.
Defined.

(** ** The keyword classifier *)

Lemma startswith_spec p : forall s,
  pystr.startswith p s = true <-> exists post, s = p +:+ post.
Proof.
  induction p as [| a p IH]; intros s; simpl.
  - split; [by exists s | done].
  - destruct s as [| b s].
    + split; [done | intros [post H]; rewrite append_cons in H; discriminate].
    + rewrite andb_true_iff, IH. split.
      * intros [->%Ascii.eqb_eq [post ->]]. by exists post.
      * intros [post H]. rewrite append_cons in H. injection H as -> ->.
        split; [apply Ascii.eqb_refl | by exists post].
Qed.

Lemma contains_spec sub s :
  pystr.contains sub s = true <-> exists pre post, s = pre +:+ sub +:+ post.
Proof.
  induction s as [| c s IH].
  - simpl. rewrite orb_false_r, startswith_spec. split.
    + intros [post H]. by exists "", post.
    + intros (pre & post & H). symmetry in H.
      apply append_eq_nil in H as [-> H]. by exists post.
  - cbn [pystr.contains]. rewrite orb_true_iff, startswith_spec, IH. split.
    + intros [[post H] | (pre & post & H)].
      * by exists "", post.
      * exists (String c pre), post. by rewrite append_cons, H.
    + intros (pre & post & H). destruct pre as [| a pre].
      * left. by exists post.
      * right. rewrite append_cons in H. injection H as -> ->. by exists pre, post.
Qed.

Lemma contains_inside pre sub post s :
  pystr.contains (pre +:+ sub +:+ post) s = true -> pystr.contains sub s = true.
Proof.
  rewrite !contains_spec. intros (a & b & ->).
  exists (a +:+ pre), (post +:+ b). by rewrite !append_assoc.
Qed.

Section WithLibraries.
Context {lib : datetime.Library} {str : pystr.Library}.

(** X18: the keyword [appointment] shadows the later ones.  A message whose
    lower-case form contains [appointment], so also one that contains
    [my appointments], is classified as [identify_user], [fetch_slots] or
    [book_appointment] (or the classifier raises); it is never classified as
    retrieving, cancelling, modifying, ending or unknown, whatever else it
    says. *)
Theorem appointment_keyword_shadows :
  forall (message : string) (c : ConversationContext),
    pystr.contains "appointment" (pystr.lower message) = true
    \/ pystr.contains "my appointments" (pystr.lower message) = true ->
    match router.classify_intent message c with
    | Value (intent, _) =>
        intent ∈ ["identify_user"; "fetch_slots"; "book_appointment"]
    | IndexError => True
    end.
Proof.
  intros message c H.
  assert (Ha : pystr.contains "appointment" (pystr.lower message) = true).
  { destruct H as [H | H]; [done |].
    by apply (contains_inside "my " "appointment" "s"). }
  unfold router.classify_intent.
  destruct (pystr.any_in ["phone"; _; _; _] _).
  { destruct (router._extract_phone_and_name message); [| done].
    apply list_elem_of_here. }
  destruct (pystr.any_in ["available"; _; _; _] _).
  { apply list_elem_of_further, list_elem_of_here. }
  assert (pystr.any_in ["book"; "schedule"; "appointment"] (pystr.lower message)
          = true) as ->.
  { unfold pystr.any_in. cbn [existsb]. rewrite Ha. by rewrite !orb_true_r. }
  do 2 apply list_elem_of_further. apply list_elem_of_here.
Qed.

End WithLibraries.

Lemma appointment_keyword_shadows_witness :
  match router.classify_intent (str := pystr.latin1) "Cancel my appointment"
          (fresh sample.now) with
  | Value (intent, _) =>
      intent ∈ ["identify_user"; "fetch_slots"; "book_appointment"]
  | IndexError => True
  end.
Proof.
  apply (appointment_keyword_shadows (str := pystr.latin1)).
  left. vm_compute. reflexivity.
Defined.

Section WithLibraries.
Context {lib : datetime.Library} {str : pystr.Library}.

Lemma classify_intent_cases message c :
  router.classify_intent message c = IndexError
  \/ (exists e, router.classify_intent message c = Value ("identify_user", e))
  \/ router.classify_intent message c = Value ("fetch_slots", ∅)
  \/ router.classify_intent message c
     = Value ("book_appointment", router._extract_booking_details message)
  \/ router.classify_intent message c = Value ("retrieve_appointments", ∅)
  \/ router.classify_intent message c
     = Value ("cancel_appointment", <["appointment_id" := VStr "mock_id"]> ∅)
  \/ router.classify_intent message c
     = Value ("modify_appointment", <["appointment_id" := VStr "mock_id"]> ∅)
  \/ router.classify_intent message c = Value ("end_conversation", ∅)
  \/ router.classify_intent message c = Value ("unknown", ∅).
Proof.
  unfold router.classify_intent.
  repeat case_match; eauto 12.
Qed.

Lemma call_mock_booking_store t c db now e o c' db' :
  t <> router.cancel_appointment -> t <> router.modify_appointment ->
  (t = router.book_appointment ->
   e = <["date" := VStr "2026-01-28"]>
         (<["time" := VStr "14:00"]> (<["notes" := VNone]> ∅))) ->
  at_most_the_mock_booking db ->
  router.call t c db now e = (o, c', db') ->
  at_most_the_mock_booking db'.
Proof.
  intros Hc Hm Hb Hdb. unfold router.call.
  destruct (negb (router.binds t e)); [by intros; simplify_eq |].
  destruct t; try done.
  - unfold tools.identify_user. by_branches ltac:(done).
  - unfold tools.fetch_slots. by_branches ltac:(done).
  - rewrite (Hb eq_refl).
    replace (router.arg _ "date") with (VStr "2026-01-28") by reflexivity.
    replace (router.arg _ "time") with (VStr "14:00") by reflexivity.
    replace (router.arg _ "notes") with VNone by reflexivity.
    unfold tools.book_appointment, database.create_appointment.
    destruct Hdb as [-> | (a & -> & Hid & Hd & Ht & Hs)].
    + by_branches ltac:(first [by left | right; eexists; by split_and!]).
    + assert (existsb (database.booked_at (VStr "2026-01-28") (VStr "14:00")) [a]
              = true) as ->.
      { simpl. rewrite orb_false_r. apply booked_at_true. done. }
      by_branches ltac:(right; exists a; by split_and!).
  - unfold tools.retrieve_appointments, database.get_user_appointments.
    by_branches ltac:(done).
  - unfold tools.end_conversation. by_branches ltac:(done).
Qed.

Lemma mock_id_is_not_booked db :
  at_most_the_mock_booking db -> database.find_id (VStr "mock_id") db = None.
Proof.
  intros [-> | (a & -> & Hid & _)]; [done |].
  unfold database.find_id. simpl. rewrite Hid.
  rewrite decide_False; [done | discriminate].
Qed.

(** X19: through [dispatch_tool] the store never holds more than one
    appointment.  The classifier always asks to book 2026-01-28 at 14:00, to
    cancel the id [mock_id], which no record has, and to modify without a new
    date or time; so if the store is empty or holds just [mock_1] booked on
    that slot, it is so again after any message, from any context, at any
    instant. *)
Theorem dispatch_tool_keeps_one_mock_booking :
  forall (message : string) (c : ConversationContext)
    (db : database.AppointmentDB) (now : Z),
    at_most_the_mock_booking db ->
    at_most_the_mock_booking (snd (router.dispatch_tool message c db now)).
Proof.
  intros message c db now Hdb. unfold router.dispatch_tool.
  destruct (classify_intent_cases message c)
    as [-> | [[e ->] | [-> | [-> | [-> | [-> | [-> | [-> | ->]]]]]]]];
    try done.
  - (* identify_user *)
    unfold router.validate_and_dispatch.
    replace (router.tool_functions "identify_user") with (Some router.identify_user)
      by reflexivity.
    destruct (router._validate_state_for_intent _ c); [done |].
    destruct (router.call _ c db now e) as [[o c1] db1] eqn:E.
    apply call_mock_booking_store in E; try done.
    by destruct o.
  - unfold router.validate_and_dispatch.
    replace (router.tool_functions "fetch_slots") with (Some router.fetch_slots)
      by reflexivity.
    destruct (router._validate_state_for_intent _ c); [done |].
    destruct (router.call _ c db now ∅) as [[o c1] db1] eqn:E.
    apply call_mock_booking_store in E; try done.
    by destruct o.
  - unfold router.validate_and_dispatch.
    replace (router.tool_functions "book_appointment")
      with (Some router.book_appointment) by reflexivity.
    destruct (router._validate_state_for_intent _ c); [done |].
    destruct (router.call _ c db now _) as [[o c1] db1] eqn:E.
    apply call_mock_booking_store in E; try done.
    by destruct o.
  - unfold router.validate_and_dispatch.
    replace (router.tool_functions "retrieve_appointments")
      with (Some router.retrieve_appointments) by reflexivity.
    destruct (router._validate_state_for_intent _ c); [done |].
    destruct (router.call _ c db now ∅) as [[o c1] db1] eqn:E.
    apply call_mock_booking_store in E; try done.
    by destruct o.
  - (* cancel_appointment with mock_id *)
    unfold router.validate_and_dispatch.
    replace (router.tool_functions "cancel_appointment")
      with (Some router.cancel_appointment) by reflexivity.
    destruct (router._validate_state_for_intent _ c); [done |].
    unfold router.call.
    replace (router.binds _ _) with true by reflexivity. simpl.
    replace (router.arg _ "appointment_id") with (VStr "mock_id") by reflexivity.
    unfold tools.cancel_appointment, database.cancel_appointment.
    rewrite (mock_id_is_not_booked db Hdb).
    destruct (negb (is_identified c)); done.
  - (* modify_appointment without a new date or time *)
    unfold router.validate_and_dispatch.
    replace (router.tool_functions "modify_appointment")
      with (Some router.modify_appointment) by reflexivity.
    destruct (router._validate_state_for_intent _ c); [done |].
    unfold router.call.
    replace (router.binds _ _) with true by reflexivity. simpl.
    replace (router.arg _ "appointment_id") with (VStr "mock_id") by reflexivity.
    replace (router.arg _ "new_date") with VNone by reflexivity.
    replace (router.arg _ "new_time") with VNone by reflexivity.
    unfold tools.modify_appointment.
    destruct (negb (is_identified c)); done.
Qed.

End WithLibraries.

Lemma dispatch_tool_keeps_one_mock_booking_witness :
  at_most_the_mock_booking
    (snd (router.dispatch_tool (lib := datetime.calendar) (str := pystr.latin1)
            "Please book an appointment" sample.identified database.empty
            sample.now)).
Proof.
  apply (dispatch_tool_keeps_one_mock_booking (lib := datetime.calendar)
           (str := pystr.latin1)).
  left. reflexivity.
Defined.

Section WithLibraries.
Context {lib : datetime.Library} {str : pystr.Library}.

Lemma _extract_phone_and_name_cases message :
  router._extract_phone_and_name message = IndexError
  \/ exists name,
       router._extract_phone_and_name message
       = Value (<["phone" := of_optional (pystr.search_phone false message)]>
                  (<["name" := name]> ∅)).
Proof.
  unfold router._extract_phone_and_name.
  repeat case_match; eauto.
Qed.

(** X20: a message that asks to identify but holds no phone number the
    extractor finds never identifies the caller.  The extractor passes
    [None] as the phone, [identify_user] raises on [None.strip()], and the
    dispatcher turns that into a failure whose text is the Python error; in
    every case the context and the store are left as they were. *)
Theorem identify_without_phone_changes_nothing :
  forall (message : string) (c : ConversationContext)
    (db : database.AppointmentDB) (now : Z),
    pystr.any_in ["phone"; "number"; "identify"; "my name is"]
      (pystr.lower message) = true ->
    pystr.search_phone false message = None ->
    match router.dispatch_tool message c db now with
    | (Value (r, intent, _), c', db') =>
        intent = "identify_user" /\ success r = false /\ c' = c /\ db' = db
        /\ (state c = UNIDENTIFIED ->
            error r
            = Some "Error executing identify_user: 'NoneType' object has no attribute 'strip'")
    | (IndexError, c', db') => c' = c /\ db' = db
    end.
Proof.
  intros message c db now Hkw Hno.
  unfold router.dispatch_tool, router.classify_intent. rewrite Hkw.
  destruct (_extract_phone_and_name_cases message) as [-> | [name ->]]; [done |].
  rewrite Hno.
  unfold router.validate_and_dispatch.
  replace (router.tool_functions "identify_user") with (Some router.identify_user)
    by reflexivity.
  unfold router._validate_state_for_intent.
  replace (String.eqb "identify_user" "identify_user") with true by reflexivity.
  case_bool_decide as Hst.
  - split_and!; try done.
  - unfold router.call.
    replace (router.binds _ _) with true by (vm_compute; reflexivity).
    replace (router.arg _ "phone") with VNone by reflexivity.
    simpl. split_and!; done.
Qed.

End WithLibraries.

Lemma identify_without_phone_changes_nothing_witness :
  match router.dispatch_tool (lib := datetime.calendar) (str := pystr.latin1)
          "My phone number is 555-1234" (fresh sample.now) database.empty
          sample.now with
  | (Value (r, intent, _), c', db') =>
      intent = "identify_user" /\ success r = false /\ c' = fresh sample.now
      /\ db' = database.empty
      /\ (state (fresh sample.now) = UNIDENTIFIED ->
          error r
          = Some "Error executing identify_user: 'NoneType' object has no attribute 'strip'")
  | (IndexError, c', db') => c' = fresh sample.now /\ db' = database.empty
  end.
Proof.
  apply (identify_without_phone_changes_nothing (lib := datetime.calendar)
           (str := pystr.latin1)).
  - vm_compute. reflexivity.
  - vm_compute. reflexivity.
Defined.

(** *** A name announced and not given *)

Lemma lstrip_nil_cons c s :
  lstrip (String c s) = "" <-> is_space c = true /\ lstrip s = "".
Proof.
  simpl. destruct (is_space c); intuition congruence.
Qed.

Lemma lstrip_head s c r : lstrip s = String c r -> is_space c = false.
Proof.
  induction s as [| a s IH]; simpl; [done |].
  destruct (is_space a) eqn:E; [done |]. by intros [= <- _].
Qed.

Lemma strip_nil s : strip s = "" <-> lstrip s = "".
Proof.
  unfold strip. split; [| by intros ->].
  destruct (lstrip s) as [| c r] eqn:E; [done |].
  apply lstrip_head in E. simpl. rewrite E. by destruct (rstrip r).
Qed.

Lemma lstrip_of_spaces l :
  Forall (fun c => is_space c = true) l -> lstrip (string_of_list_ascii l) = "".
Proof.
  induction 1 as [| c l Hc _ IH]; [done |].
  change (string_of_list_ascii (c :: l)) with (String c (string_of_list_ascii l)).
  by apply lstrip_nil_cons.
Qed.

Lemma split_aux_blank sep0 sep t : forall cur,
  is_space sep0 = false ->
  lstrip t = "" -> Forall (fun c => is_space c = true) cur ->
  exists x, pystr.split_aux (String sep0 sep) 0 cur t = [x] /\ lstrip x = "".
Proof.
  intros cur Hsep. revert cur.
  induction t as [| c t IH]; intros cur Ht Hcur.
  - eexists. split; [reflexivity |].
    apply lstrip_of_spaces. by apply Forall_rev.
  - apply lstrip_nil_cons in Ht as [Hc Ht].
    cbn [pystr.split_aux pystr.startswith].
    destruct (Ascii.eqb_spec sep0 c) as [-> | _]; [congruence |].
    cbn [andb]. apply IH; [done |]. by constructor.
Qed.

Lemma split_aux_not_nil sep s : forall skip cur,
  pystr.split_aux sep skip cur s <> [].
Proof.
  induction s as [| c s IH]; intros skip cur; cbn [pystr.split_aux]; [done |].
  destruct skip; [| apply IH].
  destruct (pystr.startswith sep (String c s)); [done | apply IH].
Qed.

Lemma last_cons_not_nil {A} (a d : A) l : l <> [] -> List.last (a :: l) d = List.last l d.
Proof. by destruct l. Qed.

(** No proper suffix of [my name is] is a prefix of it: an occurrence that
    starts before another one ends before it. *)
Lemma my_name_is_has_no_border c s t :
  pystr.startswith "my name is" (String c (s +:+ "my name is" +:+ t)) = true ->
  (9 <= String.length s)%nat.
Proof.
  intros [post H]%startswith_spec. revert H.
  do 9 (destruct s as [| ? s];
        [rewrite ?append_cons, ?append_nil_l; intros; simplify_eq |]).
  intros _. simpl. lia.
Qed.

Lemma split_my_name_is_blank t : forall s skip cur,
  lstrip t = "" -> (skip <= String.length s)%nat ->
  lstrip (List.last (pystr.split_aux "my name is" skip cur
                       (s +:+ "my name is" +:+ t)) "") = "".
Proof.
  intros s skip cur Ht. revert skip cur.
  induction s as [| c s IH]; intros skip cur Hskip.
  - assert (skip = 0%nat) as -> by (simpl in Hskip; lia).
    rewrite append_nil_l, !append_cons, append_nil_l.
    cbn [pystr.split_aux pystr.startswith String.length Nat.sub].
    replace (Ascii.eqb "m" "m") with true by reflexivity.
    destruct (split_aux_blank "m" "y name is" t []) as (x & Hx & Hb);
      [done | done | constructor |].
    cbn. cbn in Hx. by rewrite Hx.
  - rewrite append_cons. destruct skip as [| k].
    + cbn [pystr.split_aux].
      destruct (pystr.startswith _ _) eqn:E.
      * apply my_name_is_has_no_border in E.
        rewrite last_cons_not_nil by apply split_aux_not_nil.
        apply IH. simpl. lia.
      * apply IH. lia.
    + cbn [pystr.split_aux]. apply IH. simpl in Hskip. lia.
Qed.

Section WithLibraries.
Context {lib : datetime.Library} {str : pystr.Library}.

(** X21: a name announced and not given raises.  When the lowered message
    ends in [my name is] followed by nothing but white space, the name
    extractor takes [split()[0]] of an empty list: [dispatch_tool] raises
    [IndexError] instead of returning a result, whatever precedes the phrase,
    and the context and the store are as before. *)
Theorem dangling_name_raises_index_error :
  forall (message before blank : string) (c : ConversationContext)
    (db : database.AppointmentDB) (now : Z),
    pystr.lower message = before +:+ "my name is" +:+ blank ->
    strip blank = "" ->
    router.dispatch_tool message c db now = (IndexError, c, db).
Proof.
  intros message before blank c db now Hlow Hblank%strip_nil.
  assert (pystr.contains "my name is" (pystr.lower message) = true) as Hin.
  { apply contains_spec. by exists before, blank. }
  unfold router.dispatch_tool, router.classify_intent.
  unfold pystr.any_in at 1. cbn [existsb]. rewrite Hin, !orb_true_r.
  unfold router._extract_phone_and_name. rewrite Hin.
  unfold router.name_after, pystr.split. rewrite Hlow.
  pose proof (split_my_name_is_blank blank before 0 [] Hblank) as H.
  apply strip_nil in H; [| lia]. by rewrite H.
Qed.

End WithLibraries.

Lemma dangling_name_raises_index_error_witness :
  router.dispatch_tool (lib := datetime.calendar) (str := pystr.latin1)
    "Hello, My name is " (fresh sample.now) database.empty sample.now
  = (IndexError, fresh sample.now, database.empty).
Proof.
  apply (dangling_name_raises_index_error (lib := datetime.calendar)
           (str := pystr.latin1) _ "hello, " " ").
  - vm_compute. reflexivity.
  - vm_compute. reflexivity.
Defined.

(** *** Numbers the extractor finds and [identify_user] *)

Lemma digit_is_no_other c :
  is_digit c = true ->
  is_space c = false /\ c <> "-"%char /\ c <> " "%char /\ c <> "("%char
  /\ c <> ")"%char /\ c <> "+"%char /\ c <> "010"%char.
Proof.
  destruct c as [[] [] [] [] [] [] [] []]; intros H; try discriminate H;
    split_and!; done.
Qed.

Lemma remove_char_app c s1 s2 :
  remove_char c (s1 +:+ s2) = remove_char c s1 +:+ remove_char c s2.
Proof.
  induction s1 as [| a s1 IH]; [done |].
  rewrite append_cons. simpl. destruct (Ascii.eqb a c); [done |].
  by rewrite append_cons, IH.
Qed.

Lemma remove_char_digits c s :
  is_digit c = false -> all_digits s = true -> remove_char c s = s.
Proof.
  intros Hc. induction s as [| a s IH]; [done |].
  simpl. intros [Ha Hs]%andb_true_iff.
  destruct (Ascii.eqb_spec a c) as [-> | _]; [congruence |]. by rewrite IH.
Qed.

Lemma rstrip_digits s : all_digits s = true -> rstrip s = s.
Proof.
  induction s as [| a s IH]; [done |].
  simpl. intros [Ha Hs]%andb_true_iff. rewrite IH by done.
  apply digit_is_no_other in Ha as [-> _]. by destruct s.
Qed.

Lemma rstrip_app s1 s2 : s2 <> "" -> rstrip s2 = s2 -> rstrip (s1 +:+ s2) = s1 +:+ s2.
Proof.
  intros Hne H2. induction s1 as [| a s1 IH]; [done |].
  rewrite append_cons. simpl. rewrite IH.
  destruct (s1 +:+ s2) eqn:E; [| done].
  by apply append_eq_nil in E as [_ ?].
Qed.

Lemma take_digits_Some n : forall s ds rest,
  pystr.take_digits n s = Some (ds, rest) ->
  s = ds +:+ rest /\ all_digits ds = true /\ String.length ds = n.
Proof.
  induction n as [| n IH]; intros s ds rest; simpl.
  - by intros [= <- <-].
  - destruct s as [| c s]; [done |].
    destruct (is_digit c) eqn:Hc; [| done].
    destruct (pystr.take_digits n s) as [[ds' rest'] |] eqn:E; [| done].
    intros [= <- <-]. apply IH in E as (-> & Hd & Hl).
    rewrite append_cons. simpl. by rewrite Hc, Hd, Hl.
Qed.

Lemma take_sep_cases s p rest :
  pystr.take_sep s = (p, rest) ->
  s = p +:+ rest
  /\ (p = "" \/ exists c, p = String c "" /\ pystr.is_sep c = true).
Proof.
  unfold pystr.take_sep. destruct s as [| c s].
  - intros [= <- <-]. auto.
  - destruct (pystr.is_sep c) eqn:Hc; intros [= <- <-]; eauto.
Qed.

(** The shape of a match of [\d{3}[-.\s]?\d{3}[-.\s]?\d{4}]. *)
Lemma phone_here_shape s p :
  pystr.phone_here s = Some p ->
  exists d1 p1 d2 p2 d3,
    p = d1 +:+ p1 +:+ d2 +:+ p2 +:+ d3
    /\ all_digits d1 = true /\ String.length d1 = 3%nat
    /\ (p1 = "" \/ exists c, p1 = String c "" /\ pystr.is_sep c = true)
    /\ all_digits d2 = true /\ String.length d2 = 3%nat
    /\ (p2 = "" \/ exists c, p2 = String c "" /\ pystr.is_sep c = true)
    /\ all_digits d3 = true /\ String.length d3 = 4%nat.
Proof.
  unfold pystr.phone_here.
  destruct (pystr.take_digits 3 s) as [[d1 r1] |] eqn:E1; [| done].
  destruct (pystr.take_sep r1) as [p1 r2] eqn:S1.
  destruct (pystr.take_digits 3 r2) as [[d2 r3] |] eqn:E2; [| done].
  destruct (pystr.take_sep r3) as [p2 r4] eqn:S2.
  destruct (pystr.take_digits 4 r4) as [[d3 r5] |] eqn:E3; [| done].
  apply take_digits_Some in E1 as (_ & ? & ?), E2 as (_ & ? & ?),
    E3 as (_ & ? & ?).
  apply take_sep_cases in S1 as [_ ?], S2 as [_ ?].
  intros Hp. exists d1, p1, d2, p2, d3.
  split_and!; try done.
  destruct r5 as [| c r5]; [by injection Hp |].
  destruct (pystr.is_word c); [done | by injection Hp].
Qed.

Lemma search_phone_here s : forall after_word p,
  pystr.search_phone after_word s = Some p ->
  exists s', pystr.phone_here s' = Some p.
Proof.
  induction s as [| c s IH]; intros after_word p; cbn [pystr.search_phone].
  - destruct after_word; [done |].
    destruct (pystr.phone_here "") eqn:E; [| done]. intros [= <-]. eauto.
  - destruct after_word.
    + apply IH.
    + destruct (pystr.phone_here (String c s)) eqn:E.
      * intros [= <-]. eauto.
      * apply IH.
Qed.

Lemma plainly_written_app s1 s2 :
  plainly_written (s1 +:+ s2) = plainly_written s1 && plainly_written s2.
Proof.
  induction s1 as [| c s1 IH]; [done |].
  rewrite append_cons. simpl. by rewrite IH, andb_assoc.
Qed.

Lemma plainly_written_digits s : all_digits s = true -> plainly_written s = true.
Proof.
  induction s as [| c s IH]; [done |].
  simpl. intros [-> Hs]%andb_true_iff. by rewrite IH.
Qed.

(** What the four replacements leave of a separator: nothing of a hyphen or
    a space, the separator itself otherwise. *)
Lemma separator_normalized p :
  p = "" \/ (exists c, p = String c "" /\ pystr.is_sep c = true) ->
  let q := remove_char ")" (remove_char "(" (remove_char " " (remove_char "-" p))) in
  (q = "" /\ plainly_written p = true)
  \/ (exists c, q = String c "" /\ is_digit c = false /\ plainly_written p = false).
Proof.
  intros [-> | (c & -> & H)]; [by left |].
  destruct c as [[] [] [] [] [] [] [] []]; try discriminate H;
    first [by left | right; by eexists].
Qed.

(** A string of digits before a final newline does not end in a digit. *)
Lemma newline_is_last body : forall m d,
  body +:+ String "010" "" = m +:+ d -> all_digits body = true ->
  all_digits d = true -> d = "".
Proof.
  induction body as [| b body IH]; intros m d H Hb Hd.
  - rewrite append_nil_l in H. symmetry in H.
    apply append_eq_cons in H as [[-> ->] | (m' & -> & H)]; [done |].
    symmetry in H. by apply append_eq_nil in H as [_ ?].
  - rewrite append_cons in H. symmetry in H.
    simpl in Hb. apply andb_true_iff in Hb as [_ Hb].
    apply append_eq_cons in H as [[-> ->] | (m' & -> & H)].
    + simpl in Hd. apply andb_true_iff in Hd as [_ Hd].
      rewrite all_digits_app in Hd. by apply andb_true_iff in Hd as [_ ?].
    + by eapply IH.
Qed.

(** On a string that starts and ends with a digit the phone pattern asks for
    digits only. *)
Lemma phone_pattern_between_digits a m d :
  is_digit a = true -> all_digits d = true -> d <> "" ->
  re.match_ re.PHONE (String a m +:+ d) = true
  <-> all_digits (String a m +:+ d) = true
      /\ (10 <= String.length (String a m +:+ d))%nat.
Proof.
  intros Ha Hd Hne. rewrite phone_pattern_language. split.
  - intros (sign & body & nl & H & Hsign & Hbody & Hlen & Hnl).
    destruct Hsign as [-> | ->].
    + rewrite append_nil_l in H. destruct Hnl as [-> | ->].
      * rewrite append_nil_r in H. by rewrite H.
      * symmetry in H. by apply newline_is_last in H.
    + rewrite !append_cons, append_nil_l in H. injection H as -> _.
      by apply digit_is_no_other in Ha as (_ & _ & _ & _ & _ & ? & _).
  - intros [Hall Hlen]. exists "", (String a m +:+ d), "".
    by rewrite append_nil_l, append_nil_r; split_and!; auto.
Qed.

(** X22: a number the extractor finds identifies the caller exactly when it
    is written with digits, hyphens and spaces only.  [identify_user] returns
    a result on it; the result is a success iff no separator is a dot or
    white space other than a space; on success the phone kept is the ten
    digits, and on failure the context is as before. *)
Theorem found_phone_identifies_iff_plain :
  forall (message p : string) (c : ConversationContext)
    (db : database.AppointmentDB) (name : pyval),
    pystr.search_phone false message = Some p ->
    exists r c',
      tools.identify_user c db (VStr p) name = (Return r, c', db)
      /\ (success r = true <-> plainly_written p = true)
      /\ (success r = true ->
          exists digits, user_phone c' = Some digits
            /\ all_digits digits = true /\ String.length digits = 10%nat)
      /\ (success r = false -> c' = c).
Proof.
  intros message p c db name [s Hs]%search_phone_here.
  apply phone_here_shape in Hs
    as (d1 & p1 & d2 & p2 & d3 & -> & H1 & L1 & S1 & H2 & L2 & S2 & H3 & L3).
  assert (d3 <> "") as Hne by (intros ->; done).
  destruct d1 as [| a d1]; [done |].
  pose proof H1 as Ha. simpl in Ha. apply andb_true_iff in Ha as [Ha _].
  pose proof (digit_is_no_other a Ha) as (Hsp & _).
  unfold tools.identify_user, tools.normalize_phone.
  assert (strip (String a d1 +:+ p1 +:+ d2 +:+ p2 +:+ d3)
          = String a d1 +:+ p1 +:+ d2 +:+ p2 +:+ d3) as ->.
  { unfold strip. rewrite append_cons. cbn [lstrip]. rewrite Hsp.
    rewrite <- append_cons, <- !append_assoc.
    apply rstrip_app; [done | by apply rstrip_digits]. }
  rewrite !remove_char_app.
  rewrite !(remove_char_digits _ (String a d1)), !(remove_char_digits _ d2),
    !(remove_char_digits _ d3) by done.
  rewrite !plainly_written_app, !(plainly_written_digits _ H1),
    !(plainly_written_digits _ H2), !(plainly_written_digits _ H3).
  rewrite !andb_true_l, andb_true_r.
  apply separator_normalized in S1, S2. cbv zeta in S1, S2.
  set (n := String a d1 +:+ _).
  assert (re.match_ re.PHONE n = true
          <-> all_digits n = true /\ (10 <= String.length n)%nat) as Hn.
  { subst n. rewrite <- !append_assoc, !append_cons, <- append_cons.
    by apply phone_pattern_between_digits. }
  assert (all_digits n = true
          <-> plainly_written p1 && plainly_written p2 = true) as Hd.
  { subst n. rewrite !all_digits_app, H1, H2, H3.
    destruct S1 as [[-> ->] | (c1 & -> & Hc1 & ->)],
      S2 as [[-> ->] | (c2 & -> & Hc2 & ->)]; simpl;
      rewrite ?Hc1, ?Hc2; done. }
  assert (all_digits n = true -> String.length n = 10%nat) as Hl.
  { subst n. rewrite !all_digits_app, H1, H2, H3, !length_append, L1, L2, L3.
    destruct S1 as [[-> _] | (c1 & -> & Hc1 & _)],
      S2 as [[-> _] | (c2 & -> & Hc2 & _)]; simpl;
      rewrite ?Hc1, ?Hc2; done. }
  clearbody n.
  destruct (re.match_ re.PHONE n) eqn:E; cbn [negb].
  - destruct (proj1 Hn eq_refl) as [Hall _].
    eexists _, _. split_and!; [done | | | done].
    + simpl. rewrite <- Hd. done.
    + intros _. exists n. rewrite transition_to_user_phone. simpl. auto.
  - eexists _, _. split_and!; [done | | done | done].
    simpl. rewrite <- Hd. split; [done |]. intros Hall.
    apply Hn. split; [done |]. rewrite Hl by done. lia.
Qed.

Lemma found_phone_identifies_iff_plain_witness :
  exists r c',
    tools.identify_user (fresh sample.now) database.empty (VStr "555 123-4567")
      (VStr "John")
    = (Return r, c', database.empty)
    /\ (success r = true <-> plainly_written "555 123-4567" = true)
    /\ (success r = true ->
        exists digits, user_phone c' = Some digits
          /\ all_digits digits = true /\ String.length digits = 10%nat)
    /\ (success r = false -> c' = fresh sample.now).
Proof.
  apply (found_phone_identifies_iff_plain "Call me on 555 123-4567, thanks").
  vm_compute. reflexivity.
Defined.
